(** * QueryGenerator: the KBQA query planner of
    deeppavlov/models/kbqa/query_generator.py

    A shallow embedding of the planner (template dispatch, fallback chain and
    the per-template subgraph searches) and the properties of it that the
    specification states.

    Python objects are modelled as follows.
    - Entity ids, relation ids, questions: [string].
    - A candidate output (a Python tuple of strings of length 2 or 3):
      [list string]; its arity is its [length].
    - [self.template_num] and the calls made to the collaborators
      ([wiki_parser], [rel_ranker.rank_rels], [linker]): a state record that
      every method threads; the calls are recorded in the order they are made.
    - Exceptions and the [return] statements inside nested loops: outcomes of
      a small monad.
    - The collaborators (knowledge-graph access, ranker, linker, the helpers
      of deeppavlov.models.kbqa.utils, nltk) are not part of the file: they
      are the fields of an environment record, functions of their arguments
      that return fresh lists. *)

From Stdlib Require Import List String Ascii ZArith Bool Lia DecimalString Sorted.
Import ListNotations.
Local Open Scope string_scope.
Local Open Scope Z_scope.
Local Open Scope list_scope.

(** ** Python values and builtins *)

Module Py.

(** The exceptions the planner can raise. *)
Inductive pyexc : Type :=
  | IndexError
  | AttributeError
  | ValueError
  | UnboundLocalError.

(** [l[:n]] for an int [n]: a negative [n] counts from the end. *)
Definition take {A : Type} (n : Z) (l : list A) : list A :=
  if 0 <=? n then firstn (Z.to_nat n) l
  else firstn (Z.to_nat (Z.of_nat (List.length l) + n)) l.

(** [len(l) > 0], the truth value of a list. *)
Definition nonempty {A : Type} (l : list A) : bool :=
  match l with [] => false | _ :: _ => true end.

(** The truth value of a str. *)
Definition truthy (s : string) : bool :=
  match s with EmptyString => false | String _ _ => true end.

(** [str(n)] for a length [n]. *)
Definition str (n : nat) : string := NilZero.string_of_uint (Nat.to_uint n).

(** The double quote character. *)
Definition dquote : ascii := ascii_of_nat 34.

(** The text after the first double quote of [s], if there is one. *)
Fixpoint after_first_quote (s : string) : option string :=
  match s with
  | EmptyString => None
  | String c s' => if Ascii.eqb c dquote then Some s' else after_first_quote s'
  end.

(** The longest prefix of [s] without a double quote. *)
Fixpoint upto_quote (s : string) : string :=
  match s with
  | EmptyString => EmptyString
  | String c s' => if Ascii.eqb c dquote then EmptyString else String c (upto_quote s')
  end.

(** [re.search(pattern, s)] for the pattern of the max/min searches (a double
    quote, a captured run of characters other than the double quote, then
    any number of double quotes) and its group 1: the search matches at the
    first double quote of [s] and the group is the run of other characters
    after it; [None] when [s] has no double quote. *)
Definition re_search_group1 (s : string) : option string :=
  option_map upto_quote (after_first_quote s).

Section Sorted.
Context {A K : Type}.
Variable ltb : K -> K -> bool.
Variable key : A -> K.

(** Insertion of [x] in front of a sorted list whose elements all came
    after [x]: [x] passes over the elements that compare smaller. *)
Fixpoint insert (x : A) (l : list A) : list A :=
  match l with
  | [] => [x]
  | y :: l' => if ltb (key y) (key x) then y :: insert x l' else x :: l
  end.

(** A stable sort that compares keys with [<] only, as list.sort does. When
    [<] is a strict weak order on the keys (floats without NaN), every
    stable sort returns this list. *)
Definition sort_asc (l : list A) : list A := fold_right insert [] l.

(** [sorted(l, key=key, reverse=reverse)]: with [reverse] the list is
    reversed, sorted and reversed again, which keeps equal keys in their
    original order. *)
Definition sorted (reverse : bool) (l : list A) : list A :=
  if reverse then rev (sort_asc (rev l)) else sort_asc l.
End Sorted.

End Py.

(** ** Calls to the collaborators *)

(** The first argument of [wiki_parser]. *)
Inductive what_return : Type := Rels | Objects | Triplets.

(** The arguments of one call
    [wiki_parser(what_return, direction, entity, rel, obj, type_of_rel, filter_obj)];
    [None] is the default of an optional argument. *)
Record kg_call : Type := KgCall {
  kg_what : what_return;
  kg_direction : string;
  kg_entity : string;
  kg_rel : option string;
  kg_obj : option string;
  kg_type_of_rel : option string;
  kg_filter_obj : option string
}.

(** One call to a collaborator. *)
Inductive event : Type :=
  | EvKg (c : kg_call)
  | EvRank (question : string) (rels : list string)
  | EvLink (mention : string).

(** A candidate output: a tuple of strings. *)
Definition candidate := list string.

(** The configuration and the collaborators of a [QueryGenerator]. [V] is the
    type of parsed numeric values (a Python float) and [Score] the type of
    ranking scores. [wiki_parser] stands for the modes of the knowledge-graph
    access that return strings (rels, objects) and [wiki_triplets] for the
    mode that returns (relation, qualifier relation, value) triplets.
    [list_set l] is [list(set(l))] and [list_set_inter a b] is
    [list(set(a) & set(b))], in the order the interpreter iterates the
    set. *)
Record env (V Score : Type) : Type := Env {
  (* configuration *)
  entities_to_leave : Z;
  rels_to_leave : Z;
  rels_to_leave_2hop : Z;
  rank_list_0 : list string;
  rank_list_1 : list string;
  (* collaborators *)
  wiki_parser : kg_call -> list string;
  wiki_triplets : kg_call -> list (string * string * string);
  rank_rels : string -> list string -> list (string * Score);
  linker : string -> list string * list Score;
  (* deeppavlov.models.kbqa.utils and nltk *)
  word_tokenize : string -> list string;
  extract_year : list string -> string -> string;
  extract_number : list string -> string -> string;
  asc_desc : string -> bool;
  make_entity_combs : list (list string) -> list (list string);
  (* builtins whose result is not fixed by their argument alone, or that are
     kept abstract *)
  py_float : string -> option V;
  float_lt : V -> V -> bool;
  list_set : list string -> list string;
  list_set_inter : list string -> list string -> list string
}.

Arguments entities_to_leave {V Score} _.
Arguments rels_to_leave {V Score} _.
Arguments rels_to_leave_2hop {V Score} _.
Arguments rank_list_0 {V Score} _.
Arguments rank_list_1 {V Score} _.
Arguments wiki_parser {V Score} _ _.
Arguments wiki_triplets {V Score} _ _.
Arguments rank_rels {V Score} _ _ _.
Arguments linker {V Score} _ _.
Arguments word_tokenize {V Score} _ _.
Arguments extract_year {V Score} _ _ _.
Arguments extract_number {V Score} _ _ _.
Arguments asc_desc {V Score} _ _.
Arguments make_entity_combs {V Score} _ _.
Arguments py_float {V Score} _ _.
Arguments float_lt {V Score} _ _ _.
Arguments list_set {V Score} _ _.
Arguments list_set_inter {V Score} _ _ _.

(** ** The monad of the methods *)

(** The mutable state of one question's resolution: the active template and
    the calls made so far, oldest first. *)
Record qg_state : Type := QgState {
  template_num : Z;
  calls : list event
}.

Definition set_template_num (t : Z) (st : qg_state) : qg_state :=
  QgState t (calls st).

Definition record_call (ev : event) (st : qg_state) : qg_state :=
  QgState (template_num st) (calls st ++ [ev]).

(** How a piece of a method body ends: it falls through with a value, it
    executes [return r], or it raises. *)
Inductive outcome (R A : Type) : Type :=
  | Normal (a : A)
  | Returned (r : R)
  | Raised (e : Py.pyexc).

Arguments Normal {R A} a.
Arguments Returned {R A} r.
Arguments Raised {R A} e.

Definition M (R A : Type) : Type := qg_state -> outcome R A * qg_state.

Definition ret {R A : Type} (a : A) : M R A := fun st => (Normal a, st).

Definition bind {R A B : Type} (c : M R A) (k : A -> M R B) : M R B :=
  fun st =>
    match c st with
    | (Normal a, st') => k a st'
    | (Returned r, st') => (Returned r, st')
    | (Raised e, st') => (Raised e, st')
    end.

Definition return_ {R A : Type} (r : R) : M R A := fun st => (Returned r, st).

Definition raise {R A : Type} (e : Py.pyexc) : M R A := fun st => (Raised e, st).

(** The boundary of a method: a [return] inside its body is its result. *)
Definition def_ {R R' : Type} (body : M R R) : M R' R :=
  fun st =>
    match body st with
    | (Normal r, st') => (Normal r, st')
    | (Returned r, st') => (Normal r, st')
    | (Raised e, st') => (Raised e, st')
    end.

Declare Scope qg_scope.
Delimit Scope qg_scope with qg.
Notation "x <- c1 ;; c2" := (bind c1 (fun x => c2))
  (at level 100, c1 at next level, right associativity) : qg_scope.
Notation "c1 ;; c2" := (bind c1 (fun _ => c2))
  (at level 100, right associativity) : qg_scope.
Notation "' pat <- c1 ;; c2" :=
  (bind c1 (fun x => match x with pat => c2 end))
  (at level 100, pat pattern, c1 at next level, right associativity) : qg_scope.
Local Open Scope qg_scope.

(** [for x in xs: body], the variables the body assigns being [s]. *)
Fixpoint for_ {R A S : Type} (xs : list A) (s : S) (body : A -> S -> M R S) : M R S :=
  match xs with
  | [] => ret s
  | x :: xs' => s' <- body x s ;; for_ xs' s' body
  end.

Definition get_template_num {R : Type} : M R Z :=
  fun st => (Normal (template_num st), st).

Definition put_template_num {R : Type} (t : Z) : M R unit :=
  fun st => (Normal tt, set_template_num t st).

(** [l[0]]. *)
Definition index0 {R A : Type} (l : list A) : M R A :=
  match l with
  | [] => raise Py.IndexError
  | x :: _ => ret x
  end.

(** [l[1]]. *)
Definition index1 {R A : Type} (l : list A) : M R A :=
  match l with
  | _ :: x :: _ => ret x
  | _ => raise Py.IndexError
  end.

(** [l[2]]. *)
Definition index2 {R A : Type} (l : list A) : M R A :=
  match l with
  | _ :: _ :: x :: _ => ret x
  | _ => raise Py.IndexError
  end.

(** [t[-1]]. *)
Definition index_last {R A : Type} (l : list A) : M R A :=
  match rev l with
  | [] => raise Py.IndexError
  | x :: _ => ret x
  end.

(** [t[:-1]]. *)
Definition init {A : Type} (l : list A) : list A := Py.take (-1) l.

(** ** The methods of QueryGenerator *)

Section QueryGenerator.

Context {V Score : Type}.
Variable E : env V Score.

(** [self.wiki_parser(...)] in the modes that return strings. *)
Definition call_wiki {R : Type} (c : kg_call) : M R (list string) :=
  fun st => (Normal (wiki_parser E c), record_call (EvKg c) st).

(** [self.wiki_parser("triplets", ...)]. *)
Definition call_triplets {R : Type} (c : kg_call) : M R (list (string * string * string)) :=
  fun st => (Normal (wiki_triplets E c), record_call (EvKg c) st).

(** [self.rel_ranker.rank_rels(question, rels)]. *)
Definition call_rank_rels {R : Type} (question : string) (rels : list string)
  : M R (list (string * Score)) :=
  fun st => (Normal (rank_rels E question rels), record_call (EvRank question rels) st).

(** [self.linker(entity)]. *)
Definition call_linker {R : Type} (entity : string) : M R (list string * list Score) :=
  fun st => (Normal (linker E entity), record_call (EvLink entity) st).

Definition direct : option string := Some "direct".
Definition statement : option string := Some "statement".
Definition qualifier : option string := Some "qualifier".
Definition xsd_decimal : string := "http://www.w3.org/2001/XMLSchema#decimal".

(** [re.search(...).group(1)] on a fetched literal: the search result is
    [None] when nothing matches, and [None] has no [group]. *)
Definition search_group1 {R : Type} (s : string) : M R string :=
  match Py.re_search_group1 s with
  | Some number => ret number
  | None => raise Py.AttributeError
  end.

(** [float(number)]. *)
Definition float_ {R : Type} (number : string) : M R V :=
  match py_float E number with
  | Some v => ret v
  | None => raise Py.ValueError
  end.

(** [[score[0] for score in scores]]. *)
Definition first_of_scores (scores : list (string * Score)) : list string :=
  map fst scores.

Definition get_entity_ids {R : Type} (entities : list string) : M R (list (list string)) :=
  for_ entities [] (fun entity entity_ids =>
    ' (entity_id, confidences) <- call_linker entity ;;
    ret (entity_ids ++ [Py.take 15 entity_id])).

Definition find_relevant_subgraph_cqwn {R : Type}
    (entities_list rels : list string) (num : string) : M R (list candidate) :=
  for_ entities_list [] (fun entity candidate_outputs =>
    for_ rels candidate_outputs (fun rel candidate_outputs =>
      objects_1 <- call_wiki (KgCall Objects "forw" entity (Some rel) None None None) ;;
      for_ objects_1 candidate_outputs (fun obj candidate_outputs =>
        t <- get_template_num ;;
        candidate_outputs <-
          (if t =? 0 then
             answers <- call_wiki (KgCall Objects "forw" obj (Some rel) None statement None) ;;
             second_rels <- call_wiki (KgCall Rels "forw" obj None None qualifier (Some num)) ;;
             if Py.nonempty second_rels && Py.nonempty answers then
               ret (candidate_outputs ++
                    flat_map (fun second_rel =>
                      map (fun ans => [rel; second_rel; ans]) answers) second_rels)
             else ret candidate_outputs
           else ret candidate_outputs) ;;
        t <- get_template_num ;;
        if t =? 1 then
          answer_triplets <- call_triplets (KgCall Triplets "forw" obj None None qualifier None) ;;
          second_rels <- call_wiki (KgCall Rels "forw" obj (Some rel) None statement (Some num)) ;;
          if Py.nonempty second_rels && Py.nonempty answer_triplets then
            ret (candidate_outputs ++
                 map (fun ans : string * string * string =>
                        let '(_, ans1, ans2) := ans in [rel; ans1; ans2]) answer_triplets)
          else ret candidate_outputs
        else ret candidate_outputs))).

Definition find_relevant_subgraph_cqwq {R : Type}
    (ent_combs : list (list string)) (rels : list string) : M R (list candidate) :=
  for_ ent_combs [] (fun ent_comb candidate_outputs =>
    for_ rels candidate_outputs (fun rel candidate_outputs =>
      ent_comb_0 <- index0 ent_comb ;;
      objects_1 <- call_wiki (KgCall Objects "forw" ent_comb_0 (Some rel) None None None) ;;
      for_ objects_1 candidate_outputs (fun obj candidate_outputs =>
        t <- get_template_num ;;
        candidate_outputs <-
          (if t =? 2 then
             answer_triplets <- call_triplets (KgCall Triplets "forw" obj None None qualifier None) ;;
             ent_comb_1 <- index1 ent_comb ;;
             second_rels <- call_wiki (KgCall Rels "backw" ent_comb_1 (Some rel) (Some obj) statement None) ;;
             if Py.nonempty second_rels && Py.nonempty answer_triplets then
               ret (candidate_outputs ++
                    map (fun ans : string * string * string =>
                           let '(_, ans1, ans2) := ans in [rel; ans1; ans2]) answer_triplets)
             else ret candidate_outputs
           else ret candidate_outputs) ;;
        t <- get_template_num ;;
        if t =? 3 then
          answers <- call_wiki (KgCall Objects "forw" obj (Some rel) None statement None) ;;
          ent_comb_1 <- index1 ent_comb ;;
          second_rels <- call_wiki (KgCall Rels "backw" ent_comb_1 None (Some obj) qualifier None) ;;
          if Py.nonempty second_rels && Py.nonempty answers then
            ret (candidate_outputs ++
                 flat_map (fun second_rel =>
                   map (fun ans => [rel; second_rel; ans]) answers) second_rels)
          else ret candidate_outputs
        else ret candidate_outputs))).

(** The head of both numeric and qualifier solvers: the relations of the
    template, or the ranked forward vocabulary of the first entity list. The
    second component is [ex_rels], unbound ([None]) on the template path. *)
Definition top_rels_forw {R : Type} (question : string) (entity_ids : list (list string))
    (rels_from_template : option (list (list string)))
  : M R (list string * option (list string)) :=
  match rels_from_template with
  | Some rft =>
      rft_0 <- index0 rft ;;
      ret (init rft_0, None)
  | None =>
      entity_ids_0 <- index0 entity_ids ;;
      ex_rels <- for_ (Py.take (entities_to_leave E) entity_ids_0) [] (fun entity ex_rels =>
        rs <- call_wiki (KgCall Rels "forw" entity None None direct None) ;;
        ret (ex_rels ++ rs)) ;;
      let ex_rels := list_set E ex_rels in
      scores <- call_rank_rels question ex_rels ;;
      ret (first_of_scores scores, Some ex_rels)
  end.

(** Reading a local variable that may be unbound. *)
Definition read_local {R A : Type} (x : option A) : M R A :=
  match x with
  | Some a => ret a
  | None => raise Py.UnboundLocalError
  end.

(** The two lines under [if year:] and under [if number:]. *)
Definition cqwn_with_retry {R : Type} (entity_ids : list (list string))
    (top_rels : list string) (ex_rels : option (list string)) (num : string)
  : M R (list candidate) :=
  entity_ids_0 <- index0 entity_ids ;;
  candidate_outputs <-
    find_relevant_subgraph_cqwn (Py.take (entities_to_leave E) entity_ids_0)
                                (Py.take (rels_to_leave E) top_rels) num ;;
  if Py.nonempty candidate_outputs then ret candidate_outputs
  else
    entity_ids_0 <- index0 entity_ids ;;
    ex_rels <- read_local ex_rels ;;
    find_relevant_subgraph_cqwn (Py.take (entities_to_leave E) entity_ids_0) ex_rels num.

Definition complex_question_with_number_solver {R : Type} (question : string)
    (entity_ids : list (list string)) (rels_from_template : option (list (list string)))
  : M R (list candidate) :=
  let question_tokens := word_tokenize E question in
  ' (top_rels, ex_rels) <- top_rels_forw question entity_ids rels_from_template ;;
  let year := extract_year E question_tokens question in
  let number :=
    if Py.truthy year then None else Some (extract_number E question_tokens question) in
  let candidate_outputs := [] in
  candidate_outputs <-
    (if Py.truthy year then cqwn_with_retry entity_ids top_rels ex_rels year
     else ret candidate_outputs) ;;
  match number with
  | Some number =>
      if Py.truthy number then cqwn_with_retry entity_ids top_rels ex_rels number
      else ret candidate_outputs
  | None => ret candidate_outputs
  end.

Definition complex_question_with_qualifier_solver {R : Type} (question : string)
    (entity_ids : list (list string)) (rels_from_template : option (list (list string)))
  : M R (list candidate) :=
  ' (top_rels, ex_rels) <- top_rels_forw question entity_ids rels_from_template ;;
  if (1 <? Z.of_nat (List.length entity_ids)) then
    let ent_combs := make_entity_combs E entity_ids in
    find_relevant_subgraph_cqwq ent_combs (Py.take (rels_to_leave E) top_rels)
  else ret [].

Definition questions_with_count_solver {R : Type} (question : string)
    (entity_ids : list (list string)) (rels_from_template : option (list (list string)))
  : M R (list candidate) :=
  let candidate_outputs := [] in
  ' (top_rels, directions) <-
    match rels_from_template with
    | Some rft =>
        rft_0 <- index0 rft ;;
        let top_rels := init rft_0 in
        rft_0 <- index0 rft ;;
        direction <- index_last rft_0 ;;
        ret (top_rels, [direction])
    | None =>
        ex_rels <- for_ entity_ids [] (fun entity_id ex_rels =>
          for_ (Py.take (entities_to_leave E) entity_id) ex_rels (fun entity ex_rels =>
            rs_forw <- call_wiki (KgCall Rels "forw" entity None None direct None) ;;
            rs_backw <- call_wiki (KgCall Rels "backw" entity None None direct None) ;;
            ret ((ex_rels ++ rs_forw) ++ rs_backw))) ;;
        let ex_rels := list_set E ex_rels in
        scores <- call_rank_rels question ex_rels ;;
        ret (first_of_scores scores, ["forw"; "backw"])
    end ;;
  for_ entity_ids candidate_outputs (fun entity_id candidate_outputs =>
    for_ (Py.take (entities_to_leave E) entity_id) candidate_outputs (fun entity candidate_outputs =>
      let answers : list string := [] in
      ' (candidate_outputs, answers) <-
        for_ (Py.take (rels_to_leave E) top_rels) (candidate_outputs, answers) (fun rel s =>
          for_ directions s (fun direction s =>
            let '(candidate_outputs, answers) := s in
            objects <- call_wiki (KgCall Objects direction entity (Some rel) None direct None) ;;
            let answers := answers ++ objects in
            if Py.nonempty answers then
              ret (candidate_outputs ++ [[rel; Py.str (List.length answers)]], answers)
            else ret (candidate_outputs, answers))) ;;
      ret candidate_outputs)).

Definition find_relevant_subgraph_maxmin_one {R : Type}
    (entities_list rels : list string) : M R (list (string * string * V)) :=
  def_ (
    candidate_answers <-
      for_ entities_list [] (fun entity candidate_answers =>
        objects_1 <- call_wiki (KgCall Objects "backw" entity (Some "P31") None direct None) ;;
        for_ rels candidate_answers (fun rel _ =>
          candidate_answers <-
            for_ objects_1 [] (fun obj candidate_answers =>
              objects_2 <- call_wiki (KgCall Objects "forw" obj (Some rel) None direct
                                             (Some xsd_decimal)) ;;
              match objects_2 with
              | objects_2_0 :: _ =>
                  number <- search_group1 objects_2_0 ;;
                  value <- float_ number ;;
                  ret (candidate_answers ++ [(rel, obj, value)])
              | [] => ret candidate_answers
              end) ;;
          if Py.nonempty candidate_answers then return_ candidate_answers
          else ret candidate_answers)) ;;
    ret candidate_answers).

Definition find_relevant_subgraph_maxmin_two {R : Type}
    (ent_combs : list (list string)) (rels_1 rels_2 : list string)
  : M R (list (string * string * string * V)) :=
  def_ (
    candidate_answers <-
      for_ ent_combs [] (fun ent_comb candidate_answers =>
        ent_comb_0 <- index0 ent_comb ;;
        objects_1 <- call_wiki (KgCall Objects "backw" ent_comb_0 (Some "P31") None direct None) ;;
        for_ rels_1 candidate_answers (fun rel_1 candidate_answers =>
          ent_comb_1 <- index1 ent_comb ;;
          objects_2 <- call_wiki (KgCall Objects "backw" ent_comb_1 (Some rel_1) None direct None) ;;
          let objects_intersect := list_set_inter E objects_1 objects_2 in
          for_ rels_2 candidate_answers (fun rel_2 _ =>
            candidate_answers <-
              for_ objects_intersect [] (fun obj candidate_answers =>
                objects_3 <- call_wiki (KgCall Objects "forw" obj (Some rel_2) None direct
                                               (Some xsd_decimal)) ;;
                match objects_3 with
                | objects_3_0 :: _ =>
                    number <- search_group1 objects_3_0 ;;
                    value <- float_ number ;;
                    ret (candidate_answers ++ [(rel_1, rel_2, obj, value)])
                | [] => ret candidate_answers
                end) ;;
            if Py.nonempty candidate_answers then return_ candidate_answers
            else ret candidate_answers))) ;;
    ret candidate_answers).

(** The head of [maxmin_one_entity_solver]: the relations of the template,
    or the ranking of the configured vocabulary. *)
Definition maxmin_one_top_rels {R : Type} (question : string)
    (rels_from_template : option (list (list string))) : M R (list string) :=
  match rels_from_template with
  | Some rft =>
      rft_0 <- index0 rft ;;
      ret (init rft_0)
  | None =>
      scores <- call_rank_rels question (rank_list_0 E) ;;
      ret (first_of_scores scores)
  end.

Definition maxmin_one_entity_solver {R : Type} (question : string)
    (entities_list : list string) (rels_from_template : option (list (list string)))
  : M R (list candidate) :=
  top_rels <- maxmin_one_top_rels question rels_from_template ;;
  let ascending := asc_desc E question in
  candidate_outputs <- find_relevant_subgraph_maxmin_one entities_list top_rels ;;
  let reverse := true in
  let reverse := if ascending then false else reverse in
  let candidate_outputs :=
    Py.sorted (float_lt E) (fun x : string * string * V => snd x) reverse candidate_outputs in
  let candidate_outputs :=
    map (fun output : string * string * V =>
           let '(output_0, output_1, _) := output in [output_0; output_1])
        candidate_outputs in
  match candidate_outputs with
  | candidate_outputs_0 :: _ => ret [candidate_outputs_0]
  | [] => ret candidate_outputs
  end.

(** The head of [maxmin_two_entities_solver]: the two relation lists of the
    template, or the ranked backward vocabulary of all the entities and the
    ranking of the configured vocabulary. *)
Definition maxmin_two_top_rels {R : Type} (question : string)
    (entity_ids : list (list string)) (rels_from_template : option (list (list string)))
  : M R (list string * list string) :=
  match rels_from_template with
  | Some rft =>
      rft_0 <- index0 rft ;;
      rft_1 <- index1 rft ;;
      ret (init rft_0, init rft_1)
  | None =>
      ex_rels <- for_ entity_ids [] (fun entities_list ex_rels =>
        for_ entities_list ex_rels (fun entity ex_rels =>
          rs <- call_wiki (KgCall Rels "backw" entity None None direct None) ;;
          ret (ex_rels ++ rs))) ;;
      let ex_rels := list_set E ex_rels in
      scores_1 <- call_rank_rels question ex_rels ;;
      let top_rels_1 := first_of_scores scores_1 in
      scores_2 <- call_rank_rels question (rank_list_1 E) ;;
      let top_rels_2 := first_of_scores scores_2 in
      ret (top_rels_1, top_rels_2)
  end.

Definition maxmin_two_entities_solver {R : Type} (question : string)
    (entity_ids : list (list string)) (rels_from_template : option (list (list string)))
  : M R (list candidate) :=
  ' (top_rels_1, top_rels_2) <- maxmin_two_top_rels question entity_ids rels_from_template ;;
  candidate_outputs <-
    (if 1 <? Z.of_nat (List.length entity_ids) then
       let ent_combs := make_entity_combs E entity_ids in
       candidate_outputs <-
         find_relevant_subgraph_maxmin_two ent_combs
           (Py.take (rels_to_leave E) top_rels_1) (Py.take (rels_to_leave E) top_rels_2) ;;
       let ascending := asc_desc E question in
       let reverse := false in
       let reverse := if ascending then true else reverse in
       ret (Py.sorted (float_lt E) (fun x : string * string * string * V => snd x)
                      reverse candidate_outputs)
     else ret []) ;;
  let candidate_outputs :=
    map (fun output : string * string * string * V =>
           let '(output_0, output_1, output_2, _) := output in [output_0; output_1; output_2])
        candidate_outputs in
  match candidate_outputs with
  | candidate_outputs_0 :: _ => ret [candidate_outputs_0]
  | [] => ret candidate_outputs
  end.

Definition from_template_one_ent {R : Type} (entity_ids : list (list string))
    (rels_from_template : list (list string)) : M R (list candidate) :=
  def_ (
    let candidate_outputs : list candidate := [] in
    candidate_outputs <-
      (if Z.of_nat (List.length rels_from_template) =? 1 then
         rft_0 <- index0 rels_from_template ;;
         let relations := init rft_0 in
         rft_0 <- index0 rels_from_template ;;
         direction <- index_last rft_0 ;;
         entity_ids_0 <- index0 entity_ids ;;
         for_ entity_ids_0 candidate_outputs (fun entity candidate_outputs =>
           for_ relations candidate_outputs (fun relation candidate_outputs =>
             objects <- call_wiki (KgCall Objects direction entity (Some relation) None direct None) ;;
             match objects with
             | objects_0 :: _ => return_ (candidate_outputs ++ [[relation; objects_0]])
             | [] => ret candidate_outputs
             end))
       else ret candidate_outputs) ;;
    candidate_outputs <-
      (if Z.of_nat (List.length rels_from_template) =? 2 then
         rft_0 <- index0 rels_from_template ;;
         let relations_1 := init rft_0 in
         rft_0 <- index0 rels_from_template ;;
         direction_1 <- index_last rft_0 ;;
         rft_1 <- index1 rels_from_template ;;
         let relations_2 := init rft_1 in
         rft_1 <- index1 rels_from_template ;;
         direction_2 <- index_last rft_1 ;;
         entity_ids_0 <- index0 entity_ids ;;
         for_ entity_ids_0 candidate_outputs (fun entity candidate_outputs =>
           for_ relations_1 candidate_outputs (fun relation_1 candidate_outputs =>
             objects_1 <- call_wiki (KgCall Objects direction_1 entity (Some relation_1) None direct None) ;;
             for_ objects_1 candidate_outputs (fun object_1 candidate_outputs =>
               for_ relations_2 candidate_outputs (fun relation_2 candidate_outputs =>
                 objects_2 <- call_wiki (KgCall Objects direction_2 object_1 (Some relation_2)
                                                None direct None) ;;
                 match objects_2 with
                 | object_2 :: _ =>
                     return_ (candidate_outputs ++ [[relation_1; relation_2; object_2]])
                 | [] => ret candidate_outputs
                 end))))
       else ret candidate_outputs) ;;
    ret candidate_outputs).

Definition from_template_two_ent {R : Type} (ent_combs : list (list string))
    (rels_from_template : list (list string)) : M R (list candidate) :=
  def_ (
    let candidate_outputs : list candidate := [] in
    candidate_outputs <-
      (if Z.of_nat (List.length rels_from_template) =? 1 then
         rft_0 <- index0 rels_from_template ;;
         let relations := init rft_0 in
         rft_0 <- index0 rels_from_template ;;
         direction <- index_last rft_0 ;;
         for_ ent_combs candidate_outputs (fun ent_comb candidate_outputs =>
           for_ relations candidate_outputs (fun relation candidate_outputs =>
             ent_comb_1 <- index1 ent_comb ;;
             objects_1 <- call_wiki (KgCall Objects direction ent_comb_1 (Some relation) None direct None) ;;
             for_ objects_1 candidate_outputs (fun object_1 candidate_outputs =>
               ent_comb_0 <- index0 ent_comb ;;
               objects_2 <- call_wiki (KgCall Objects direction object_1 (Some "P31")
                                              (Some ent_comb_0) direct None) ;;
               match objects_2 with
               | objects_2_0 :: _ => return_ (candidate_outputs ++ [[relation; objects_2_0]])
               | [] => ret candidate_outputs
               end)))
       else ret candidate_outputs) ;;
    candidate_outputs <-
      (if Z.of_nat (List.length rels_from_template) =? 2 then
         rft_0 <- index0 rels_from_template ;;
         let relations_1 := init rft_0 in
         rft_0 <- index0 rels_from_template ;;
         direction_1 <- index_last rft_0 ;;
         rft_1 <- index1 rels_from_template ;;
         let relations_2 := init rft_1 in
         rft_1 <- index1 rels_from_template ;;
         direction_2 <- index_last rft_1 ;;
         for_ ent_combs candidate_outputs (fun ent_comb candidate_outputs =>
           for_ relations_1 candidate_outputs (fun relation_1 candidate_outputs =>
             for_ relations_2 candidate_outputs (fun relation_2 candidate_outputs =>
               ent_comb_0 <- index0 ent_comb ;;
               objects_1 <- call_wiki (KgCall Objects direction_1 ent_comb_0 (Some relation_1)
                                              None direct None) ;;
               ent_comb_1 <- index1 ent_comb ;;
               objects_2 <- call_wiki (KgCall Objects direction_2 ent_comb_1 (Some relation_2)
                                              None direct None) ;;
               let objects_intersect := list_set_inter E objects_1 objects_2 in
               match objects_intersect with
               | objects_intersect_0 :: _ =>
                   return_ [[relation_1; relation_2; objects_intersect_0]]
               | [] => ret candidate_outputs
               end)))
       else ret candidate_outputs) ;;
    ret candidate_outputs).

Definition two_hop_two_ent {R : Type} (question : string)
    (ent_combs : list (list string)) : M R (list candidate) :=
  def_ (
    candidate_outputs <-
      for_ ent_combs [] (fun ent_comb candidate_outputs =>
        ent_comb_1 <- index1 ent_comb ;;
        rs_forw <- call_wiki (KgCall Rels "forw" ent_comb_1 None None direct None) ;;
        ent_comb_1 <- index1 ent_comb ;;
        rs_backw <- call_wiki (KgCall Rels "backw" ent_comb_1 None None direct None) ;;
        let ex_rels := list_set E (rs_forw ++ rs_backw) in
        scores <- call_rank_rels question ex_rels ;;
        let top_rels := first_of_scores scores in
        for_ top_rels candidate_outputs (fun rel candidate_outputs =>
          ent_comb_1 <- index1 ent_comb ;;
          objects_forw <- call_wiki (KgCall Objects "forw" ent_comb_1 (Some rel) None direct None) ;;
          ent_comb_1 <- index1 ent_comb ;;
          objects_backw <- call_wiki (KgCall Objects "backw" ent_comb_1 (Some rel) None direct None) ;;
          let objects_1 := objects_forw ++ objects_backw in
          for_ objects_1 candidate_outputs (fun object_1 candidate_outputs =>
            ent_comb_0 <- index0 ent_comb ;;
            objects_2 <- call_wiki (KgCall Rels "forw" object_1 None (Some ent_comb_0) direct None) ;;
            if Py.nonempty objects_2 then
              candidate_outputs <-
                for_ objects_2 candidate_outputs (fun object_2 candidate_outputs =>
                  if negb (String.eqb object_2 "P31") then
                    ret (candidate_outputs ++ [[rel; object_2; object_1]])
                  else ret (candidate_outputs ++ [[rel; object_1]])) ;;
              return_ candidate_outputs
            else ret candidate_outputs))) ;;
    ret candidate_outputs).

Definition two_hop_cqwn {R : Type} (entities_list rels : list string) (num : string)
  : M R (list candidate) :=
  def_ (
    candidate_outputs <-
      for_ entities_list [] (fun entity candidate_outputs =>
        for_ rels candidate_outputs (fun rel candidate_outputs =>
          answers <- call_wiki (KgCall Objects "forw" entity (Some rel) None direct None) ;;
          for_ answers candidate_outputs (fun ans candidate_outputs =>
            second_rels <- call_wiki (KgCall Rels "forw" ans None None direct (Some num)) ;;
            if Py.nonempty second_rels then
              return_ (candidate_outputs ++ map (fun second_rel => [rel; second_rel; ans]) second_rels)
            else ret candidate_outputs))) ;;
    ret candidate_outputs).

Definition two_hop_one_ent {R : Type} (question : string) (entities_list : list string)
  : M R (list candidate) :=
  def_ (
    let candidate_outputs : list candidate := [] in
    let question_tokens := word_tokenize E question in
    let year := extract_year E question_tokens question in
    let number :=
      if Py.truthy year then None else Some (extract_number E question_tokens question) in
    ex_rels <- for_ (Py.take (entities_to_leave E) entities_list) [] (fun entity ex_rels =>
      rs_forw <- call_wiki (KgCall Rels "forw" entity None None direct None) ;;
      rs_backw <- call_wiki (KgCall Rels "backw" entity None None direct None) ;;
      ret ((ex_rels ++ rs_forw) ++ rs_backw)) ;;
    let ex_rels := list_set E ex_rels in
    scores <- call_rank_rels question ex_rels ;;
    let top_rels := first_of_scores scores in
    if Py.truthy year then
      candidate_outputs <-
        two_hop_cqwn (Py.take (entities_to_leave E) entities_list) top_rels (substring 0 3 year) ;;
      if Py.nonempty candidate_outputs then return_ candidate_outputs
      else ret candidate_outputs
    else if match number with Some number => Py.truthy number | None => false end then
      candidate_outputs <-
        two_hop_cqwn (Py.take (entities_to_leave E) entities_list) top_rels
                     (match number with Some number => number | None => EmptyString end) ;;
      if Py.nonempty candidate_outputs then return_ candidate_outputs
      else ret candidate_outputs
    else
      ex_rels_2 <-
        for_ (Py.take (entities_to_leave E) entities_list) [] (fun entity ex_rels_2 =>
          for_ (Py.take (rels_to_leave_2hop E) top_rels) ex_rels_2 (fun rel ex_rels_2 =>
            if negb (String.eqb rel "P31") then
              objects_forw <- call_wiki (KgCall Objects "forw" entity (Some rel) None direct None) ;;
              objects_backw <- call_wiki (KgCall Objects "backw" entity (Some rel) None direct None) ;;
              let objects_mid := objects_forw ++ objects_backw in
              if Z.of_nat (List.length objects_mid) <? 15 then
                for_ objects_mid ex_rels_2 (fun obj ex_rels_2 =>
                  rs <- call_wiki (KgCall Rels "forw" obj None None direct None) ;;
                  ret (ex_rels_2 ++ rs))
              else ret ex_rels_2
            else ret ex_rels_2)) ;;
      let ex_rels_2 := list_set E ex_rels_2 in
      scores_2 <- call_rank_rels question ex_rels_2 ;;
      let top_rels_2 := first_of_scores scores_2 in
      candidate_outputs <-
        for_ (Py.take (entities_to_leave E) entities_list) candidate_outputs
          (fun entity candidate_outputs =>
            for_ (Py.take (rels_to_leave_2hop E) top_rels) candidate_outputs
              (fun rel candidate_outputs =>
                if negb (String.eqb rel "P31") then
                  objects_forw <- call_wiki (KgCall Objects "forw" entity (Some rel) None direct None) ;;
                  objects_backw <- call_wiki (KgCall Objects "backw" entity (Some rel) None direct None) ;;
                  match objects_forw ++ objects_backw with
                  | objects_0 :: _ => ret (candidate_outputs ++ [[rel; objects_0]])
                  | [] => ret candidate_outputs
                  end
                else ret candidate_outputs)) ;;
      for_ (Py.take (entities_to_leave E) entities_list) candidate_outputs
        (fun entity candidate_outputs =>
          for_ (Py.take (rels_to_leave_2hop E) top_rels) candidate_outputs
            (fun rel_1 candidate_outputs =>
              if negb (String.eqb rel_1 "P31") then
                objects_forw <- call_wiki (KgCall Objects "forw" entity (Some rel_1) None direct None) ;;
                objects_backw <- call_wiki (KgCall Objects "backw" entity (Some rel_1) None direct None) ;;
                let objects_mid := objects_forw ++ objects_backw in
                if Py.nonempty objects_mid && (Z.of_nat (List.length objects_mid) <? 15) then
                  for_ objects_mid candidate_outputs (fun obj candidate_outputs =>
                    for_ (Py.take (rels_to_leave_2hop E) top_rels_2) candidate_outputs
                      (fun rel_2 candidate_outputs =>
                        if negb (String.eqb rel_2 "P31") && negb (String.eqb rel_1 rel_2) then
                          objects <- call_wiki (KgCall Objects "forw" obj (Some rel_2) None direct None) ;;
                          match objects with
                          | objects_0 :: _ => ret (candidate_outputs ++ [[rel_1; rel_2; objects_0]])
                          | [] => ret candidate_outputs
                          end
                        else ret candidate_outputs))
                else ret candidate_outputs
              else ret candidate_outputs))).

Definition two_hop_solver {R : Type} (question : string) (entity_ids : list (list string))
    (rels_from_template : option (list (list string))) : M R (list candidate) :=
  let candidate_outputs : list candidate := [] in
  candidate_outputs <-
    (if Z.of_nat (List.length entity_ids) =? 1 then
       match rels_from_template with
       | Some rft => from_template_one_ent entity_ids rft
       | None =>
           entity_ids_0 <- index0 entity_ids ;;
           two_hop_one_ent question entity_ids_0
       end
     else ret candidate_outputs) ;;
  if 2 <=? Z.of_nat (List.length entity_ids) then
    entity_ids_0 <- index0 entity_ids ;;
    entity_ids_1 <- index1 entity_ids ;;
    let entity_ids_curr := [entity_ids_0; entity_ids_1] in
    let ent_combs := make_entity_combs E entity_ids_curr in
    match rels_from_template with
    | Some rft => from_template_two_ent ent_combs rft
    | None =>
        candidate_outputs <- two_hop_two_ent question ent_combs ;;
        if negb (Py.nonempty candidate_outputs) then
          if Z.of_nat (List.length entity_ids) =? 3 then
            entity_ids_0 <- index0 entity_ids ;;
            entity_ids_2 <- index2 entity_ids ;;
            let entity_ids_curr := [entity_ids_0; entity_ids_2] in
            let ent_combs := make_entity_combs E entity_ids_curr in
            two_hop_two_ent question ent_combs
          else
            entity_ids_1 <- index1 entity_ids ;;
            two_hop_one_ent question entity_ids_1
        else ret candidate_outputs
    end
  else ret candidate_outputs.

Definition find_candidate_answers {R : Type} (question : string)
    (entity_ids : list (list string)) (rels_from_template : option (list (list string)))
  : M R (list candidate) :=
  let candidate_outputs : list candidate := [] in
  t <- get_template_num ;;
  candidate_outputs <-
    (if (t =? 0) || (t =? 1) then
       candidate_outputs <- complex_question_with_number_solver question entity_ids None ;;
       (if negb (Py.nonempty candidate_outputs) then put_template_num 7 else ret tt) ;;
       ret candidate_outputs
     else ret candidate_outputs) ;;
  t <- get_template_num ;;
  candidate_outputs <-
    (if (t =? 2) || (t =? 3) then
       candidate_outputs <- complex_question_with_qualifier_solver question entity_ids None ;;
       (if negb (Py.nonempty candidate_outputs) then put_template_num 7 else ret tt) ;;
       ret candidate_outputs
     else ret candidate_outputs) ;;
  t <- get_template_num ;;
  candidate_outputs <-
    (if t =? 4 then questions_with_count_solver question entity_ids None
     else ret candidate_outputs) ;;
  t <- get_template_num ;;
  candidate_outputs <-
    (if t =? 5 then
       entity_ids_0 <- index0 entity_ids ;;
       maxmin_one_entity_solver question (Py.take (entities_to_leave E) entity_ids_0)
                                rels_from_template
     else ret candidate_outputs) ;;
  t <- get_template_num ;;
  candidate_outputs <-
    (if t =? 6 then
       candidate_outputs <- maxmin_two_entities_solver question entity_ids rels_from_template ;;
       if negb (Py.nonempty candidate_outputs) then
         put_template_num 5 ;;
         entity_ids_0 <- index0 entity_ids ;;
         maxmin_one_entity_solver question (Py.take (entities_to_leave E) entity_ids_0) None
       else ret candidate_outputs
     else ret candidate_outputs) ;;
  t <- get_template_num ;;
  if t =? 7 then two_hop_solver question entity_ids rels_from_template
  else ret candidate_outputs.

End QueryGenerator.

(** ** Fixtures: a stub knowledge graph and collaborators *)

Module Fixture.

Definition option_eqb (a b : option string) : bool :=
  match a, b with
  | Some x, Some y => String.eqb x y
  | None, None => true
  | _, _ => false
  end.

Definition what_eqb (a b : what_return) : bool :=
  match a, b with
  | Rels, Rels | Objects, Objects | Triplets, Triplets => true
  | _, _ => false
  end.

Definition kg_call_eqb (a b : kg_call) : bool :=
  what_eqb (kg_what a) (kg_what b)
  && String.eqb (kg_direction a) (kg_direction b)
  && String.eqb (kg_entity a) (kg_entity b)
  && option_eqb (kg_rel a) (kg_rel b)
  && option_eqb (kg_obj a) (kg_obj b)
  && option_eqb (kg_type_of_rel a) (kg_type_of_rel b)
  && option_eqb (kg_filter_obj a) (kg_filter_obj b).

(** A stub of [wiki_parser]: the answers to the listed calls, and the empty
    list to every other call. *)
Fixpoint answer {A : Type} (table : list (kg_call * list A)) (c : kg_call) : list A :=
  match table with
  | [] => []
  | (c', r) :: table' => if kg_call_eqb c c' then r else answer table' c
  end.

(** Modelled from the spec: [make_entity_combs] of deeppavlov.models.kbqa.utils,
    which is not among the sources. The Cartesian product of the lists, the
    first list varying slowest. *)
Definition product_combs (entity_ids : list (list string)) : list (list string) :=
  fold_right (fun l acc => flat_map (fun x => map (cons x) acc) l) [[]] entity_ids.

(** One order in which [list(set(l))] can come out: first occurrences. *)
Definition first_occurrences (l : list string) : list string := rev (nodup string_dec (rev l)).

Definition inter_first_occurrences (a b : list string) : list string :=
  filter (fun x => existsb (String.eqb x) b) (first_occurrences a).

(** [float] on the literals of the fixtures: unsigned decimal integers. Any
    other text is rejected here. *)
Definition int_float (s : string) : option Z :=
  match s with
  | EmptyString => None
  | _ => option_map Z.of_uint (NilEmpty.uint_of_string s)
  end.

(** A ranker that keeps the order of the relations it is given. *)
Definition keep_order (question : string) (rels : list string) : list (string * unit) :=
  map (fun r => (r, tt)) rels.

(** A ranker that answers with a fixed ranking. *)
Definition fixed_ranking (ranking : list string) (question : string) (rels : list string)
  : list (string * unit) :=
  map (fun r => (r, tt)) ranking.

(** A literal as the knowledge graph holds it: the text between double
    quotes, followed by its type. *)
Definition literal (text : string) : string :=
  String Py.dquote (text ++ String Py.dquote "^^<http://www.w3.org/2001/XMLSchema#decimal>")%string.

Definition stub (etl rtl rtl2 : Z) (kg : list (kg_call * list string))
    (links : list (string * list string))
    (ranker : string -> list string -> list (string * unit)) (ascending : bool)
  : env Z unit :=
  {| entities_to_leave := etl;
     rels_to_leave := rtl;
     rels_to_leave_2hop := rtl2;
     rank_list_0 := [];
     rank_list_1 := [];
     wiki_parser := answer kg;
     wiki_triplets := fun _ => [];
     rank_rels := ranker;
     linker := fun mention =>
       (match find (fun p => String.eqb (fst p) mention) links with
        | Some p => snd p
        | None => []
        end, []);
     word_tokenize := fun _ => [];
     extract_year := fun _ _ => EmptyString;
     extract_number := fun _ _ => EmptyString;
     asc_desc := fun _ => ascending;
     make_entity_combs := product_combs;
     py_float := int_float;
     float_lt := Z.ltb;
     list_set := first_occurrences;
     list_set_inter := inter_first_occurrences |}.

Definition start (t : Z) : qg_state := QgState t [].

(** Whether the call [c] to [wiki_parser] is among the calls made. *)
Definition called (c : kg_call) (st : qg_state) : bool :=
  existsb (fun ev => match ev with EvKg c' => kg_call_eqb c c' | _ => false end) (calls st).

End Fixture.

(** The fixtures of the examples below. *)
Module Scenario.

Import Fixture.

Definition question : string := "q".

(** Two class members of C that B points to through P1, with the values 1
    and 2 under P2. *)
Definition kg_maxmin : list (kg_call * list string) :=
  [ (KgCall Objects "backw" "C" (Some "P31") None direct None, ["o1"; "o2"]);
    (KgCall Objects "backw" "B" (Some "P1") None direct None, ["o1"; "o2"]);
    (KgCall Objects "forw" "o1" (Some "P2") None direct (Some xsd_decimal), [literal "1"]);
    (KgCall Objects "forw" "o2" (Some "P2") None direct (Some xsd_decimal), [literal "2"]) ].

(** The question of this fixture is classified as ascending. *)
Definition env_maxmin : env Z unit := stub 5 10 7 kg_maxmin [] keep_order true.

Definition rels_maxmin : option (list (list string)) :=
  Some [["P1"; "backw"]; ["P2"; "forw"]].

(** E has one relation, P1, with one object forward and none backward. *)
Definition kg_count : list (kg_call * list string) :=
  [ (KgCall Rels "forw" "E" None None direct None, ["P1"]);
    (KgCall Objects "forw" "E" (Some "P1") None direct None, ["a"]) ].

(** E has one relation, P1, with one object forward and one backward. *)
Definition kg_count_both : list (kg_call * list string) :=
  [ (KgCall Rels "forw" "E" None None direct None, ["P1"]);
    (KgCall Objects "forw" "E" (Some "P1") None direct None, ["a"]);
    (KgCall Objects "backw" "E" (Some "P1") None direct None, ["b"]) ].

(** The neighborhood of E has the relation P2 only; the template names P1,
    under which E has two objects. *)
Definition kg_count_template : list (kg_call * list string) :=
  [ (KgCall Rels "forw" "E" None None direct None, ["P2"]);
    (KgCall Objects "forw" "E" (Some "P2") None direct None, ["x"]);
    (KgCall Objects "forw" "E" (Some "P1") None direct None, ["b"; "c"]) ].

(** B reaches o through P2, the second relation of the ranking, and o is
    related to A. *)
Definition kg_second_ranked : list (kg_call * list string) :=
  [ (KgCall Rels "forw" "B" None None direct None, ["P1"; "P2"]);
    (KgCall Objects "forw" "B" (Some "P2") None direct None, ["o"]);
    (KgCall Rels "forw" "o" None (Some "A") direct None, ["P9"]) ].

(** One relation is left after ranking, and the ranker answers with two. *)
Definition env_second_ranked : env Z unit :=
  stub 5 1 1 kg_second_ranked [] (fixed_ranking ["P1"; "P2"]) true.

(** One entity is left after linking, and the linker answers with two for
    the first mention. *)
Definition env_links : env Z unit :=
  stub 1 10 7 [] [("m1", ["E1"; "E2"]); ("m2", ["E3"])] keep_order true.

(** The class member o1 of C carries the literal [lit] under P2. *)
Definition kg_literal (lit : string) : list (kg_call * list string) :=
  [ (KgCall Objects "backw" "C" (Some "P31") None direct None, ["o1"]);
    (KgCall Objects "backw" "B" (Some "P1") None direct None, ["o1"]);
    (KgCall Objects "forw" "o1" (Some "P2") None direct (Some xsd_decimal), [lit]) ].

Definition env_literal (lit : string) : env Z unit :=
  stub 5 10 7 (kg_literal lit) [] keep_order true.

(** B reaches o through P1, and o is related to A by P106 and by P31. *)
Definition kg_mixed : list (kg_call * list string) :=
  [ (KgCall Rels "forw" "B" None None direct None, ["P1"]);
    (KgCall Objects "forw" "B" (Some "P1") None direct None, ["o"]);
    (KgCall Rels "forw" "o" None (Some "A") direct None, ["P106"; "P31"]) ].

(** B reaches o through P1; nothing relates o to A, and C has no relation. *)
Definition kg_three : list (kg_call * list string) :=
  [ (KgCall Rels "forw" "B" None None direct None, ["P1"]);
    (KgCall Objects "forw" "B" (Some "P1") None direct None, ["o"]) ].

Definition env_of (kg : list (kg_call * list string)) : env Z unit :=
  stub 5 10 7 kg [] keep_order true.

End Scenario.

(** ** Reasoning about method bodies *)

(** A computation that leaves [self.template_num] as it found it. *)
Definition keeps_template {R A : Type} (c : M R A) : Prop :=
  forall st, template_num (snd (c st)) = template_num st.

(** The values a computation can end with: [Q] when it falls through, [QR]
    when it returns. *)
Definition yields {R A : Type} (c : M R A) (Q : A -> Prop) (QR : R -> Prop) : Prop :=
  forall st,
    match fst (c st) with
    | Normal a => Q a
    | Returned r => QR r
    | Raised _ => True
    end.

(** A computation that never executes [return]. *)
Definition no_return {R A : Type} (c : M R A) : Prop :=
  forall st r, fst (c st) <> Returned r.

Section DispatchTails.

Context {V Score : Type} (E : env V Score) {R : Type}.

(** What the dispatcher does after a strategy of templates 0 to 3. *)
Definition or_two_hop (question : string) (entity_ids : list (list string))
    (rels_from_template : option (list (list string))) (outs : list candidate)
  : M R (list candidate) :=
  if Py.nonempty outs then ret outs
  else fun st => two_hop_solver E question entity_ids rels_from_template (set_template_num 7 st).

(** What the dispatcher does after the strategy of template 6. *)
Definition or_maxmin_one (question : string) (entity_ids : list (list string))
    (outs : list candidate) : M R (list candidate) :=
  if Py.nonempty outs then ret outs
  else fun st =>
    (entity_ids_0 <- index0 entity_ids ;;
     maxmin_one_entity_solver E question (Py.take (entities_to_leave E) entity_ids_0) None)
      (set_template_num 5 st).

End DispatchTails.

(** In a sorted list, [b] after [a]: the key of [b] is not below the key of
    [a]. *)
Definition not_after {A K : Type} (ltb : K -> K -> bool) (key : A -> K) (a b : A) : Prop :=
  ltb (key b) (key a) = false.

(** The candidates of a list all have [n] elements. *)
Definition all_arity (n : nat) (outs : list candidate) : Prop :=
  Forall (fun c : candidate => List.length c = n) outs.

(** The arity of the candidates of a template other than the generic
    two-hop one: a relation and a value for the count and the one-entity
    max/min templates, three elements for the others. *)
Definition template_arity (t : Z) : nat :=
  if (t =? 4) || (t =? 5) then 2%nat else 3%nat.

(** A literal that the max/min searches can parse: it has a double-quoted
    part that [float] accepts. *)
Definition well_formed_literal {V Score : Type} (E : env V Score) (lit : string) : bool :=
  match Py.re_search_group1 lit with
  | Some number =>
      match py_float E number with
      | Some _ => true
      | None => false
      end
  | None => false
  end.

(** The two exceptions of the parse of a literal. *)
Definition parse_error (e : Py.pyexc) : Prop :=
  e = Py.AttributeError \/ e = Py.ValueError.

(** ** Further properties: definitions *)

(** A candidate of the two-entity two-hop search for the relation [rel] and
    the intermediate object [obj]. *)
Definition joins (rel obj : string) (c : candidate) : Prop :=
  (exists rel_2, c = [rel; rel_2; obj]) \/ c = [rel; obj].

(** A computation that always falls through, without an exception and
    without a [return], with a value that satisfies [Q]. *)
Definition finishes {R A : Type} (c : M R A) (Q : A -> Prop) : Prop :=
  forall st, exists a st', c st = (Normal a, st') /\ Q a.

(** A computation whose calls to the collaborators all satisfy [P]: it
    extends the record of calls with events that satisfy [P]. *)
Definition emits {R A : Type} (P : event -> Prop) (c : M R A) : Prop :=
  forall st, exists evs, calls (snd (c st)) = calls st ++ evs /\ Forall P evs.

(** The calls the count solver may make on the entity lists [entity_ids]:
    calls to the knowledge graph about an entity among the leading
    [entities_to_leave] of a list, over direct edges and without an object
    filter, and calls to the ranker with the question. *)
Definition count_call {V Score : Type} (E : env V Score) (question : string)
    (entity_ids : list (list string)) (ev : event) : Prop :=
  match ev with
  | EvKg c =>
      In (kg_entity c) (flat_map (Py.take (entities_to_leave E)) entity_ids)
      /\ kg_type_of_rel c = direct /\ kg_obj c = None
  | EvRank q _ => q = question
  | EvLink _ => False
  end.

(** The calls a search over the relations [rels] may make: calls to the
    knowledge graph that name no relation or a relation of [rels]. *)
Definition about_rels (rels : list string) (ev : event) : Prop :=
  match ev with
  | EvKg c =>
      match kg_rel c with
      | Some rel => In rel rels
      | None => True
      end
  | EvRank _ _ => False
  | EvLink _ => False
  end.

(** A candidate of the two passes of the one-entity two-hop search: one
    relation other than P31 and an object, or two different relations other
    than P31 and an object. *)
Definition beyond_type (c : candidate) : Prop :=
  (exists rel obj, c = [rel; obj] /\ rel <> "P31")
  \/ (exists rel_1 rel_2 obj,
        c = [rel_1; rel_2; obj] /\ rel_1 <> "P31" /\ rel_2 <> "P31" /\ rel_1 <> rel_2).

(** ** The entry point: sanitizing, loading, one question, a batch *)

(** The character [c] occurs in [s]. *)
Fixpoint occurs (c : ascii) (s : string) : Prop :=
  match s with
  | EmptyString => False
  | String d s' => d = c \/ occurs c s'
  end.

(** [s.replace(old, new)] for a nonempty [old], the scan being [skip]
    characters inside an occurrence it has replaced: occurrences are found
    from the left and do not overlap. *)
Fixpoint replace_from (old new : string) (skip : nat) (s : string) : string :=
  match s with
  | EmptyString => EmptyString
  | String c s' =>
      match skip with
      | S skip' => replace_from old new skip' s'
      | O =>
          if String.prefix old s
          then (new ++ replace_from old new (String.length old - 1) s')%string
          else String c (replace_from old new O s')
      end
  end.

Definition replace (old new s : string) : string := replace_from old new 0 s.

(** [replace_tokens] of [__call__]. *)
Definition replace_tokens : list (string * string) :=
  [ (" - ", "-"); (" .", EmptyString); ("{", EmptyString); ("}", EmptyString);
    ("  ", " "); (String Py.dquote EmptyString, "'"); ("(", EmptyString);
    (")", EmptyString) ].

(** The loop [for old, new in replace_tokens: question = question.replace(old, new)]. *)
Definition sanitize (question : string) : string :=
  fold_left (fun question token => replace (fst token) (snd token) question)
            replace_tokens question.

(** The tab character. *)
Definition tab : ascii := ascii_of_nat 9.

(** [line.split(tab)[0]]: the text before the first tab of the line. *)
Fixpoint first_field (line : string) : string :=
  match line with
  | EmptyString => EmptyString
  | String c line' => if Ascii.eqb c tab then EmptyString else String c (first_field line')
  end.

(** What [load] makes of the lines of a relation file. *)
Definition load_rank_list (lines : list string) : list string := map first_field lines.

Section Call.

Context {V Score : Type}.
Variable E : env V Score.

(** [self.template_matcher(question)]: the entity mentions, the relation
    specs ([None] when there are none) and the query type of the template
    that matches. *)
Variable template_matcher : string -> list string * option (list (list string)) * string.

(** [int(s)] and [s.isdigit()]. *)
Variable py_int : string -> option Z.
Variable py_isdigit : string -> bool.

Definition int_ {R : Type} (s : string) : M R Z :=
  match py_int s with
  | Some n => ret n
  | None => raise Py.ValueError
  end.

(** [s[0]] of a str. *)
Definition str_index0 {R : Type} (s : string) : M R string :=
  match s with
  | EmptyString => raise Py.IndexError
  | String c _ => ret (String c EmptyString)
  end.

(** The body of the loop of [__call__], for one question of the batch (the
    print and the log lines left out). *)
Definition call_question {R : Type} (question template_type : string)
    (entities_from_ner : list string) : M R (list candidate) :=
  let candidate_outputs : list candidate := [] in
  t <- int_ template_type ;;
  put_template_num t ;;
  let question := sanitize question in
  let '(entities_from_template, rels_from_template, query_type_template) :=
    template_matcher question in
  (if py_isdigit query_type_template then
     t <- int_ query_type_template ;;
     put_template_num t
   else ret tt) ;;
  candidate_outputs <-
    (if Py.nonempty entities_from_template then
       entity_ids <- get_entity_ids E entities_from_template ;;
       find_candidate_answers E question entity_ids rels_from_template
     else ret candidate_outputs) ;;
  if negb (Py.nonempty candidate_outputs) && Py.nonempty entities_from_ner then
    entity_ids <- get_entity_ids E entities_from_ner ;;
    template_type_0 <- str_index0 template_type ;;
    t <- int_ template_type_0 ;;
    put_template_num t ;;
    find_candidate_answers E question entity_ids None
  else ret candidate_outputs.

(** [zip] of the three batches. *)
Fixpoint zip3 {A B C : Type} (xs : list A) (ys : list B) (zs : list C)
  : list (A * B * C) :=
  match xs, ys, zs with
  | x :: xs', y :: ys', z :: zs' => (x, y, z) :: zip3 xs' ys' zs'
  | _, _, _ => []
  end.

(** [__call__] up to [candidate_outputs_batch], which it returns when
    [return_answers] is false. *)
Definition call_candidates {R : Type} (question_batch template_type_batch : list string)
    (entities_from_ner_batch : list (list string)) : M R (list (list candidate)) :=
  for_ (zip3 question_batch template_type_batch entities_from_ner_batch) []
    (fun item candidate_outputs_batch =>
       let '(question, template_type, entities_from_ner) := item in
       candidate_outputs <- call_question question template_type entities_from_ner ;;
       ret (candidate_outputs_batch ++ [candidate_outputs])).

End Call.

(** Fixtures of the further examples. *)
Module Scenario2.

Import Fixture Scenario.

(** The environment [E0] with a question that carries the year [year]. *)
Definition with_year (year : string) (E0 : env Z unit) : env Z unit :=
  {| entities_to_leave := entities_to_leave E0;
     rels_to_leave := rels_to_leave E0;
     rels_to_leave_2hop := rels_to_leave_2hop E0;
     rank_list_0 := rank_list_0 E0;
     rank_list_1 := rank_list_1 E0;
     wiki_parser := wiki_parser E0;
     wiki_triplets := wiki_triplets E0;
     rank_rels := rank_rels E0;
     linker := linker E0;
     word_tokenize := word_tokenize E0;
     extract_year := fun _ _ => year;
     extract_number := extract_number E0;
     asc_desc := asc_desc E0;
     make_entity_combs := make_entity_combs E0;
     py_float := py_float E0;
     float_lt := float_lt E0;
     list_set := list_set E0;
     list_set_inter := list_set_inter E0 |}.


(** A template matcher that matches nothing. *)
Definition no_match (question : string)
  : list string * option (list (list string)) * string :=
  ([], None, "none").

(** [int] on unsigned decimal integers. *)
Definition int_of_digits (s : string) : option Z := int_float s.

Definition never_digits (s : string) : bool := false.

End Scenario2.

Lemma bind_Normal {R A B : Type} (c : M R A) (k : A -> M R B) st a st' :
  c st = (Normal a, st') -> bind c k st = k a st'.
Proof. intros H. unfold bind. now rewrite H. Qed.

Lemma bind_Raised {R A B : Type} (c : M R A) (k : A -> M R B) st e st' :
  c st = (Raised e, st') -> bind c k st = (Raised e, st').
Proof. intros H. unfold bind. now rewrite H. Qed.

Lemma bind_Returned {R A B : Type} (c : M R A) (k : A -> M R B) st r st' :
  c st = (Returned r, st') -> bind c k st = (Returned r, st').
Proof. intros H. unfold bind. now rewrite H. Qed.

Section KeepsTemplate.

Context {V Score : Type} (E : env V Score).

Lemma keeps_ret {R A : Type} (a : A) : keeps_template (@ret R A a).
Proof. intros st. reflexivity. Qed.

Lemma keeps_return {R A : Type} (r : R) : keeps_template (@return_ R A r).
Proof. intros st. reflexivity. Qed.

Lemma keeps_raise {R A : Type} (e : Py.pyexc) : keeps_template (@raise R A e).
Proof. intros st. reflexivity. Qed.

Lemma keeps_bind {R A B : Type} (c : M R A) (k : A -> M R B) :
  keeps_template c -> (forall a, keeps_template (k a)) -> keeps_template (bind c k).
Proof.
  intros Hc Hk st. unfold bind. specialize (Hc st).
  destruct (c st) as [[a | r | e] st1]; simpl in *; auto.
  rewrite Hk. exact Hc.
Qed.

Lemma keeps_for {R A S : Type} (xs : list A) (body : A -> S -> M R S) :
  (forall x s, keeps_template (body x s)) -> forall s, keeps_template (for_ xs s body).
Proof.
  intros Hb. induction xs as [| x xs IH]; intros s; simpl.
  - apply keeps_ret.
  - apply keeps_bind; auto.
Qed.

Lemma keeps_def {R R' : Type} (body : M R R) :
  keeps_template body -> keeps_template (@def_ R R' body).
Proof.
  intros Hb st. unfold def_. specialize (Hb st).
  destruct (body st) as [[a | r | e] st1]; simpl in *; auto.
Qed.

Lemma keeps_get {R : Type} : keeps_template (@get_template_num R).
Proof. intros st. reflexivity. Qed.

Lemma keeps_call_wiki {R : Type} (c : kg_call) : keeps_template (@call_wiki V Score E R c).
Proof. intros st. reflexivity. Qed.

Lemma keeps_call_triplets {R : Type} (c : kg_call) :
  keeps_template (@call_triplets V Score E R c).
Proof. intros st. reflexivity. Qed.

Lemma keeps_call_rank_rels {R : Type} (q : string) (rels : list string) :
  keeps_template (@call_rank_rels V Score E R q rels).
Proof. intros st. reflexivity. Qed.

Lemma keeps_index0 {R A : Type} (l : list A) : keeps_template (@index0 R A l).
Proof. destruct l; intros st; reflexivity. Qed.

Lemma keeps_index1 {R A : Type} (l : list A) : keeps_template (@index1 R A l).
Proof. destruct l as [| ? [| ? ?]]; intros st; reflexivity. Qed.

Lemma keeps_index2 {R A : Type} (l : list A) : keeps_template (@index2 R A l).
Proof. destruct l as [| ? [| ? [| ? ?]]]; intros st; reflexivity. Qed.

Lemma keeps_index_last {R A : Type} (l : list A) : keeps_template (@index_last R A l).
Proof. unfold index_last. destruct (rev l); intros st; reflexivity. Qed.

Lemma keeps_read_local {R A : Type} (x : option A) : keeps_template (@read_local R A x).
Proof. destruct x; intros st; reflexivity. Qed.

Lemma keeps_search_group1 {R : Type} (s : string) : keeps_template (@search_group1 R s).
Proof. unfold search_group1. destruct (Py.re_search_group1 s); intros st; reflexivity. Qed.

Lemma keeps_float {R : Type} (s : string) : keeps_template (@float_ V Score E R s).
Proof. unfold float_. destruct (py_float E s); intros st; reflexivity. Qed.

End KeepsTemplate.

(** Goals [keeps_template c], by the structure of [c]. *)
Ltac keeps_step :=
  lazymatch goal with
  | |- keeps_template (bind _ _) => apply keeps_bind; [| intros ?]
  | |- keeps_template (for_ _ _ _) => apply keeps_for; intros ? ?
  | |- keeps_template (def_ _) => apply keeps_def
  | |- keeps_template (ret _) => apply keeps_ret
  | |- keeps_template (return_ _) => apply keeps_return
  | |- keeps_template (raise _) => apply keeps_raise
  | |- keeps_template get_template_num => apply keeps_get
  | |- keeps_template (call_wiki _ _) => apply keeps_call_wiki
  | |- keeps_template (call_triplets _ _) => apply keeps_call_triplets
  | |- keeps_template (call_rank_rels _ _ _) => apply keeps_call_rank_rels
  | |- keeps_template (index0 _) => apply keeps_index0
  | |- keeps_template (index1 _) => apply keeps_index1
  | |- keeps_template (index2 _) => apply keeps_index2
  | |- keeps_template (index_last _) => apply keeps_index_last
  | |- keeps_template (read_local _) => apply keeps_read_local
  | |- keeps_template (search_group1 _) => apply keeps_search_group1
  | |- keeps_template (float_ _ _) => apply keeps_float
  | |- keeps_template (if ?b then _ else _) => destruct b
  | |- keeps_template (match ?x with _ => _ end) => destruct x
  | |- keeps_template (let _ := _ in _) => cbv zeta
  end.

Ltac keeps := repeat keeps_step.

Section SolversKeepTemplate.

Context {V Score : Type} (E : env V Score) {R : Type}.

Lemma keeps_find_relevant_subgraph_cqwn entities_list rels num :
  keeps_template (@find_relevant_subgraph_cqwn V Score E R entities_list rels num).
Proof. unfold find_relevant_subgraph_cqwn. keeps. Qed.

Lemma keeps_find_relevant_subgraph_cqwq ent_combs rels :
  keeps_template (@find_relevant_subgraph_cqwq V Score E R ent_combs rels).
Proof. unfold find_relevant_subgraph_cqwq. keeps. Qed.

Lemma keeps_top_rels_forw question entity_ids rft :
  keeps_template (@top_rels_forw V Score E R question entity_ids rft).
Proof. unfold top_rels_forw. keeps. Qed.

Lemma keeps_cqwn_with_retry entity_ids top_rels ex_rels num :
  keeps_template (@cqwn_with_retry V Score E R entity_ids top_rels ex_rels num).
Proof.
  unfold cqwn_with_retry.
  repeat first [apply keeps_find_relevant_subgraph_cqwn | keeps_step].
Qed.

Lemma keeps_complex_question_with_number_solver question entity_ids rft :
  keeps_template (@complex_question_with_number_solver V Score E R question entity_ids rft).
Proof.
  unfold complex_question_with_number_solver.
  repeat first [apply keeps_top_rels_forw | apply keeps_cqwn_with_retry | keeps_step].
Qed.

Lemma keeps_complex_question_with_qualifier_solver question entity_ids rft :
  keeps_template (@complex_question_with_qualifier_solver V Score E R question entity_ids rft).
Proof.
  unfold complex_question_with_qualifier_solver.
  repeat first [apply keeps_top_rels_forw | apply keeps_find_relevant_subgraph_cqwq | keeps_step].
Qed.

Lemma keeps_questions_with_count_solver question entity_ids rft :
  keeps_template (@questions_with_count_solver V Score E R question entity_ids rft).
Proof. unfold questions_with_count_solver. keeps. Qed.

Lemma keeps_find_relevant_subgraph_maxmin_one entities_list rels :
  keeps_template (@find_relevant_subgraph_maxmin_one V Score E R entities_list rels).
Proof. unfold find_relevant_subgraph_maxmin_one. keeps. Qed.

Lemma keeps_find_relevant_subgraph_maxmin_two ent_combs rels_1 rels_2 :
  keeps_template (@find_relevant_subgraph_maxmin_two V Score E R ent_combs rels_1 rels_2).
Proof. unfold find_relevant_subgraph_maxmin_two. keeps. Qed.

Lemma keeps_maxmin_one_entity_solver question entities_list rft :
  keeps_template (@maxmin_one_entity_solver V Score E R question entities_list rft).
Proof.
  unfold maxmin_one_entity_solver, maxmin_one_top_rels.
  repeat first [apply keeps_find_relevant_subgraph_maxmin_one | keeps_step].
Qed.

Lemma keeps_maxmin_two_entities_solver question entity_ids rft :
  keeps_template (@maxmin_two_entities_solver V Score E R question entity_ids rft).
Proof.
  unfold maxmin_two_entities_solver, maxmin_two_top_rels.
  repeat first [apply keeps_find_relevant_subgraph_maxmin_two | keeps_step].
Qed.

End SolversKeepTemplate.

Lemma bind_get {R B : Type} (k : Z -> M R B) st :
  bind get_template_num k st = k (template_num st) st.
Proof. reflexivity. Qed.

Lemma bind_put {R B : Type} (t : Z) (k : unit -> M R B) st :
  bind (put_template_num t) k st = k tt (set_template_num t st).
Proof. reflexivity. Qed.

Lemma bind_ret {R A B : Type} (a : A) (k : A -> M R B) st :
  bind (ret a) k st = k a st.
Proof. reflexivity. Qed.

Lemma bind_assoc {R A B C : Type} (c : M R A) (k1 : A -> M R B) (k2 : B -> M R C) st :
  bind (bind c k1) k2 st = bind c (fun a => bind (k1 a) k2) st.
Proof. unfold bind. destruct (c st) as [[a | r | e] st1]; reflexivity. Qed.

Lemma bind_ret_right {R A : Type} (c : M R A) st :
  bind c (fun a => ret a) st = c st.
Proof. unfold bind. destruct (c st) as [[a | r | e] st1]; reflexivity. Qed.

Lemma bind_get_after {R A B : Type} (c : M R A) (f : Z -> A -> M R B) st :
  keeps_template c ->
  bind c (fun a => bind get_template_num (fun t => f t a)) st =
  bind c (fun a => f (template_num st) a) st.
Proof.
  intros Hc. unfold bind. specialize (Hc st).
  destruct (c st) as [[a | r | e] st1]; cbn [snd] in Hc; try reflexivity.
  unfold get_template_num. now rewrite Hc.
Qed.

Ltac dispatch :=
  repeat first
    [ rewrite bind_assoc
    | rewrite bind_put
    | rewrite bind_ret
    | progress cbn [negb Py.nonempty]
    | rewrite bind_get;
      repeat match goal with
             | H : template_num ?s = _ |- context [template_num ?s] => rewrite H
             end;
      cbn [template_num set_template_num Z.eqb Pos.eqb orb negb Py.nonempty] ].

Ltac kept Hkeep Hrun :=
  let K := fresh "K" in
  pose proof Hkeep as K; rewrite Hrun in K; cbn [snd] in K.

Section Dispatch.

Context {V Score : Type} (E : env V Score) {R : Type}.


Lemma dispatch_after {A : Type} (c : M R A) (k k' : A -> M R (list candidate)) st :
  (forall a st1, c st = (Normal a, st1) -> k a st1 = k' a st1) ->
  bind c k st = bind c k' st.
Proof.
  intros H. unfold bind. destruct (c st) as [[a | r | e] st1]; auto.
Qed.

Lemma find_candidate_answers_number question entity_ids rft st :
  template_num st = 0 \/ template_num st = 1 ->
  @find_candidate_answers V Score E R question entity_ids rft st =
  bind (complex_question_with_number_solver E question entity_ids None)
       (or_two_hop E question entity_ids rft) st.
Proof.
  intros Ht. unfold find_candidate_answers.
  assert (Hdo : forall k : bool -> M R (list candidate),
             k ((template_num st =? 0) || (template_num st =? 1))%bool st = k true st)
    by (intros k; destruct Ht as [-> | ->]; reflexivity).
  rewrite bind_get.
  rewrite (Hdo (fun b => bind (if b then _ else _) _)).
  rewrite bind_assoc. apply dispatch_after. intros outs st1 Hrun.
  kept (keeps_complex_question_with_number_solver E (R := R) question entity_ids None st) Hrun.
  unfold or_two_hop. destruct outs as [| o outs]; cbn [Py.nonempty].
  - dispatch. reflexivity.
  - destruct Ht as [Ht | Ht]; rewrite Ht in K; dispatch; reflexivity.
Qed.

Lemma find_candidate_answers_qualifier question entity_ids rft st :
  template_num st = 2 \/ template_num st = 3 ->
  @find_candidate_answers V Score E R question entity_ids rft st =
  bind (complex_question_with_qualifier_solver E question entity_ids None)
       (or_two_hop E question entity_ids rft) st.
Proof.
  intros Ht. unfold find_candidate_answers.
  assert (Hskip : forall k : bool -> M R (list candidate),
             k ((template_num st =? 0) || (template_num st =? 1))%bool st = k false st)
    by (intros k; destruct Ht as [-> | ->]; reflexivity).
  assert (Hdo : forall k : bool -> M R (list candidate),
             k ((template_num st =? 2) || (template_num st =? 3))%bool st = k true st)
    by (intros k; destruct Ht as [-> | ->]; reflexivity).
  rewrite bind_get.
  rewrite (Hskip (fun b => bind (if b then _ else _) _)).
  rewrite bind_ret, bind_get.
  rewrite (Hdo (fun b => bind (if b then _ else _) _)).
  rewrite bind_assoc. apply dispatch_after. intros outs st1 Hrun.
  kept (keeps_complex_question_with_qualifier_solver E (R := R) question entity_ids None st) Hrun.
  unfold or_two_hop. destruct outs as [| o outs]; cbn [Py.nonempty].
  - dispatch. reflexivity.
  - destruct Ht as [Ht | Ht]; rewrite Ht in K; dispatch; reflexivity.
Qed.

Lemma find_candidate_answers_count question entity_ids rft st :
  template_num st = 4 ->
  @find_candidate_answers V Score E R question entity_ids rft st =
  questions_with_count_solver E question entity_ids None st.
Proof.
  intros Ht. unfold find_candidate_answers. dispatch.
  etransitivity; [| apply bind_ret_right].
  apply dispatch_after. intros outs st1 Hrun.
  kept (keeps_questions_with_count_solver E (R := R) question entity_ids None st) Hrun.
  rewrite Ht in K. dispatch. reflexivity.
Qed.

(** Given the relations of the template, the head of the numeric and
    qualifier solvers takes them without a call to the knowledge graph or
    to the ranker. *)
Lemma top_rels_forw_of_template question entity_ids rft_0 rest st :
  @top_rels_forw V Score E R question entity_ids (Some (rft_0 :: rest)) st
  = (Normal (init rft_0, None), st).
Proof. reflexivity. Qed.

(** At template 4 the relations of the template play no part. *)
Lemma find_candidate_answers_count_ignores_template_rels question entity_ids rft st :
  template_num st = 4 ->
  @find_candidate_answers V Score E R question entity_ids rft st =
  @find_candidate_answers V Score E R question entity_ids None st.
Proof.
  intros Ht. now rewrite !find_candidate_answers_count.
Qed.

Lemma find_candidate_answers_maxmin_one question entity_ids rft st :
  template_num st = 5 ->
  @find_candidate_answers V Score E R question entity_ids rft st =
  (entity_ids_0 <- index0 entity_ids ;;
   maxmin_one_entity_solver E question (Py.take (entities_to_leave E) entity_ids_0) rft) st.
Proof.
  intros Ht. unfold find_candidate_answers. dispatch.
  destruct entity_ids as [| entity_ids_0 rest]; [reflexivity |].
  cbn [index0]. rewrite !bind_ret.
  etransitivity; [| apply bind_ret_right].
  apply dispatch_after. intros outs st1 Hrun.
  kept (keeps_maxmin_one_entity_solver E (R := R) question
          (Py.take (entities_to_leave E) entity_ids_0) rft st) Hrun.
  rewrite Ht in K. dispatch. reflexivity.
Qed.

Lemma find_candidate_answers_maxmin_two question entity_ids rft st :
  template_num st = 6 ->
  @find_candidate_answers V Score E R question entity_ids rft st =
  bind (maxmin_two_entities_solver E question entity_ids rft)
       (or_maxmin_one E question entity_ids) st.
Proof.
  intros Ht. unfold find_candidate_answers. dispatch.
  apply dispatch_after. intros outs st1 Hrun.
  kept (keeps_maxmin_two_entities_solver E (R := R) question entity_ids rft st) Hrun.
  rewrite Ht in K.
  unfold or_maxmin_one. destruct outs as [| o outs]; cbn [Py.nonempty].
  - dispatch.
    destruct entity_ids as [| entity_ids_0 rest]; [reflexivity |].
    cbn [index0]. rewrite !bind_ret.
    rewrite bind_get_after by apply keeps_maxmin_one_entity_solver.
    cbn [template_num set_template_num Z.eqb Pos.eqb]. apply bind_ret_right.
  - dispatch. reflexivity.
Qed.

Lemma find_candidate_answers_two_hop question entity_ids rft st :
  template_num st = 7 ->
  @find_candidate_answers V Score E R question entity_ids rft st =
  two_hop_solver E question entity_ids rft st.
Proof.
  intros Ht. unfold find_candidate_answers. dispatch. reflexivity.
Qed.

Lemma find_candidate_answers_other question entity_ids rft st :
  template_num st < 0 \/ 7 < template_num st ->
  @find_candidate_answers V Score E R question entity_ids rft st = (Normal [], st).
Proof.
  intros Ht. unfold find_candidate_answers.
  assert (Hno : forall t, 0 <= t <= 7 -> (template_num st =? t) = false)
    by (intros t Hr; apply Z.eqb_neq; lia).
  repeat (rewrite bind_get; rewrite ?Hno by lia; cbn [orb]; rewrite bind_ret).
  rewrite bind_get, Hno by lia. reflexivity.
Qed.

(** C3: the dispatcher implements the fallback table. When the strategy of
    template 0, 1, 2 or 3 returns no candidate, the question, the entity ids
    and the template relations go to the generic two-hop strategy with the
    active template set to 7, and its result is the output; when template 6
    returns no candidate, the one-entity max/min strategy runs on the capped
    first entity list with the active template set to 5; a nonempty result
    is the output as it is; templates 4, 5 and 7 run their own strategy and
    nothing else. *)
Theorem find_candidate_answers_fallback_table
    (question : string) (entity_ids : list (list string))
    (rels_from_template : option (list (list string))) (st : qg_state) :
  (template_num st = 0 \/ template_num st = 1 ->
   forall outs st1,
     complex_question_with_number_solver (R := R) E question entity_ids None st = (Normal outs, st1) ->
     (outs = [] ->
      @find_candidate_answers V Score E R question entity_ids rels_from_template st =
      two_hop_solver E question entity_ids rels_from_template (set_template_num 7 st1)) /\
     (outs <> [] ->
      @find_candidate_answers V Score E R question entity_ids rels_from_template st =
      (Normal outs, st1))) /\
  (template_num st = 2 \/ template_num st = 3 ->
   forall outs st1,
     complex_question_with_qualifier_solver (R := R) E question entity_ids None st = (Normal outs, st1) ->
     (outs = [] ->
      @find_candidate_answers V Score E R question entity_ids rels_from_template st =
      two_hop_solver E question entity_ids rels_from_template (set_template_num 7 st1)) /\
     (outs <> [] ->
      @find_candidate_answers V Score E R question entity_ids rels_from_template st =
      (Normal outs, st1))) /\
  (template_num st = 6 ->
   forall outs st1,
     maxmin_two_entities_solver (R := R) E question entity_ids rels_from_template st = (Normal outs, st1) ->
     (outs = [] ->
      @find_candidate_answers V Score E R question entity_ids rels_from_template st =
      (entity_ids_0 <- index0 entity_ids ;;
       maxmin_one_entity_solver E question (Py.take (entities_to_leave E) entity_ids_0) None)
        (set_template_num 5 st1)) /\
     (outs <> [] ->
      @find_candidate_answers V Score E R question entity_ids rels_from_template st =
      (Normal outs, st1))) /\
  (template_num st = 4 ->
   @find_candidate_answers V Score E R question entity_ids rels_from_template st =
   questions_with_count_solver E question entity_ids None st) /\
  (template_num st = 5 ->
   @find_candidate_answers V Score E R question entity_ids rels_from_template st =
   (entity_ids_0 <- index0 entity_ids ;;
    maxmin_one_entity_solver E question (Py.take (entities_to_leave E) entity_ids_0)
                             rels_from_template) st) /\
  (template_num st = 7 ->
   @find_candidate_answers V Score E R question entity_ids rels_from_template st =
   two_hop_solver E question entity_ids rels_from_template st).
Proof.
  repeat split.
  - intros ->. rewrite find_candidate_answers_number by assumption.
    now rewrite (bind_Normal _ _ _ _ _ H0).
  - intros Hne. rewrite find_candidate_answers_number by assumption.
    rewrite (bind_Normal _ _ _ _ _ H0). destruct outs; [congruence | reflexivity].
  - intros ->. rewrite find_candidate_answers_qualifier by assumption.
    now rewrite (bind_Normal _ _ _ _ _ H0).
  - intros Hne. rewrite find_candidate_answers_qualifier by assumption.
    rewrite (bind_Normal _ _ _ _ _ H0). destruct outs; [congruence | reflexivity].
  - intros ->. rewrite find_candidate_answers_maxmin_two by assumption.
    now rewrite (bind_Normal _ _ _ _ _ H0).
  - intros Hne. rewrite find_candidate_answers_maxmin_two by assumption.
    rewrite (bind_Normal _ _ _ _ _ H0). destruct outs; [congruence | reflexivity].
  - apply find_candidate_answers_count.
  - apply find_candidate_answers_maxmin_one.
  - apply find_candidate_answers_two_hop.
Qed.

End Dispatch.

Section TwoHop.

Context {V Score : Type} (E : env V Score) {R : Type}.

Lemma length_eqb_false {A : Type} (l : list A) (n : Z) :
  Z.of_nat (List.length l) <> n -> (Z.of_nat (List.length l) =? n) = false.
Proof. intros H. now apply Z.eqb_neq. Qed.

(** With two lists or more and no template relations, the solver reads the
    first two lists; the third one only when there are exactly three. *)
Lemma two_hop_solver_two_or_more question l1 l2 rest st :
  @two_hop_solver V Score E R question (l1 :: l2 :: rest) None st =
  (candidate_outputs <- two_hop_two_ent E question (make_entity_combs E [l1; l2]) ;;
   if negb (Py.nonempty candidate_outputs) then
     match rest with
     | [l3] => two_hop_two_ent E question (make_entity_combs E [l1; l3])
     | _ => two_hop_one_ent E question l2
     end
   else ret candidate_outputs) st.
Proof.
  unfold two_hop_solver.
  rewrite length_eqb_false by (cbn [List.length]; lia).
  rewrite bind_ret.
  replace (2 <=? Z.of_nat (List.length (l1 :: l2 :: rest))) with true
    by (symmetry; apply Z.leb_le; cbn [List.length]; lia).
  cbn [index0 index1]. rewrite !bind_ret.
  unfold bind. destruct (two_hop_two_ent E question (make_entity_combs E [l1; l2]) st)
    as [[outs | r | e] st1]; try reflexivity.
  destruct (negb (Py.nonempty outs)); [| reflexivity].
  destruct rest as [| l3 [| l4 rest]].
  - reflexivity.
  - reflexivity.
  - rewrite length_eqb_false by (cbn [List.length]; lia). reflexivity.
Qed.

(** C9, as amended: with no template relations and an empty two-entity
    search over lists 1 and 2, exactly three lists make the solver retry the
    two-entity search with lists 1 and 3 and return what the retry returns;
    with any other number of lists (two, or four and more) the solver runs
    the one-entity search on list 2. *)
Theorem two_hop_solver_retry_or_fallback
    (question : string) (l1 l2 : list string) (rest : list (list string))
    (st st1 : qg_state) :
  two_hop_two_ent (R := R) E question (make_entity_combs E [l1; l2]) st = (Normal [], st1) ->
  @two_hop_solver V Score E R question (l1 :: l2 :: rest) None st =
  match rest with
  | [l3] => two_hop_two_ent E question (make_entity_combs E [l1; l3]) st1
  | _ => two_hop_one_ent E question l2 st1
  end.
Proof.
  intros H. rewrite two_hop_solver_two_or_more.
  rewrite (bind_Normal _ _ _ _ _ H). cbn [negb Py.nonempty].
  destruct rest as [| l3 [| l4 rest]]; reflexivity.
Qed.

(** C10: with no template relations, two inputs of four entity lists or more
    that agree on their first two lists give the same result (the same
    outcome, after the same calls). *)
Theorem two_hop_solver_ignores_lists_after_second
    (question : string) (entity_ids entity_ids' : list (list string)) (st : qg_state) :
  (4 <= List.length entity_ids)%nat ->
  (4 <= List.length entity_ids')%nat ->
  firstn 2 entity_ids = firstn 2 entity_ids' ->
  @two_hop_solver V Score E R question entity_ids None st =
  @two_hop_solver V Score E R question entity_ids' None st.
Proof.
  intros Hlen Hlen' Hagree.
  destruct entity_ids as [| l1 [| l2 [| l3 [| l4 rest]]]]; cbn [List.length] in Hlen; try lia.
  destruct entity_ids' as [| l1' [| l2' [| l3' [| l4' rest']]]]; cbn [List.length] in Hlen'; try lia.
  cbn [firstn] in Hagree. injection Hagree as -> ->.
  rewrite !two_hop_solver_two_or_more. reflexivity.
Qed.

End TwoHop.

Section Yields.

Context {V Score : Type} (E : env V Score).

Lemma yields_ret {R A : Type} (a : A) (Q : A -> Prop) (QR : R -> Prop) :
  Q a -> yields (ret a) Q QR.
Proof. intros H st. exact H. Qed.

Lemma yields_return {R A : Type} (r : R) (Q : A -> Prop) (QR : R -> Prop) :
  QR r -> yields (return_ r) Q QR.
Proof. intros H st. exact H. Qed.

Lemma yields_raise {R A : Type} (e : Py.pyexc) (Q : A -> Prop) (QR : R -> Prop) :
  yields (raise e) Q QR.
Proof. intros st. exact I. Qed.

Lemma yields_bind {R A B : Type} (c : M R A) (k : A -> M R B)
    (P : A -> Prop) (Q : B -> Prop) (QR : R -> Prop) :
  yields c P QR -> (forall a, P a -> yields (k a) Q QR) -> yields (bind c k) Q QR.
Proof.
  intros Hc Hk st. unfold bind. specialize (Hc st).
  destruct (c st) as [[a | r | e] st1]; cbn [fst] in *; auto.
  apply (Hk a Hc st1).
Qed.

Lemma yields_for {R A S : Type} (xs : list A) (body : A -> S -> M R S)
    (Inv : S -> Prop) (QR : R -> Prop) :
  (forall x s, Inv s -> yields (body x s) Inv QR) ->
  forall s, Inv s -> yields (for_ xs s body) Inv QR.
Proof.
  intros Hb. induction xs as [| x xs IH]; intros s Hs; cbn [for_].
  - now apply yields_ret.
  - eapply yields_bind; [apply Hb; exact Hs | intros s' Hs'; now apply IH].
Qed.

Lemma yields_def {R R' : Type} (body : M R R) (Q : R -> Prop) (QR : R' -> Prop) :
  yields body Q Q -> yields (@def_ R R' body) Q QR.
Proof.
  intros Hb st. unfold def_. specialize (Hb st).
  destruct (body st) as [[a | r | e] st1]; cbn [fst] in *; auto.
Qed.

Lemma yields_def_any {R R' : Type} (body : M R R) (QR : R' -> Prop) :
  yields (@def_ R R' body) (fun _ => True) QR.
Proof.
  intros st. unfold def_. destruct (body st) as [[a | r | e] st1]; exact I.
Qed.

Lemma yields_weaken {R A : Type} (c : M R A) (Q Q' : A -> Prop) (QR QR' : R -> Prop) :
  yields c Q QR -> (forall a, Q a -> Q' a) -> (forall r, QR r -> QR' r) -> yields c Q' QR'.
Proof.
  intros Hc HQ HR st. specialize (Hc st).
  destruct (fst (c st)); auto.
Qed.

(** The collaborators and the indexing operations never return from the
    method: any value can come out of them. *)
Lemma yields_get {R : Type} (QR : R -> Prop) :
  yields (@get_template_num R) (fun _ => True) QR.
Proof. intros st. exact I. Qed.

Lemma yields_call_wiki {R : Type} (c : kg_call) (QR : R -> Prop) :
  yields (@call_wiki V Score E R c) (fun _ => True) QR.
Proof. intros st. exact I. Qed.

Lemma yields_call_triplets {R : Type} (c : kg_call) (QR : R -> Prop) :
  yields (@call_triplets V Score E R c) (fun _ => True) QR.
Proof. intros st. exact I. Qed.

Lemma yields_call_rank_rels {R : Type} q rels (QR : R -> Prop) :
  yields (@call_rank_rels V Score E R q rels) (fun _ => True) QR.
Proof. intros st. exact I. Qed.

Lemma yields_index0 {R A : Type} (l : list A) (QR : R -> Prop) :
  yields (@index0 R A l) (fun _ => True) QR.
Proof. destruct l; intros st; exact I. Qed.

Lemma yields_index1 {R A : Type} (l : list A) (QR : R -> Prop) :
  yields (@index1 R A l) (fun _ => True) QR.
Proof. destruct l as [| ? [| ? ?]]; intros st; exact I. Qed.

Lemma yields_index_last {R A : Type} (l : list A) (QR : R -> Prop) :
  yields (@index_last R A l) (fun _ => True) QR.
Proof. unfold index_last. destruct (rev l); intros st; exact I. Qed.

Lemma yields_read_local {R A : Type} (x : option A) (QR : R -> Prop) :
  yields (@read_local R A x) (fun _ => True) QR.
Proof. destruct x; intros st; exact I. Qed.

End Yields.


Lemma all_arity_nil n : all_arity n [].
Proof. constructor. Qed.

Lemma all_arity_app n outs outs' :
  all_arity n outs -> all_arity n outs' -> all_arity n (outs ++ outs').
Proof. intros H H'. apply Forall_app. now split. Qed.

Lemma all_arity_map {A : Type} n (f : A -> candidate) (l : list A) :
  (forall a, List.length (f a) = n) -> all_arity n (map f l).
Proof. intros H. apply Forall_forall. intros c Hc. apply in_map_iff in Hc as [a [<- _]]. apply H. Qed.

Lemma all_arity_flat_map {A : Type} n (f : A -> list candidate) (l : list A) :
  (forall a, all_arity n (f a)) -> all_arity n (flat_map f l).
Proof.
  intros H. apply Forall_forall. intros c Hc. apply in_flat_map in Hc as [a [_ Hc]].
  specialize (H a). unfold all_arity in H. rewrite Forall_forall in H. now apply H.
Qed.

Ltac arity :=
  repeat first
    [ assumption
    | apply all_arity_nil
    | apply all_arity_app
    | apply all_arity_flat_map; intros ?
    | apply all_arity_map;
      let x := fresh "x" in
      intros x; first [reflexivity | destruct x as [[? ?] ?]; reflexivity]
    | apply Forall_cons; [reflexivity |] ].

(** Goals [yields c P QR] for a loop nest whose loops all keep [P]; [side]
    proves [P] of the values built. *)
Ltac yields_step P side :=
  lazymatch goal with
  | |- yields (bind (for_ _ _ _) _) _ _ =>
      eapply (yields_bind _ _ P); [| intros ? ?]
  | |- yields (bind (if _ then _ else _) _) _ _ =>
      eapply (yields_bind _ _ P); [| intros ? ?]
  | |- yields (bind get_template_num _) _ _ =>
      eapply yields_bind; [apply yields_get | intros ? _]
  | |- yields (bind (call_wiki _ _) _) _ _ =>
      eapply yields_bind; [apply yields_call_wiki | intros ? _]
  | |- yields (bind (call_triplets _ _) _) _ _ =>
      eapply yields_bind; [apply yields_call_triplets | intros ? _]
  | |- yields (bind (call_rank_rels _ _ _) _) _ _ =>
      eapply yields_bind; [apply yields_call_rank_rels | intros ? _]
  | |- yields (bind (index0 _) _) _ _ =>
      eapply yields_bind; [apply yields_index0 | intros ? _]
  | |- yields (bind (index1 _) _) _ _ =>
      eapply yields_bind; [apply yields_index1 | intros ? _]
  | |- yields (bind (index_last _) _) _ _ =>
      eapply yields_bind; [apply yields_index_last | intros ? _]
  | |- yields (bind (read_local _) _) _ _ =>
      eapply yields_bind; [apply yields_read_local | intros ? _]
  | |- yields (for_ _ _ _) _ _ => apply yields_for; [intros ? ? ? | side]
  | |- yields (def_ _) _ _ => apply yields_def
  | |- yields (ret _) _ _ => apply yields_ret; side
  | |- yields (return_ _) _ _ => apply yields_return; side
  | |- yields (raise _) _ _ => apply yields_raise
  | |- yields (if ?b then _ else _) _ _ => destruct b
  | |- yields (match ?x with _ => _ end) _ _ => destruct x
  end.

Ltac yields_arity n := repeat yields_step (all_arity n) arity.

Section SolverArity.

Context {V Score : Type} (E : env V Score) {R : Type}.
Variable QR : R -> Prop.

Lemma arity_find_relevant_subgraph_cqwn entities_list rels num :
  yields (@find_relevant_subgraph_cqwn V Score E R entities_list rels num) (all_arity 3) QR.
Proof. unfold find_relevant_subgraph_cqwn. yields_arity 3%nat. Qed.

Lemma arity_find_relevant_subgraph_cqwq ent_combs rels :
  yields (@find_relevant_subgraph_cqwq V Score E R ent_combs rels) (all_arity 3) QR.
Proof. unfold find_relevant_subgraph_cqwq. yields_arity 3%nat. Qed.

Lemma any_top_rels_forw question entity_ids rft :
  yields (@top_rels_forw V Score E R question entity_ids rft) (fun _ => True) QR.
Proof.
  unfold top_rels_forw.
  repeat yields_step (fun _ : list string => True) ltac:(exact I).
Qed.

Lemma arity_cqwn_with_retry entity_ids top_rels ex_rels num :
  yields (@cqwn_with_retry V Score E R entity_ids top_rels ex_rels num) (all_arity 3) QR.
Proof.
  unfold cqwn_with_retry.
  eapply yields_bind; [apply yields_index0 | intros ? _].
  eapply yields_bind; [apply arity_find_relevant_subgraph_cqwn | intros outs Houts].
  destruct (Py.nonempty outs); [now apply yields_ret |].
  eapply yields_bind; [apply yields_index0 | intros ? _].
  eapply yields_bind; [apply yields_read_local | intros ? _].
  apply arity_find_relevant_subgraph_cqwn.
Qed.

Lemma arity_complex_question_with_number_solver question entity_ids rft :
  yields (@complex_question_with_number_solver V Score E R question entity_ids rft)
         (all_arity 3) QR.
Proof.
  unfold complex_question_with_number_solver.
  eapply yields_bind; [apply any_top_rels_forw | intros [top_rels ex_rels] _].
  eapply (yields_bind _ _ (all_arity 3)).
  - destruct (Py.truthy _); [apply arity_cqwn_with_retry | apply yields_ret; arity].
  - intros outs Houts.
    destruct (Py.truthy _); cbv zeta; cbn iota; [now apply yields_ret |].
    destruct (Py.truthy _); [apply arity_cqwn_with_retry | now apply yields_ret].
Qed.

Lemma arity_complex_question_with_qualifier_solver question entity_ids rft :
  yields (@complex_question_with_qualifier_solver V Score E R question entity_ids rft)
         (all_arity 3) QR.
Proof.
  unfold complex_question_with_qualifier_solver.
  eapply yields_bind; [apply any_top_rels_forw | intros [top_rels ex_rels] _].
  destruct (1 <? _); [apply arity_find_relevant_subgraph_cqwq | apply yields_ret; arity].
Qed.

Lemma arity_questions_with_count_solver question entity_ids rft :
  yields (@questions_with_count_solver V Score E R question entity_ids rft) (all_arity 2) QR.
Proof.
  unfold questions_with_count_solver.
  eapply (yields_bind _ _ (fun _ => True)).
  - destruct rft.
    + repeat yields_step (fun _ : list string => True) ltac:(exact I).
    + repeat yields_step (fun _ : list string => True) ltac:(exact I).
  - intros [top_rels directions] _.
    apply yields_for; [intros entity_id outs Houts | arity].
    apply yields_for; [intros entity outs' Houts' | assumption].
    eapply (yields_bind _ _ (fun s : list candidate * list string => all_arity 2 (fst s))).
    + apply yields_for; [intros rel s Hs | exact Houts'].
      apply yields_for; [intros direction [outs2 answers] Hs2 | exact Hs].
      cbn [fst] in Hs2.
      eapply yields_bind; [apply yields_call_wiki | intros objects _].
      destruct (Py.nonempty _); apply yields_ret; cbn [fst]; arity.
    + intros [outs2 answers] Hs. now apply yields_ret.
Qed.

Lemma arity_maxmin_one_entity_solver question entities_list rft :
  yields (@maxmin_one_entity_solver V Score E R question entities_list rft)
         (fun outs => all_arity 2 outs /\ (List.length outs <= 1)%nat) QR.
Proof.
  unfold maxmin_one_entity_solver, maxmin_one_top_rels.
  eapply (yields_bind _ _ (fun _ => True)).
  - destruct rft; repeat yields_step (fun _ : list string => True) ltac:(exact I).
  - intros top_rels _.
    eapply (yields_bind _ _ (fun _ => True)).
    + apply yields_def_any.
    + intros cands _. cbv zeta.
      destruct (map _ _) as [| c cs] eqn:Hmap; apply yields_ret.
      * split; [arity | cbn; lia].
      * split; [| cbn; lia].
        assert (Hall : all_arity 2 (c :: cs)).
        { rewrite <- Hmap. apply all_arity_map. intros [[? ?] ?]. reflexivity. }
        inversion Hall; subst. constructor; [assumption | constructor].
Qed.

End SolverArity.

Section TwoHopKeepsTemplate.

Context {V Score : Type} (E : env V Score).

Lemma keeps_from_template_one_ent {R : Type} entity_ids rft :
  keeps_template (@from_template_one_ent V Score E R entity_ids rft).
Proof. unfold from_template_one_ent. keeps. Qed.

Lemma keeps_from_template_two_ent {R : Type} ent_combs rft :
  keeps_template (@from_template_two_ent V Score E R ent_combs rft).
Proof. unfold from_template_two_ent. keeps. Qed.

Lemma keeps_two_hop_two_ent {R : Type} question ent_combs :
  keeps_template (@two_hop_two_ent V Score E R question ent_combs).
Proof. unfold two_hop_two_ent. keeps. Qed.

Lemma keeps_two_hop_cqwn {R : Type} entities_list rels num :
  keeps_template (@two_hop_cqwn V Score E R entities_list rels num).
Proof. unfold two_hop_cqwn. keeps. Qed.

Lemma keeps_two_hop_one_ent {R : Type} question entities_list :
  keeps_template (@two_hop_one_ent V Score E R question entities_list).
Proof.
  unfold two_hop_one_ent.
  repeat first [apply keeps_two_hop_cqwn | keeps_step].
Qed.

Lemma keeps_two_hop_solver {R : Type} question entity_ids rft :
  keeps_template (@two_hop_solver V Score E R question entity_ids rft).
Proof.
  unfold two_hop_solver.
  repeat first [ apply keeps_from_template_one_ent | apply keeps_from_template_two_ent
               | apply keeps_two_hop_two_ent | apply keeps_two_hop_one_ent | keeps_step ].
Qed.

End TwoHopKeepsTemplate.


Section Arity.

Context {V Score : Type} (E : env V Score) {R : Type}.

Lemma arity_maxmin_two_entities_solver question entity_ids rft (QR : R -> Prop) :
  yields (@maxmin_two_entities_solver V Score E R question entity_ids rft)
         (fun outs => all_arity 3 outs /\ (List.length outs <= 1)%nat) QR.
Proof.
  unfold maxmin_two_entities_solver, maxmin_two_top_rels.
  eapply (yields_bind _ _ (fun _ => True)).
  - destruct rft; repeat yields_step (fun _ : list string => True) ltac:(exact I).
  - intros [top_rels_1 top_rels_2] _.
    eapply (yields_bind _ _ (fun _ => True)).
    + destruct (1 <? _); [| now apply yields_ret].
      eapply yields_bind; [apply yields_def_any | intros ? _; now apply yields_ret].
    + intros cands _. cbv zeta.
      destruct (map _ _) as [| c cs] eqn:Hmap; apply yields_ret.
      * split; [arity | cbn; lia].
      * split; [| cbn; lia].
        assert (Hall : all_arity 3 (c :: cs)).
        { rewrite <- Hmap. apply all_arity_map. intros [[[? ?] ?] ?]. reflexivity. }
        inversion Hall; subst. constructor; [assumption | constructor].
Qed.

Lemma ran_Normal {A : Type} (c : M R A) (Q : A -> Prop) st a st' :
  yields c Q (fun _ => True) -> c st = (Normal a, st') -> Q a.
Proof. intros Hy Hrun. specialize (Hy st). now rewrite Hrun in Hy. Qed.

Lemma ran_keeps {A : Type} (c : M R A) st o st' :
  keeps_template c -> c st = (o, st') -> template_num st' = template_num st.
Proof. intros Hk Hrun. specialize (Hk st). now rewrite Hrun in Hk. Qed.

(** C8, as amended: the candidates of one result have the same arity, the
    one of the template that produced them, unless the generic two-hop
    strategy produced them (template 7, or a fallback to it from templates
    0 to 3). *)
Theorem candidate_arity_uniform_outside_two_hop
    (question : string) (entity_ids : list (list string))
    (rels_from_template : option (list (list string)))
    (st st' : qg_state) (outs : list candidate) :
  @find_candidate_answers V Score E R question entity_ids rels_from_template st
    = (Normal outs, st') ->
  template_num st' <> 7 ->
  all_arity (template_arity (template_num st')) outs.
Proof.
  intros Hrun Hnot7.
  assert (Hcases : (template_num st = 0 \/ template_num st = 1)
                   \/ (template_num st = 2 \/ template_num st = 3)
                   \/ template_num st = 4 \/ template_num st = 5 \/ template_num st = 6
                   \/ template_num st = 7
                   \/ (template_num st < 0 \/ 7 < template_num st)) by lia.
  destruct Hcases as [Ht | [Ht | [Ht | [Ht | [Ht | [Ht | Ht]]]]]].
  - rewrite find_candidate_answers_number in Hrun by assumption.
    unfold bind in Hrun.
    destruct (complex_question_with_number_solver E question entity_ids None st)
      as [[outs1 | r | e] st1] eqn:Hsolver; try discriminate.
    unfold or_two_hop in Hrun. destruct outs1 as [| o outs1]; cbn [Py.nonempty] in Hrun.
    + apply ran_keeps in Hrun; [| apply keeps_two_hop_solver]. now cbn in Hrun.
    + injection Hrun as <- <-.
      rewrite (ran_keeps _ _ _ _ (keeps_complex_question_with_number_solver E _ _ _) Hsolver).
      replace (template_arity (template_num st)) with 3%nat
        by (destruct Ht as [-> | ->]; reflexivity).
      exact (ran_Normal _ _ _ _ _ (arity_complex_question_with_number_solver E _ _ _ _) Hsolver).
  - rewrite find_candidate_answers_qualifier in Hrun by assumption.
    unfold bind in Hrun.
    destruct (complex_question_with_qualifier_solver E question entity_ids None st)
      as [[outs1 | r | e] st1] eqn:Hsolver; try discriminate.
    unfold or_two_hop in Hrun. destruct outs1 as [| o outs1]; cbn [Py.nonempty] in Hrun.
    + apply ran_keeps in Hrun; [| apply keeps_two_hop_solver]. now cbn in Hrun.
    + injection Hrun as <- <-.
      rewrite (ran_keeps _ _ _ _ (keeps_complex_question_with_qualifier_solver E _ _ _) Hsolver).
      replace (template_arity (template_num st)) with 3%nat
        by (destruct Ht as [-> | ->]; reflexivity).
      exact (ran_Normal _ _ _ _ _ (arity_complex_question_with_qualifier_solver E _ _ _ _) Hsolver).
  - rewrite find_candidate_answers_count in Hrun by assumption.
    rewrite (ran_keeps _ _ _ _ (keeps_questions_with_count_solver E _ _ _) Hrun), Ht.
    exact (ran_Normal _ _ _ _ _ (arity_questions_with_count_solver E _ _ _ _) Hrun).
  - rewrite find_candidate_answers_maxmin_one in Hrun by assumption.
    destruct entity_ids as [| entity_ids_0 rest]; [discriminate |].
    cbn [index0] in Hrun. rewrite bind_ret in Hrun.
    rewrite (ran_keeps _ _ _ _ (keeps_maxmin_one_entity_solver E _ _ _) Hrun), Ht.
    exact (proj1 (ran_Normal _ _ _ _ _ (arity_maxmin_one_entity_solver E _ _ _ _) Hrun)).
  - rewrite find_candidate_answers_maxmin_two in Hrun by assumption.
    unfold bind in Hrun.
    destruct (maxmin_two_entities_solver E question entity_ids rels_from_template st)
      as [[outs1 | r | e] st1] eqn:Hsolver; try discriminate.
    unfold or_maxmin_one in Hrun. destruct outs1 as [| o outs1]; cbn [Py.nonempty] in Hrun.
    + destruct entity_ids as [| entity_ids_0 rest]; [discriminate |].
      cbn [index0] in Hrun. rewrite bind_ret in Hrun.
      rewrite (ran_keeps _ _ _ _ (keeps_maxmin_one_entity_solver E _ _ _) Hrun).
      exact (proj1 (ran_Normal _ _ _ _ _ (arity_maxmin_one_entity_solver E _ _ _ _) Hrun)).
    + injection Hrun as <- <-.
      rewrite (ran_keeps _ _ _ _ (keeps_maxmin_two_entities_solver E _ _ _) Hsolver), Ht.
      exact (proj1 (ran_Normal _ _ _ _ _ (arity_maxmin_two_entities_solver _ _ _ _) Hsolver)).
  - rewrite find_candidate_answers_two_hop in Hrun by assumption.
    apply ran_keeps in Hrun; [| apply keeps_two_hop_solver]. congruence.
  - rewrite find_candidate_answers_other in Hrun by assumption.
    injection Hrun as <- <-. apply all_arity_nil.
Qed.

End Arity.


Section MalformedLiterals.

Context {V Score : Type} (E : env V Score).

Lemma parse_raises {R A : Type} (lit : string) (k : V -> M R A) :
  well_formed_literal E lit = false ->
  exists e, parse_error e /\ forall st,
    (number <- search_group1 lit ;; value <- float_ E number ;; k value) st = (Raised e, st).
Proof.
  unfold well_formed_literal, search_group1, float_, parse_error. intros H.
  destruct (Py.re_search_group1 lit) as [number |].
  - destruct (py_float E number) eqn:Hfloat; [discriminate |].
    exists Py.ValueError. split; [now right |].
    intros st. rewrite bind_ret. unfold bind. now rewrite Hfloat.
  - exists Py.AttributeError. split; [now left | reflexivity].
Qed.

(** The loop over the objects of one relation: an object with a malformed
    literal makes it raise, at that object or before. *)
Lemma for_objects_raises {R T : Type} (rel : string) (mk : string -> V -> T)
    (objects : list string) (obj lit : string) (lits : list string) :
  In obj objects ->
  wiki_parser E (KgCall Objects "forw" obj (Some rel) None direct (Some xsd_decimal))
    = lit :: lits ->
  well_formed_literal E lit = false ->
  forall acc st, exists e st',
    parse_error e /\
    for_ (R := R) objects acc (fun obj candidate_answers =>
      objects_2 <- call_wiki E (KgCall Objects "forw" obj (Some rel) None direct
                                       (Some xsd_decimal)) ;;
      match objects_2 with
      | objects_2_0 :: _ =>
          number <- search_group1 objects_2_0 ;;
          value <- float_ E number ;;
          ret (candidate_answers ++ [mk obj value])
      | [] => ret candidate_answers
      end) st = (Raised e, st').
Proof.
  intros Hin Hfetch Hbad.
  induction objects as [| o objects IH]; [contradiction |].
  intros acc st. cbn [for_].
  destruct (string_dec o obj) as [-> | Hne].
  - unfold bind at 1. unfold bind at 1. unfold call_wiki at 1. rewrite Hfetch.
    destruct (parse_raises (R := R) lit (fun value => ret (acc ++ [mk obj value])) Hbad)
      as [e [Herr He]].
    rewrite He. eauto.
  - destruct Hin as [-> | Hin]; [contradiction |].
    unfold bind at 1. unfold bind at 1. unfold call_wiki at 1.
    destruct (wiki_parser E (KgCall Objects "forw" o (Some rel) None direct (Some xsd_decimal)))
      as [| lit0 lits0].
    + cbn. apply IH. exact Hin.
    + unfold search_group1 at 1.
      destruct (Py.re_search_group1 lit0) as [number |].
      * unfold bind at 1. cbn [ret]. unfold bind at 1. unfold float_ at 1.
        destruct (py_float E number); cbn; [apply IH; exact Hin |].
        do 2 eexists. split; [| reflexivity]. now right.
      * cbn. do 2 eexists. split; [| reflexivity]. now left.
Qed.

Lemma bind_call_wiki {R B : Type} (c : kg_call) (k : list string -> M R B) st :
  bind (call_wiki E c) k st = k (wiki_parser E c) (record_call (EvKg c) st).
Proof. reflexivity. Qed.

Lemma def_Raised {R R' : Type} (body : M R R) st e st' :
  body st = (Raised e, st') -> @def_ R R' body st = (Raised e, st').
Proof. intros H. unfold def_. now rewrite H. Qed.

Ltac into_loops :=
  repeat first [ rewrite bind_assoc | rewrite bind_ret | rewrite bind_call_wiki
               | progress cbn [for_ index0 index1] | progress cbv zeta ].

Lemma find_relevant_subgraph_maxmin_one_raises {R : Type}
    (entity : string) (entities_list : list string) (rel : string) (rels : list string)
    (obj lit : string) (lits : list string) (st : qg_state) :
  In obj (wiki_parser E (KgCall Objects "backw" entity (Some "P31") None direct None)) ->
  wiki_parser E (KgCall Objects "forw" obj (Some rel) None direct (Some xsd_decimal))
    = lit :: lits ->
  well_formed_literal E lit = false ->
  exists e st',
    parse_error e /\
    @find_relevant_subgraph_maxmin_one V Score E R (entity :: entities_list) (rel :: rels) st
    = (Raised e, st').
Proof.
  intros Hin Hfetch Hbad.
  destruct (for_objects_raises (R := list (string * string * V)) rel
              (fun obj value => (rel, obj, value)) _ obj lit lits Hin Hfetch Hbad []
              (record_call (EvKg (KgCall Objects "backw" entity (Some "P31") None direct None)) st))
    as [e [st' [Herr Hloop]]].
  exists e, st'. split; [exact Herr |].
  unfold find_relevant_subgraph_maxmin_one. apply def_Raised.
  into_loops. apply bind_Raised. exact Hloop.
Qed.

Lemma find_relevant_subgraph_maxmin_two_raises {R : Type}
    (c0 c1 : string) (c : list string) (ent_combs : list (list string))
    (rel_1 : string) (rels_1 : list string) (rel_2 : string) (rels_2 : list string)
    (obj lit : string) (lits : list string) (st : qg_state) :
  In obj (list_set_inter E
            (wiki_parser E (KgCall Objects "backw" c0 (Some "P31") None direct None))
            (wiki_parser E (KgCall Objects "backw" c1 (Some rel_1) None direct None))) ->
  wiki_parser E (KgCall Objects "forw" obj (Some rel_2) None direct (Some xsd_decimal))
    = lit :: lits ->
  well_formed_literal E lit = false ->
  exists e st',
    parse_error e /\
    @find_relevant_subgraph_maxmin_two V Score E R ((c0 :: c1 :: c) :: ent_combs)
      (rel_1 :: rels_1) (rel_2 :: rels_2) st
    = (Raised e, st').
Proof.
  intros Hin Hfetch Hbad.
  destruct (for_objects_raises (R := list (string * string * string * V)) rel_2
              (fun obj value => (rel_1, rel_2, obj, value)) _ obj lit lits Hin Hfetch Hbad []
              (record_call
                 (EvKg (KgCall Objects "backw" c1 (Some rel_1) None direct None))
                 (record_call
                    (EvKg (KgCall Objects "backw" c0 (Some "P31") None direct None)) st)))
    as [e [st' [Herr Hloop]]].
  exists e, st'. split; [exact Herr |].
  unfold find_relevant_subgraph_maxmin_two. apply def_Raised.
  into_loops. apply bind_Raised. exact Hloop.
Qed.

(** C7, as amended: in the max/min solvers a fetched decimal-typed object
    whose literal is malformed (no double-quoted part, or a quoted text that
    float rejects) is not skipped: when the search of the first entity (or
    entity combination) under the first relation (or relation pair) meets
    such an object, parsing raises AttributeError or ValueError and the
    exception propagates out of the solver. *)
Theorem maxmin_malformed_literal_raises {R : Type}
    (question : string) (rels_from_template : option (list (list string)))
    (obj lit : string) (lits : list string) (st st1 : qg_state) :
  well_formed_literal E lit = false ->
  (forall (entity : string) (entities_list : list string) (rel : string) (rels : list string),
     maxmin_one_top_rels (R := R) E question rels_from_template st = (Normal (rel :: rels), st1) ->
     In obj (wiki_parser E (KgCall Objects "backw" entity (Some "P31") None direct None)) ->
     wiki_parser E (KgCall Objects "forw" obj (Some rel) None direct (Some xsd_decimal))
       = lit :: lits ->
     exists e st',
       (e = Py.AttributeError \/ e = Py.ValueError) /\
       @maxmin_one_entity_solver V Score E R question (entity :: entities_list)
         rels_from_template st = (Raised e, st')) /\
  (forall (entity_ids : list (list string)) (top_rels_1 top_rels_2 : list string)
          (c0 c1 : string) (c : list string) (ent_combs : list (list string))
          (rel_1 : string) (rels_1 : list string) (rel_2 : string) (rels_2 : list string),
     maxmin_two_top_rels (R := R) E question entity_ids rels_from_template st
       = (Normal (top_rels_1, top_rels_2), st1) ->
     (1 < List.length entity_ids)%nat ->
     make_entity_combs E entity_ids = (c0 :: c1 :: c) :: ent_combs ->
     Py.take (rels_to_leave E) top_rels_1 = rel_1 :: rels_1 ->
     Py.take (rels_to_leave E) top_rels_2 = rel_2 :: rels_2 ->
     In obj (list_set_inter E
               (wiki_parser E (KgCall Objects "backw" c0 (Some "P31") None direct None))
               (wiki_parser E (KgCall Objects "backw" c1 (Some rel_1) None direct None))) ->
     wiki_parser E (KgCall Objects "forw" obj (Some rel_2) None direct (Some xsd_decimal))
       = lit :: lits ->
     exists e st',
       (e = Py.AttributeError \/ e = Py.ValueError) /\
       @maxmin_two_entities_solver V Score E R question entity_ids rels_from_template st
       = (Raised e, st')).
Proof.
  intros Hbad. split.
  - intros entity entities_list rel rels Htop Hin Hfetch.
    destruct (find_relevant_subgraph_maxmin_one_raises (R := R) entity entities_list rel rels
                obj lit lits st1 Hin Hfetch Hbad) as [e [st' [Herr Hfind]]].
    exists e, st'. split; [exact Herr |]. unfold maxmin_one_entity_solver.
    rewrite (bind_Normal _ _ _ _ _ Htop). cbv zeta.
    now apply bind_Raised.
  - intros entity_ids top_rels_1 top_rels_2 c0 c1 c ent_combs rel_1 rels_1 rel_2 rels_2
           Htop Hlen Hcombs Hrels_1 Hrels_2 Hin Hfetch.
    destruct (find_relevant_subgraph_maxmin_two_raises (R := R) c0 c1 c ent_combs
                rel_1 rels_1 rel_2 rels_2 obj lit lits st1 Hin Hfetch Hbad)
      as [e [st' [Herr Hfind]]].
    exists e, st'. split; [exact Herr |]. unfold maxmin_two_entities_solver.
    rewrite (bind_Normal _ _ _ _ _ Htop).
    replace (1 <? Z.of_nat (List.length entity_ids)) with true
      by (symmetry; apply Z.ltb_lt; lia).
    cbv zeta. rewrite Hcombs, Hrels_1, Hrels_2.
    rewrite !bind_assoc. now apply bind_Raised.
Qed.

End MalformedLiterals.

(** ** The fixtures' record of calls *)

Section Called.

Import Fixture.

Lemma option_eqb_eq (a b : option string) : option_eqb a b = true <-> a = b.
Proof.
  destruct a as [x |], b as [y |]; cbn; try (split; congruence).
  rewrite String.eqb_eq. split; congruence.
Qed.

Lemma what_eqb_eq (a b : what_return) : what_eqb a b = true <-> a = b.
Proof. destruct a, b; cbn; split; congruence. Qed.

Lemma kg_call_eqb_eq (a b : kg_call) : kg_call_eqb a b = true <-> a = b.
Proof.
  destruct a, b. unfold kg_call_eqb. cbn [kg_what kg_direction kg_entity kg_rel kg_obj
                                           kg_type_of_rel kg_filter_obj].
  rewrite !andb_true_iff, what_eqb_eq, !String.eqb_eq, !option_eqb_eq.
  split; [intros [[[[[[-> ->] ->] ->] ->] ->] ->]; reflexivity | intros H; now inversion H].
Qed.

(** [called] decides membership in the record of calls. *)
Lemma called_iff (c : kg_call) (st : qg_state) :
  called c st = true <-> In (EvKg c) (calls st).
Proof.
  unfold called. rewrite existsb_exists. split.
  - intros [[c' | q rels | m] [Hin Heq]]; try discriminate.
    apply kg_call_eqb_eq in Heq. now subst.
  - intros Hin. exists (EvKg c). split; [exact Hin |]. now apply kg_call_eqb_eq.
Qed.

End Called.

(** ** The order of [sorted] *)

Section SortedFacts.

Context {A K : Type}.
Variable ltb : K -> K -> bool.
Variable key : A -> K.

(** [<] on the keys is a strict weak order, as it is on floats that are not
    NaN. *)
Hypothesis ltb_asym : forall a b, ltb a b = true -> ltb b a = false.
Hypothesis ltb_negtrans : forall a b c, ltb a c = true -> ltb a b = true \/ ltb b c = true.

Lemma in_insert x y l : In y (Py.insert ltb key x l) <-> y = x \/ In y l.
Proof.
  induction l as [| z l IH]; cbn [Py.insert].
  - cbn. intuition.
  - destruct (ltb (key z) (key x)); cbn [In]; [rewrite IH |]; intuition.
Qed.

Lemma in_sort_asc y l : In y (Py.sort_asc ltb key l) <-> In y l.
Proof.
  induction l as [| x l IH]; cbn [Py.sort_asc fold_right]; [reflexivity |].
  fold (Py.sort_asc ltb key l). rewrite in_insert, IH. cbn [In]. intuition.
Qed.

Lemma insert_sorted x l :
  StronglySorted (not_after ltb key) l -> StronglySorted (not_after ltb key) (Py.insert ltb key x l).
Proof.
  induction 1 as [| y l Hsorted IH Hy]; cbn [Py.insert].
  - repeat constructor.
  - destruct (ltb (key y) (key x)) eqn:Hyx.
    + constructor; [exact IH |].
      apply Forall_forall. intros z Hz. apply in_insert in Hz as [-> | Hz].
      * unfold not_after. now apply ltb_asym.
      * rewrite Forall_forall in Hy. now apply Hy.
    + constructor; [now constructor |].
      constructor; [exact Hyx |].
      apply Forall_forall. intros z Hz. rewrite Forall_forall in Hy.
      specialize (Hy z Hz). unfold not_after in *.
      destruct (ltb (key z) (key x)) eqn:Hzx; [| reflexivity].
      destruct (ltb_negtrans _ (key y) _ Hzx) as [H | H]; congruence.
Qed.

Lemma sort_asc_sorted l : StronglySorted (not_after ltb key) (Py.sort_asc ltb key l).
Proof.
  induction l as [| x l IH]; cbn [Py.sort_asc fold_right]; [constructor |].
  now apply insert_sorted.
Qed.

Lemma ltb_irrefl a : ltb a a = false.
Proof. destruct (ltb a a) eqn:H; [| reflexivity]. now rewrite (ltb_asym _ _ H) in H. Qed.

Lemma sorted_app_last l x l' :
  StronglySorted (not_after ltb key) (l ++ x :: l') -> forall y, In y l -> not_after ltb key y x.
Proof.
  induction l as [| z l IH]; intros Hs y Hy; [contradiction |].
  cbn [app] in Hs. inversion Hs as [| ? ? Hs' Hall]; subst.
  destruct Hy as [-> | Hy]; [| now apply IH].
  rewrite Forall_forall in Hall. apply Hall. apply in_or_app. right. now left.
Qed.

(** The first element of [sorted(l, key, reverse)] is an element of [l]
    whose key no other key is below (above, with [reverse]). *)
Lemma sorted_head reverse l h t :
  Py.sorted ltb key reverse l = h :: t ->
  In h l /\
  forall z, In z l ->
    if reverse then ltb (key h) (key z) = false else ltb (key z) (key h) = false.
Proof.
  unfold Py.sorted. destruct reverse; intros Hsort.
  - assert (Hrev : Py.sort_asc ltb key (rev l) = rev t ++ [h]).
    { rewrite <- (rev_involutive (Py.sort_asc ltb key (rev l))), Hsort. reflexivity. }
    assert (Hin : forall z, In z l <-> In z (rev t ++ [h])).
    { intros z. rewrite <- Hrev, in_sort_asc, <- in_rev. reflexivity. }
    split.
    + apply Hin. apply in_or_app. right. now left.
    + intros z Hz. apply Hin in Hz. apply in_app_or in Hz as [Hz | [<- | []]].
      * pose proof (sort_asc_sorted (rev l)) as Hs. rewrite Hrev in Hs.
        exact (sorted_app_last _ _ _ Hs z Hz).
      * apply ltb_irrefl.
  - assert (Hin : forall z, In z l <-> In z (h :: t)).
    { intros z. rewrite <- Hsort, in_sort_asc. reflexivity. }
    split.
    + apply Hin. now left.
    + intros z Hz. apply Hin in Hz as [<- | Hz]; [apply ltb_irrefl |].
      pose proof (sort_asc_sorted l) as Hs. rewrite Hsort in Hs.
      inversion Hs as [| ? ? _ Hall]; subst.
      rewrite Forall_forall in Hall. now apply Hall.
Qed.

Lemma sorted_nonempty reverse l :
  l <> [] -> Py.sorted ltb key reverse l <> [].
Proof.
  intros Hl Hs.
  assert (Hnone : forall z, ~ In z l).
  { intros z Hz. unfold Py.sorted in Hs. destruct reverse.
    - apply (f_equal (@rev A)) in Hs. rewrite rev_involutive in Hs. cbn in Hs.
      apply in_rev in Hz. apply in_sort_asc in Hz. now rewrite Hs in Hz.
    - apply in_sort_asc in Hz. now rewrite Hs in Hz. }
  destruct l as [| x l]; [congruence |]. apply (Hnone x). now left.
Qed.

End SortedFacts.

Section MaxMinExtremum.

Context {V Score : Type} (E : env V Score) {R : Type}.

Hypothesis lt_asym : forall a b, float_lt E a b = true -> float_lt E b a = false.
Hypothesis lt_negtrans :
  forall a b c, float_lt E a c = true -> float_lt E a b = true \/ float_lt E b c = true.

(** The one-entity max/min solver returns the candidate of the winning
    relation with the least value when the classifier says ascending, and
    with the greatest value when it does not. *)
Lemma maxmin_one_entity_solver_extremum
    (question : string) (entities_list : list string)
    (rels_from_template : option (list (list string)))
    (top_rels : list string) (candidates : list (string * string * V))
    (st st1 st2 : qg_state) :
  maxmin_one_top_rels (R := R) E question rels_from_template st = (Normal top_rels, st1) ->
  find_relevant_subgraph_maxmin_one (R := R) E entities_list top_rels st1
    = (Normal candidates, st2) ->
  candidates <> [] ->
  exists rel obj value,
    In (rel, obj, value) candidates /\
    @maxmin_one_entity_solver V Score E R question entities_list rels_from_template st
      = (Normal [[rel; obj]], st2) /\
    forall rel' obj' value', In (rel', obj', value') candidates ->
      if asc_desc E question then float_lt E value' value = false
      else float_lt E value value' = false.
Proof.
  intros Htop Hfind Hne.
  unfold maxmin_one_entity_solver.
  rewrite (bind_Normal _ _ _ _ _ Htop). cbv zeta.
  rewrite (bind_Normal _ _ _ _ _ Hfind).
  destruct (Py.sorted (float_lt E) (fun x : string * string * V => snd x)
              (if asc_desc E question then false else true) candidates)
    as [| [[rel obj] value] t] eqn:Hsort.
  - now apply sorted_nonempty in Hsort.
  - apply (sorted_head (float_lt E) _ lt_asym lt_negtrans) in Hsort as [Hin Hext].
    exists rel, obj, value. split; [exact Hin |]. split; [reflexivity |].
    intros rel' obj' value' Hin'. specialize (Hext _ Hin'). cbn [snd] in Hext.
    destruct (asc_desc E question); exact Hext.
Qed.


End MaxMinExtremum.

(** ** The claims on the fixtures *)

Section Examples.

Import Fixture Scenario.

(** C1 (code defect): on a question classified as ascending, with the values
    1 and 2 found for the selected relation pair, the two-entity max/min
    solver returns the candidate of the value 2, the maximum; the one-entity
    solver on the same data returns the candidate of the minimum. *)
Theorem maxmin_two_entities_solver_ascending_returns_maximum :
  asc_desc env_maxmin question = true /\
  fst (find_relevant_subgraph_maxmin_two (R := unit) env_maxmin [["C"; "B"]] ["P1"] ["P2"]
         (start 6))
    = Normal [("P1", "P2", "o1", 1); ("P1", "P2", "o2", 2)] /\
  fst (maxmin_two_entities_solver (R := unit) env_maxmin question [["C"]; ["B"]] rels_maxmin
         (start 6))
    = Normal [["P1"; "P2"; "o2"]] /\
  fst (find_candidate_answers (R := unit) env_maxmin question [["C"]; ["B"]] rels_maxmin
         (start 6))
    = Normal [["P1"; "P2"; "o2"]] /\
  fst (maxmin_one_entity_solver (R := unit) env_maxmin question ["C"] (Some [["P2"; "forw"]])
         (start 5))
    = Normal [["P2"; "o1"]].
Proof. repeat split; vm_compute; reflexivity. Qed.

(** The order of the fixtures is a strict weak order, and the one-entity
    solver on the fixture returns the candidate of the least value. *)
Example maxmin_one_entity_solver_extremum_on_fixture :
  exists rel obj value,
    In (rel, obj, value) [("P2", "o1", 1); ("P2", "o2", 2)] /\
    maxmin_one_entity_solver (R := unit) env_maxmin question ["C"] (Some [["P2"; "forw"]])
      (start 5)
    = (Normal [[rel; obj]],
       snd (find_relevant_subgraph_maxmin_one (R := unit) env_maxmin ["C"] ["P2"] (start 5))) /\
    forall rel' obj' value', In (rel', obj', value') [("P2", "o1", 1); ("P2", "o2", 2)] ->
      (value' <? value) = false.
Proof.
  refine (maxmin_one_entity_solver_extremum env_maxmin (R := unit) _ _ question ["C"]
            (Some [["P2"; "forw"]]) ["P2"] [("P2", "o1", 1); ("P2", "o2", 2)]
            (start 5) (start 5) _ _ _ _).
  - intros a b H. apply Z.ltb_lt in H. apply Z.ltb_ge. cbn in *. lia.
  - intros a b c H. apply Z.ltb_lt in H. cbn in *.
    destruct (Z.ltb_spec a b); [now left | right]. apply Z.ltb_lt. lia.
  - reflexivity.
  - vm_compute. reflexivity.
  - discriminate.
Qed.

(** C2 (code defect): the count solver keeps one list of answers per entity
    and appends to it under every relation and direction. With one object
    forward and none backward it emits two tuples, the second for the empty
    backward set; with one object forward and one backward the second tuple
    counts 2, the running total, and not the 1 object of the backward
    set. *)
Theorem questions_with_count_solver_accumulates :
  wiki_parser (env_of kg_count) (KgCall Objects "backw" "E" (Some "P1") None direct None) = [] /\
  fst (questions_with_count_solver (R := unit) (env_of kg_count) question [["E"]] None (start 4))
    = Normal [["P1"; "1"]; ["P1"; "1"]] /\
  wiki_parser (env_of kg_count_both) (KgCall Objects "backw" "E" (Some "P1") None direct None)
    = ["b"] /\
  fst (questions_with_count_solver (R := unit) (env_of kg_count_both) question [["E"]] None
         (start 4))
    = Normal [["P1"; "1"]; ["P1"; "2"]] /\
  fst (find_candidate_answers (R := unit) (env_of kg_count_both) question [["E"]] None
         (start 4))
    = Normal [["P1"; "1"]; ["P1"; "2"]].
Proof. repeat split; vm_compute; reflexivity. Qed.

(** C4 (code defect): the dispatcher calls the count solver without the
    relations of the template. With the template relation P1 (two objects)
    and a neighborhood that has P2 only, it ranks the neighborhood, never
    asks for the objects of P1 and answers with P2; the solver itself, given
    the template relations, answers with P1 and its two objects. *)
Theorem find_candidate_answers_drops_template_rels :
  fst (find_candidate_answers (R := unit) (env_of kg_count_template) question [["E"]]
         (Some [["P1"; "forw"]]) (start 4))
    = Normal [["P2"; "1"]; ["P2"; "1"]] /\
  In (EvRank question ["P2"])
     (calls (snd (find_candidate_answers (R := unit) (env_of kg_count_template) question [["E"]]
                    (Some [["P1"; "forw"]]) (start 4)))) /\
  called (KgCall Objects "forw" "E" (Some "P1") None direct None)
         (snd (find_candidate_answers (R := unit) (env_of kg_count_template) question [["E"]]
                 (Some [["P1"; "forw"]]) (start 4)))
    = false /\
  fst (questions_with_count_solver (R := unit) (env_of kg_count_template) question [["E"]]
         (Some [["P1"; "forw"]]) (start 4))
    = Normal [["P1"; "2"]].
Proof.
  repeat split; try (vm_compute; reflexivity).
  vm_compute. right. right. left. reflexivity.
Qed.

(** C5 (code defect): with one relation to leave and a ranking of two, the
    two-entity two-hop search goes on to the second relation of the ranking:
    it asks the knowledge graph for the objects of P2 and answers with P2. *)
Theorem two_hop_two_ent_uses_whole_ranking :
  rels_to_leave env_second_ranked = 1 /\
  rels_to_leave_2hop env_second_ranked = 1 /\
  first_of_scores (rank_rels env_second_ranked question ["P1"; "P2"]) = ["P1"; "P2"] /\
  called (KgCall Objects "forw" "B" (Some "P2") None direct None)
         (snd (two_hop_two_ent (R := unit) env_second_ranked question [["A"; "B"]] (start 7)))
    = true /\
  fst (two_hop_two_ent (R := unit) env_second_ranked question [["A"; "B"]] (start 7))
    = Normal [["P2"; "P9"; "o"]] /\
  fst (find_candidate_answers (R := unit) env_second_ranked question [["A"]; ["B"]] None
         (start 7))
    = Normal [["P2"; "P9"; "o"]].
Proof. repeat split; vm_compute; reflexivity. Qed.

(** C6 (code defect): with one entity to leave and two linked to the first
    mention, [get_entity_ids] keeps both (it cuts at 15) and the two-entity
    max/min solver asks the knowledge graph for the relations of the second
    one. *)
Theorem entity_lists_not_capped_before_traversal :
  entities_to_leave env_links = 1 /\
  fst (get_entity_ids (R := unit) env_links ["m1"; "m2"] (start 6))
    = Normal [["E1"; "E2"]; ["E3"]] /\
  Py.take (entities_to_leave env_links) ["E1"; "E2"] = ["E1"] /\
  called (KgCall Rels "backw" "E2" None None direct None)
         (snd ((entity_ids <- get_entity_ids env_links ["m1"; "m2"] ;;
                find_candidate_answers (R := unit) env_links question entity_ids None)
                 (start 6)))
    = true.
Proof. repeat split; vm_compute; reflexivity. Qed.

(** C3, at template 0 with a question that carries no year and no number:
    the numeric solver returns no candidate and the result is the one of
    the generic two-hop solver, run with the active template 7. *)
Lemma find_candidate_answers_fallback_table_witness :
  complex_question_with_number_solver (R := unit) (env_of kg_three) question [["B"]] None (start 0)
    = (Normal [],
       snd (complex_question_with_number_solver (R := unit) (env_of kg_three) question [["B"]]
              None (start 0))) /\
  find_candidate_answers (R := unit) (env_of kg_three) question [["B"]] None (start 0)
    = two_hop_solver (env_of kg_three) question [["B"]] None
        (set_template_num 7
           (snd (complex_question_with_number_solver (R := unit) (env_of kg_three) question
                   [["B"]] None (start 0)))).
Proof.
  assert (Hrun : complex_question_with_number_solver (R := unit) (env_of kg_three) question
                   [["B"]] None (start 0)
                 = (Normal [],
                    snd (complex_question_with_number_solver (R := unit) (env_of kg_three)
                           question [["B"]] None (start 0))))
    by (vm_compute; reflexivity).
  split; [exact Hrun |].
  exact (proj1 (proj1 (find_candidate_answers_fallback_table (env_of kg_three) question
                         [["B"]] None (start 0))
                  (or_introl eq_refl) _ _ Hrun) eq_refl).
Defined.

(** C7 fails: a literal without a double quote and a quoted text that is not
    a number both make the max/min solvers raise. *)
Lemma maxmin_solvers_raise_on_malformed_literal :
  fst (maxmin_one_entity_solver (R := unit) (env_literal "unknown") question ["C"]
         (Some [["P2"; "forw"]]) (start 5))
    = Raised Py.AttributeError /\
  fst (maxmin_one_entity_solver (R := unit) (env_literal (literal "unknown")) question ["C"]
         (Some [["P2"; "forw"]]) (start 5))
    = Raised Py.ValueError /\
  fst (maxmin_two_entities_solver (R := unit) (env_literal "unknown") question [["C"]; ["B"]]
         rels_maxmin (start 6))
    = Raised Py.AttributeError /\
  fst (maxmin_two_entities_solver (R := unit) (env_literal (literal "unknown")) question
         [["C"]; ["B"]] rels_maxmin (start 6))
    = Raised Py.ValueError.
Proof. repeat split; vm_compute; reflexivity. Qed.

(** C7 as amended, on the literal without a double quote. *)
Lemma maxmin_malformed_literal_raises_witness :
  exists e st',
    (e = Py.AttributeError \/ e = Py.ValueError) /\
    maxmin_one_entity_solver (R := unit) (env_literal "unknown") question ["C"]
      (Some [["P2"; "forw"]]) (start 5) = (Raised e, st').
Proof.
  refine (proj1 (maxmin_malformed_literal_raises (env_literal "unknown") (R := unit) question
                   (Some [["P2"; "forw"]]) "o1" "unknown" [] (start 5) (start 5) _)
            "C" [] "P2" [] _ _ _).
  - vm_compute. reflexivity.
  - vm_compute. reflexivity.
  - vm_compute. left. reflexivity.
  - vm_compute. reflexivity.
Defined.

(** C8 fails: the two-entity two-hop search returns a 3-tuple and a 2-tuple
    in one result. *)
Lemma two_hop_result_mixes_arities :
  fst (find_candidate_answers (R := unit) (env_of kg_mixed) question [["A"]; ["B"]] None
         (start 7))
    = Normal [["P1"; "P106"; "o"]; ["P1"; "o"]] /\
  ~ exists n, all_arity n [["P1"; "P106"; "o"]; ["P1"; "o"]].
Proof.
  split; [vm_compute; reflexivity |].
  intros [n Hall]. inversion Hall as [| ? ? H3 Hrest]; subst.
  inversion Hrest as [| ? ? H2 _]; subst. cbn in H2. discriminate.
Qed.

(** C8 as amended, on the count template. *)
Lemma candidate_arity_uniform_outside_two_hop_witness :
  all_arity 2 [["P1"; "1"]; ["P1"; "1"]].
Proof.
  refine (candidate_arity_uniform_outside_two_hop (env_of kg_count) (R := unit) question
            [["E"]] None (start 4)
            (snd (find_candidate_answers (R := unit) (env_of kg_count) question [["E"]] None
                    (start 4)))
            [["P1"; "1"]; ["P1"; "1"]] _ _).
  - vm_compute. reflexivity.
  - vm_compute. discriminate.
Defined.

(** C9 fails: with three lists and both two-entity searches empty, the
    solver returns nothing, while the one-entity search on list 2 finds a
    candidate. *)
Lemma two_hop_solver_three_lists_no_one_entity_fallback :
  fst (two_hop_two_ent (R := unit) (env_of kg_three) question
         (make_entity_combs (env_of kg_three) [["A"]; ["B"]]) (start 7)) = Normal [] /\
  fst (two_hop_two_ent (R := unit) (env_of kg_three) question
         (make_entity_combs (env_of kg_three) [["A"]; ["C"]]) (start 7)) = Normal [] /\
  fst (two_hop_one_ent (R := unit) (env_of kg_three) question ["B"] (start 7))
    = Normal [["P1"; "o"]] /\
  fst (two_hop_solver (R := unit) (env_of kg_three) question [["A"]; ["B"]; ["C"]] None
         (start 7))
    = Normal [].
Proof. repeat split; vm_compute; reflexivity. Qed.

(** C9 as amended, on three lists. *)
Lemma two_hop_solver_retry_or_fallback_witness :
  two_hop_solver (R := unit) (env_of kg_three) question [["A"]; ["B"]; ["C"]] None (start 7)
  = two_hop_two_ent (env_of kg_three) question
      (make_entity_combs (env_of kg_three) [["A"]; ["C"]])
      (snd (two_hop_two_ent (R := unit) (env_of kg_three) question
              (make_entity_combs (env_of kg_three) [["A"]; ["B"]]) (start 7))).
Proof.
  refine (two_hop_solver_retry_or_fallback (env_of kg_three) (R := unit) question
            ["A"] ["B"] [["C"]] (start 7) _ _).
  vm_compute. reflexivity.
Defined.

(** C10, on four and five lists that start with the same two. *)
Lemma two_hop_solver_ignores_lists_after_second_witness :
  two_hop_solver (R := unit) (env_of kg_three) question
    [["A"]; ["B"]; ["C"]; ["D"]] None (start 7)
  = two_hop_solver (R := unit) (env_of kg_three) question
      [["A"]; ["B"]; ["X"]; ["Y"]; ["Z"]] None (start 7).
Proof.
  apply two_hop_solver_ignores_lists_after_second.
  - cbn. lia.
  - cbn. lia.
  - reflexivity.
Defined.

End Examples.

(** ** Further properties of the searches *)

Ltac yields_with P side := repeat yields_step P side.

Ltac run_yields Hy Hrun :=
  let H := fresh "H" in
  pose proof Hy as H; match type of Hrun with ?c ?st = _ => specialize (H st) end;
  rewrite Hrun in H; cbn [fst] in H.

Section ShortCircuit.

Context {V Score : Type} (E : env V Score).

Lemma yields_from_template_one_ent {R : Type} entity_ids rft (QR : R -> Prop) :
  yields (@from_template_one_ent V Score E R entity_ids rft)
         (fun outs => (List.length outs <= 1)%nat) QR.
Proof.
  unfold from_template_one_ent.
  yields_with (fun outs : list candidate => outs = [])
              ltac:(first [assumption | reflexivity | subst; cbn; lia]).
Qed.

Lemma yields_from_template_two_ent {R : Type} ent_combs rft (QR : R -> Prop) :
  yields (@from_template_two_ent V Score E R ent_combs rft)
         (fun outs => (List.length outs <= 1)%nat) QR.
Proof.
  unfold from_template_two_ent.
  yields_with (fun outs : list candidate => outs = [])
              ltac:(first [assumption | reflexivity | subst; cbn; lia]).
Qed.

(** X1: the searches that instantiate the relations of a template stop at
    the first hit: they return at most one candidate. *)
Theorem from_template_at_most_one {R : Type}
    (entity_ids ent_combs rels_from_template : list (list string))
    (st st' : qg_state) (outs : list candidate) :
  from_template_one_ent (R := R) E entity_ids rels_from_template st = (Normal outs, st')
  \/ from_template_two_ent (R := R) E ent_combs rels_from_template st = (Normal outs, st') ->
  (List.length outs <= 1)%nat.
Proof.
  intros [Hrun | Hrun].
  - run_yields (yields_from_template_one_ent (R := R) entity_ids rels_from_template
                  (fun _ => True)) Hrun.
    assumption.
  - run_yields (yields_from_template_two_ent (R := R) ent_combs rels_from_template
                  (fun _ => True)) Hrun.
    assumption.
Qed.

End ShortCircuit.

Section WinningGroup.

Context {V Score : Type} (E : env V Score).

Ltac empty_so_far := first [assumption | reflexivity | subst; cbn; lia].

Lemma yields_two_hop_two_ent {R : Type} question ent_combs (QR : R -> Prop) :
  yields (@two_hop_two_ent V Score E R question ent_combs)
         (fun outs => exists rel obj, Forall (joins rel obj) outs) QR.
Proof.
  unfold two_hop_two_ent.
  repeat first
    [ lazymatch goal with
      | |- yields (bind (for_ _ _ _) (fun c => return_ c)) _ _ =>
          eapply (yields_bind _ _ (Forall (joins _ _)));
          [ apply yields_for;
            [ intros ? ? ?; destruct (negb _); apply yields_ret;
              (apply Forall_app; split; [assumption |]);
              (constructor; [| constructor]);
              [left; eexists; reflexivity | right; reflexivity]
            | subst; constructor ]
          | intros ? ?; apply yields_return; eauto ]
      | |- yields (ret _) (fun outs => exists rel obj, _) _ =>
          apply yields_ret; subst; exists EmptyString, EmptyString; constructor
      end
    | yields_step (fun outs : list candidate => outs = []) empty_so_far ].
Qed.




(** X2: the two-entity two-hop search stops at the first intermediate object
    that is related to the first entity: every candidate of its result is
    built from one relation and one intermediate object, as the 3-tuple
    (relation, second relation, object) or the 2-tuple (relation, object). *)
Theorem two_hop_two_ent_single_join {R : Type}
    (question : string) (ent_combs : list (list string))
    (st st' : qg_state) (outs : list candidate) :
  two_hop_two_ent (R := R) E question ent_combs st = (Normal outs, st') ->
  exists rel obj, Forall (joins rel obj) outs.
Proof.
  intros Hrun.
  run_yields (yields_two_hop_two_ent (R := R) question ent_combs (fun _ => True)) Hrun.
  assumption.
Qed.



End WinningGroup.

(** ** The dispatcher: bounds, active template, edge inputs *)

Section DispatcherFacts.

Context {V Score : Type} (E : env V Score) {R : Type}.

(** X5: at templates 5 and 6 the dispatcher returns at most one candidate,
    also when template 6 falls back to the one-entity solver. *)
Theorem find_candidate_answers_maxmin_at_most_one
    (question : string) (entity_ids : list (list string))
    (rels_from_template : option (list (list string)))
    (st st' : qg_state) (outs : list candidate) :
  template_num st = 5 \/ template_num st = 6 ->
  @find_candidate_answers V Score E R question entity_ids rels_from_template st
    = (Normal outs, st') ->
  (List.length outs <= 1)%nat.
Proof.
  intros [Ht | Ht] Hrun.
  - rewrite find_candidate_answers_maxmin_one in Hrun by assumption.
    destruct entity_ids as [| entity_ids_0 rest]; [discriminate |].
    cbn [index0] in Hrun. rewrite bind_ret in Hrun.
    run_yields (arity_maxmin_one_entity_solver E (R := R) (fun _ => True) question
                  (Py.take (entities_to_leave E) entity_ids_0) rels_from_template) Hrun.
    tauto.
  - rewrite find_candidate_answers_maxmin_two in Hrun by assumption.
    unfold bind in Hrun.
    destruct (maxmin_two_entities_solver E question entity_ids rels_from_template st)
      as [[outs1 | r | e] st1] eqn:Hsolver; try discriminate.
    unfold or_maxmin_one in Hrun. destruct outs1 as [| o outs1]; cbn [Py.nonempty] in Hrun.
    + destruct entity_ids as [| entity_ids_0 rest]; [discriminate |].
      cbn [index0] in Hrun. rewrite bind_ret in Hrun.
      run_yields (arity_maxmin_one_entity_solver E (R := R) (fun _ => True) question
                    (Py.take (entities_to_leave E) entity_ids_0) None) Hrun.
      tauto.
    + injection Hrun as <- <-.
      run_yields (arity_maxmin_two_entities_solver E (R := R) question entity_ids
                    rels_from_template (fun _ => True)) Hsolver.
      tauto.
Qed.

(** X6: the dispatcher leaves the active template as it found it, except that
    it sets it to 7 from a template 0 to 3 and to 5 from template 6; this
    holds however the call ends. *)
Theorem find_candidate_answers_active_template
    (question : string) (entity_ids : list (list string))
    (rels_from_template : option (list (list string)))
    (st st' : qg_state) (o : outcome R (list candidate)) :
  @find_candidate_answers V Score E R question entity_ids rels_from_template st = (o, st') ->
  template_num st' = template_num st
  \/ (0 <= template_num st <= 3 /\ template_num st' = 7)
  \/ (template_num st = 6 /\ template_num st' = 5).
Proof.
  intros Hrun.
  assert (Hcases : (template_num st = 0 \/ template_num st = 1)
                   \/ (template_num st = 2 \/ template_num st = 3)
                   \/ template_num st = 4 \/ template_num st = 5 \/ template_num st = 6
                   \/ template_num st = 7
                   \/ (template_num st < 0 \/ 7 < template_num st)) by lia.
  destruct Hcases as [Ht | [Ht | [Ht | [Ht | [Ht | [Ht | Ht]]]]]].
  - rewrite find_candidate_answers_number in Hrun by assumption.
    unfold bind in Hrun.
    destruct (complex_question_with_number_solver E question entity_ids None st)
      as [[outs1 | r | e] st1] eqn:Hsolver;
      pose proof (ran_keeps _ _ _ _ (keeps_complex_question_with_number_solver E _ _ _) Hsolver)
        as Hkept;
      try (injection Hrun as <- <-; now left).
    unfold or_two_hop in Hrun. destruct outs1 as [| c outs1]; cbn [Py.nonempty] in Hrun.
    + apply ran_keeps in Hrun; [| apply keeps_two_hop_solver]. cbn in Hrun.
      right. left. split; [lia | exact Hrun].
    + injection Hrun as <- <-. now left.
  - rewrite find_candidate_answers_qualifier in Hrun by assumption.
    unfold bind in Hrun.
    destruct (complex_question_with_qualifier_solver E question entity_ids None st)
      as [[outs1 | r | e] st1] eqn:Hsolver;
      pose proof (ran_keeps _ _ _ _ (keeps_complex_question_with_qualifier_solver E _ _ _)
                    Hsolver) as Hkept;
      try (injection Hrun as <- <-; now left).
    unfold or_two_hop in Hrun. destruct outs1 as [| c outs1]; cbn [Py.nonempty] in Hrun.
    + apply ran_keeps in Hrun; [| apply keeps_two_hop_solver]. cbn in Hrun.
      right. left. split; [lia | exact Hrun].
    + injection Hrun as <- <-. now left.
  - rewrite find_candidate_answers_count in Hrun by assumption.
    left. exact (ran_keeps _ _ _ _ (keeps_questions_with_count_solver E _ _ _) Hrun).
  - rewrite find_candidate_answers_maxmin_one in Hrun by assumption.
    left. destruct entity_ids as [| entity_ids_0 rest].
    + now injection Hrun as <- <-.
    + cbn [index0] in Hrun. rewrite bind_ret in Hrun.
      exact (ran_keeps _ _ _ _ (keeps_maxmin_one_entity_solver E _ _ _) Hrun).
  - rewrite find_candidate_answers_maxmin_two in Hrun by assumption.
    unfold bind in Hrun.
    destruct (maxmin_two_entities_solver E question entity_ids rels_from_template st)
      as [[outs1 | r | e] st1] eqn:Hsolver;
      pose proof (ran_keeps _ _ _ _ (keeps_maxmin_two_entities_solver E _ _ _) Hsolver)
        as Hkept;
      try (injection Hrun as <- <-; now left).
    unfold or_maxmin_one in Hrun. destruct outs1 as [| c outs1]; cbn [Py.nonempty] in Hrun.
    + right. right. split; [assumption |].
      destruct entity_ids as [| entity_ids_0 rest].
      * now injection Hrun as <- <-.
      * cbn [index0] in Hrun. rewrite bind_ret in Hrun.
        exact (ran_keeps _ _ _ _ (keeps_maxmin_one_entity_solver E _ _ _) Hrun).
    + injection Hrun as <- <-. now left.
  - rewrite find_candidate_answers_two_hop in Hrun by assumption.
    left. exact (ran_keeps _ _ _ _ (keeps_two_hop_solver E _ _ _) Hrun).
  - rewrite find_candidate_answers_other in Hrun by assumption.
    injection Hrun as <- <-. now left.
Qed.

(** X7: with no entity list at all, templates 4 and 7 answer with no
    candidate, and templates 0, 1, 2, 3, 5 and 6 raise IndexError on
    [entity_ids[0]] (template 6 in its fallback to template 5). *)
Theorem find_candidate_answers_no_entity_lists
    (question : string) (rels_from_template : option (list (list string)))
    (st : qg_state) :
  (template_num st = 4 \/ template_num st = 7 ->
   fst (@find_candidate_answers V Score E R question [] rels_from_template st) = Normal []) /\
  ((0 <= template_num st <= 3) \/ template_num st = 5 \/ template_num st = 6 ->
   fst (@find_candidate_answers V Score E R question [] rels_from_template st)
     = Raised Py.IndexError).
Proof.
  split.
  - intros [Ht | Ht].
    + rewrite find_candidate_answers_count by assumption. reflexivity.
    + rewrite find_candidate_answers_two_hop by assumption. reflexivity.
  - intros [Ht | [Ht | Ht]].
    + assert (Hcases : (template_num st = 0 \/ template_num st = 1)
                       \/ (template_num st = 2 \/ template_num st = 3)) by lia.
      destruct Hcases as [Ht' | Ht'].
      * rewrite find_candidate_answers_number by assumption. reflexivity.
      * rewrite find_candidate_answers_qualifier by assumption. reflexivity.
    + rewrite find_candidate_answers_maxmin_one by assumption. reflexivity.
    + rewrite find_candidate_answers_maxmin_two by assumption.
      destruct rels_from_template as [[| rft_0 [| rft_1 rest]] |]; reflexivity.
Qed.

End DispatcherFacts.

(** ** An empty knowledge graph *)

Section Finishes.

Context {V Score : Type} (E : env V Score).

Lemma finishes_ret {R A : Type} (a : A) (Q : A -> Prop) : Q a -> finishes (@ret R A a) Q.
Proof. intros H st. now exists a, st. Qed.

Lemma finishes_bind {R A B : Type} (c : M R A) (k : A -> M R B)
    (P : A -> Prop) (Q : B -> Prop) :
  finishes c P -> (forall a, P a -> finishes (k a) Q) -> finishes (bind c k) Q.
Proof.
  intros Hc Hk st. destruct (Hc st) as [a [st1 [Hrun Ha]]].
  rewrite (bind_Normal _ _ _ _ _ Hrun). apply (Hk a Ha).
Qed.

Lemma finishes_bind_ret {R A B : Type} (a : A) (k : A -> M R B) (Q : B -> Prop) :
  finishes (k a) Q -> finishes (bind (ret a) k) Q.
Proof. intros H st. exact (H st). Qed.

Lemma finishes_weaken {R A : Type} (c : M R A) (Q Q' : A -> Prop) :
  finishes c Q -> (forall a, Q a -> Q' a) -> finishes c Q'.
Proof. intros Hc HQ st. destruct (Hc st) as [a [st1 [Hrun Ha]]]. eauto. Qed.

(** A loop whose body leaves the assigned variables as they are. *)
Lemma finishes_for_same {R A S : Type} (xs : list A) (s : S) (body : A -> S -> M R S) :
  (forall x, In x xs -> finishes (body x s) (eq s)) -> finishes (for_ xs s body) (eq s).
Proof.
  induction xs as [| x xs IH]; intros Hb; cbn [for_].
  - now apply finishes_ret.
  - eapply finishes_bind; [apply Hb; now left |].
    intros s' <-. apply IH. intros y Hy. apply Hb. now right.
Qed.

Lemma finishes_def {R R' : Type} (body : M R R) (Q : R -> Prop) :
  finishes body Q -> finishes (@def_ R R' body) Q.
Proof.
  intros Hb st. destruct (Hb st) as [a [st1 [Hrun Ha]]].
  exists a, st1. unfold def_. now rewrite Hrun.
Qed.

Lemma finishes_get {R : Type} : finishes (@get_template_num R) (fun _ => True).
Proof. intros st. now exists (template_num st), st. Qed.

Lemma finishes_call_rank_rels {R : Type} q rels :
  finishes (@call_rank_rels V Score E R q rels) (fun _ => True).
Proof. intros st. unfold call_rank_rels. eauto. Qed.

Lemma finishes_index0 {R A : Type} (l : list A) :
  (1 <= List.length l)%nat -> finishes (@index0 R A l) (fun _ => True).
Proof. destruct l; cbn; [lia |]. intros _ st. unfold ret. eauto. Qed.

Lemma finishes_index1 {R A : Type} (l : list A) :
  (2 <= List.length l)%nat -> finishes (@index1 R A l) (fun _ => True).
Proof. destruct l as [| ? [| ? ?]]; cbn; try lia. intros _ st. unfold ret. eauto. Qed.

(** The knowledge graph answers every call with the empty list. *)
Hypothesis empty_graph : forall c, wiki_parser E c = [].

Lemma finishes_call_wiki {R : Type} (c : kg_call) :
  finishes (@call_wiki V Score E R c) (fun objects => objects = []).
Proof. intros st. unfold call_wiki. rewrite empty_graph. eauto. Qed.

End Finishes.

(** Goals [finishes c (eq s)], for loop nests that find nothing. *)
Ltac finishes_step Hkg :=
  lazymatch goal with
  | |- finishes (bind (ret _) _) _ => apply finishes_bind_ret
  | |- finishes (bind (call_wiki _ _) _) _ =>
      eapply finishes_bind; [apply (finishes_call_wiki _ Hkg) | intros ? ->]
  | |- finishes (bind (call_rank_rels _ _ _) _) _ =>
      eapply finishes_bind; [apply finishes_call_rank_rels | intros ? _]
  | |- finishes (bind get_template_num _) _ =>
      eapply finishes_bind; [apply finishes_get | intros ? _]
  | |- finishes (bind (index0 _) _) _ =>
      eapply finishes_bind; [apply finishes_index0; cbn [List.length]; lia | intros ? _]
  | |- finishes (bind (index1 _) _) _ =>
      eapply finishes_bind; [apply finishes_index1; cbn [List.length]; lia | intros ? _]
  | |- finishes (bind (for_ _ ?s _) _) _ =>
      eapply (finishes_bind _ _ (eq s)); [apply finishes_for_same; intros ? ? | intros ? <-]
  | |- finishes (for_ _ ?s _) _ => apply finishes_for_same; intros ? ?
  | |- finishes (def_ _) _ => apply finishes_def
  | |- finishes (ret _) _ =>
      apply finishes_ret; rewrite ?app_nil_r; reflexivity
  | |- finishes (if ?b then _ else _) _ => destruct b
  | |- finishes (let _ := _ in _) _ => cbv zeta
  | |- finishes (match ?x with _ => _ end) _ => destruct x
  end.

Ltac finishes_empty Hkg :=
  repeat (cbn [for_ app Py.nonempty negb andb List.length Z.of_nat Z.ltb Z.compare
               Pos.of_succ_nat Pos.compare Pos.compare_cont];
          repeat match goal with
                 | H : forall comb, In comb ?xs -> _, Hin : In ?x ?xs |- _ =>
                     pose proof (H x Hin); clear Hin
                 end;
          finishes_step Hkg).

Section EmptyGraph.

Context {V Score : Type} (E : env V Score).
Hypothesis empty_graph : forall c, wiki_parser E c = [].

Lemma empty_find_relevant_subgraph_cqwn {R : Type} entities_list rels num :
  finishes (@find_relevant_subgraph_cqwn V Score E R entities_list rels num) (eq []).
Proof. unfold find_relevant_subgraph_cqwn. finishes_empty empty_graph. Qed.

Lemma empty_find_relevant_subgraph_cqwq {R : Type} ent_combs rels :
  (forall comb, In comb ent_combs -> (2 <= List.length comb)%nat) ->
  finishes (@find_relevant_subgraph_cqwq V Score E R ent_combs rels) (eq []).
Proof. intros Hcombs. unfold find_relevant_subgraph_cqwq. finishes_empty empty_graph. Qed.

Lemma empty_top_rels_forw {R : Type} question entity_ids_0 rest :
  finishes (@top_rels_forw V Score E R question (entity_ids_0 :: rest) None)
           (fun p => snd p <> None).
Proof.
  unfold top_rels_forw. cbn [index0]. apply finishes_bind_ret.
  eapply (finishes_bind _ _ (eq [])); [finishes_empty empty_graph | intros ? <-].
  cbv zeta. eapply finishes_bind; [apply finishes_call_rank_rels | intros scores _].
  apply finishes_ret. discriminate.
Qed.

Lemma empty_cqwn_with_retry {R : Type} entity_ids_0 rest top_rels ex_rels num :
  finishes (@cqwn_with_retry V Score E R (entity_ids_0 :: rest) top_rels (Some ex_rels) num)
           (eq []).
Proof.
  unfold cqwn_with_retry. cbn [index0 read_local]. apply finishes_bind_ret.
  eapply finishes_bind; [apply empty_find_relevant_subgraph_cqwn | intros ? <-].
  cbn [Py.nonempty]. do 2 apply finishes_bind_ret.
  apply empty_find_relevant_subgraph_cqwn.
Qed.

Lemma empty_complex_question_with_number_solver {R : Type} question entity_ids_0 rest :
  finishes (@complex_question_with_number_solver V Score E R question
              (entity_ids_0 :: rest) None) (eq []).
Proof.
  unfold complex_question_with_number_solver.
  eapply finishes_bind; [apply empty_top_rels_forw | intros [top_rels [ex_rels |]] Hex].
  2: { now cbn in Hex. }
  cbv zeta.
  destruct (Py.truthy (extract_year E (word_tokenize E question) question)).
  - eapply finishes_bind; [apply empty_cqwn_with_retry | intros ? <-].
    now apply finishes_ret.
  - apply finishes_bind_ret.
    destruct (Py.truthy _); [apply empty_cqwn_with_retry | now apply finishes_ret].
Qed.

Lemma empty_complex_question_with_qualifier_solver {R : Type} question entity_ids_0 rest :
  ((2 <= List.length (entity_ids_0 :: rest))%nat ->
   forall comb, In comb (make_entity_combs E (entity_ids_0 :: rest)) ->
                (2 <= List.length comb)%nat) ->
  finishes (@complex_question_with_qualifier_solver V Score E R question
              (entity_ids_0 :: rest) None) (eq []).
Proof.
  intros Hcombs. unfold complex_question_with_qualifier_solver.
  eapply finishes_bind; [apply empty_top_rels_forw | intros [top_rels ex_rels] _].
  destruct (1 <? _) eqn:Hlen; [| now apply finishes_ret].
  apply Z.ltb_lt in Hlen.
  cbv zeta. apply empty_find_relevant_subgraph_cqwq. apply Hcombs. lia.
Qed.

Lemma empty_questions_with_count_solver {R : Type} question entity_ids :
  finishes (@questions_with_count_solver V Score E R question entity_ids None) (eq []).
Proof.
  unfold questions_with_count_solver. cbv zeta.
  eapply (finishes_bind _ _ (fun _ => True)).
  - eapply (finishes_bind _ _ (eq [])); [finishes_empty empty_graph | intros ? <-].
    eapply finishes_bind; [apply finishes_call_rank_rels | intros scores _].
    now apply finishes_ret.
  - intros [top_rels directions] _.
    apply finishes_for_same. intros entity_id _.
    apply finishes_for_same. intros entity _.
    eapply (finishes_bind _ _ (eq ([], []))).
    + apply finishes_for_same. intros rel _.
      apply finishes_for_same. intros direction _.
      eapply finishes_bind; [apply (finishes_call_wiki _ empty_graph) | intros ? ->].
      cbn [app Py.nonempty]. now apply finishes_ret.
    + intros ? <-. now apply finishes_ret.
Qed.

Lemma empty_find_relevant_subgraph_maxmin_one {R : Type} entities_list rels :
  finishes (@find_relevant_subgraph_maxmin_one V Score E R entities_list rels) (eq []).
Proof. unfold find_relevant_subgraph_maxmin_one. finishes_empty empty_graph. Qed.

Lemma empty_find_relevant_subgraph_maxmin_two {R : Type} ent_combs rels_1 rels_2 :
  (forall comb, In comb ent_combs -> (2 <= List.length comb)%nat) ->
  finishes (@find_relevant_subgraph_maxmin_two V Score E R ent_combs rels_1 rels_2) (eq []).
Proof.
  intros Hcombs. unfold find_relevant_subgraph_maxmin_two. finishes_empty empty_graph.
Qed.

Lemma empty_maxmin_one_entity_solver {R : Type} question entities_list :
  finishes (@maxmin_one_entity_solver V Score E R question entities_list None) (eq []).
Proof.
  unfold maxmin_one_entity_solver, maxmin_one_top_rels.
  eapply (finishes_bind _ _ (fun _ => True)).
  - eapply finishes_bind; [apply finishes_call_rank_rels | intros scores _].
    now apply finishes_ret.
  - intros top_rels _. cbv zeta.
    eapply finishes_bind; [apply empty_find_relevant_subgraph_maxmin_one | intros ? <-].
    destruct (asc_desc E question); now apply finishes_ret.
Qed.

Lemma empty_maxmin_two_entities_solver {R : Type} question entity_ids :
  ((2 <= List.length entity_ids)%nat ->
   forall comb, In comb (make_entity_combs E entity_ids) -> (2 <= List.length comb)%nat) ->
  finishes (@maxmin_two_entities_solver V Score E R question entity_ids None) (eq []).
Proof.
  intros Hcombs. unfold maxmin_two_entities_solver, maxmin_two_top_rels.
  eapply (finishes_bind _ _ (fun _ => True)).
  - eapply (finishes_bind _ _ (eq [])); [finishes_empty empty_graph | intros ? <-].
    cbv zeta.
    eapply finishes_bind; [apply finishes_call_rank_rels | intros scores_1 _].
    eapply finishes_bind; [apply finishes_call_rank_rels | intros scores_2 _].
    now apply finishes_ret.
  - intros [top_rels_1 top_rels_2] _.
    eapply (finishes_bind _ _ (eq [])).
    + destruct (1 <? _) eqn:Hlen; [| now apply finishes_ret].
      apply Z.ltb_lt in Hlen. cbv zeta.
      eapply finishes_bind;
        [apply empty_find_relevant_subgraph_maxmin_two; apply Hcombs; lia | intros ? <-].
      destruct (asc_desc E question); now apply finishes_ret.
    + intros ? <-. now apply finishes_ret.
Qed.

Lemma empty_two_hop_two_ent {R : Type} question ent_combs :
  (forall comb, In comb ent_combs -> (2 <= List.length comb)%nat) ->
  finishes (@two_hop_two_ent V Score E R question ent_combs) (eq []).
Proof. intros Hcombs. unfold two_hop_two_ent. finishes_empty empty_graph. Qed.

Lemma empty_two_hop_cqwn {R : Type} entities_list rels num :
  finishes (@two_hop_cqwn V Score E R entities_list rels num) (eq []).
Proof. unfold two_hop_cqwn. finishes_empty empty_graph. Qed.

Lemma empty_two_hop_one_ent {R : Type} question entities_list :
  finishes (@two_hop_one_ent V Score E R question entities_list) (eq []).
Proof.
  unfold two_hop_one_ent. apply finishes_def. cbv zeta.
  eapply (finishes_bind _ _ (eq [])); [finishes_empty empty_graph | intros ? <-].
  eapply finishes_bind; [apply finishes_call_rank_rels | intros scores _].
  destruct (Py.truthy (extract_year E (word_tokenize E question) question)).
  - eapply finishes_bind; [apply empty_two_hop_cqwn | intros ? <-].
    now apply finishes_ret.
  - destruct (Py.truthy _).
    + eapply finishes_bind; [apply empty_two_hop_cqwn | intros ? <-].
      now apply finishes_ret.
    + eapply (finishes_bind _ _ (eq [])); [finishes_empty empty_graph | intros ? <-].
      eapply finishes_bind; [apply finishes_call_rank_rels | intros scores_2 _].
      eapply (finishes_bind _ _ (eq [])); [finishes_empty empty_graph | intros ? <-].
      finishes_empty empty_graph.
Qed.

(** The combinations of two lists or more have two entities or more. *)
Hypothesis pairs :
  forall entity_ids comb,
    (2 <= List.length entity_ids)%nat -> In comb (make_entity_combs E entity_ids) ->
    (2 <= List.length comb)%nat.

Lemma empty_two_hop_solver {R : Type} question entity_ids :
  finishes (@two_hop_solver V Score E R question entity_ids None) (eq []).
Proof.
  destruct entity_ids as [| l1 [| l2 rest]].
  - intros st. exists [], st. split; reflexivity.
  - unfold two_hop_solver. cbn [List.length Z.of_nat Pos.of_succ_nat Z.eqb Pos.eqb index0].
    eapply finishes_bind;
      [apply finishes_bind_ret; apply empty_two_hop_one_ent | intros ? <-].
    now apply finishes_ret.
  - intros st. rewrite two_hop_solver_two_or_more. revert st.
    change (finishes
              (candidate_outputs <-
                 two_hop_two_ent (R := R) E question (make_entity_combs E [l1; l2]) ;;
               (if negb (Py.nonempty candidate_outputs)
                then match rest with
                     | [l3] => two_hop_two_ent E question (make_entity_combs E [l1; l3])
                     | _ => two_hop_one_ent E question l2
                     end
                else ret candidate_outputs)) (eq [])).
    eapply finishes_bind.
    + apply empty_two_hop_two_ent. intros comb. apply pairs. cbn. lia.
    + intros ? <-. cbn [negb Py.nonempty].
      destruct rest as [| l3 [| l4 rest]]; try apply empty_two_hop_one_ent.
      apply empty_two_hop_two_ent. intros comb. apply pairs. cbn. lia.
Qed.

(** X8: on a knowledge graph that answers every call with the empty list,
    the dispatcher returns no candidate and raises nothing, whatever the
    template, the ranker and the question are, when it is called without
    template relations on one entity list or more. *)
Theorem find_candidate_answers_empty_graph {R : Type}
    (question : string) (entity_ids : list (list string)) (st : qg_state) :
  entity_ids <> [] ->
  exists st',
    @find_candidate_answers V Score E R question entity_ids None st = (Normal [], st').
Proof.
  intros Hne. destruct entity_ids as [| entity_ids_0 rest]; [congruence |].
  assert (Hfin : finishes (@find_candidate_answers V Score E R question
                              (entity_ids_0 :: rest) None) (eq [])).
  { intros s.
    assert (Hcases : (template_num s = 0 \/ template_num s = 1)
                     \/ (template_num s = 2 \/ template_num s = 3)
                     \/ template_num s = 4 \/ template_num s = 5 \/ template_num s = 6
                     \/ template_num s = 7
                     \/ (template_num s < 0 \/ 7 < template_num s)) by lia.
    destruct Hcases as [Ht | [Ht | [Ht | [Ht | [Ht | [Ht | Ht]]]]]].
    - rewrite find_candidate_answers_number by assumption.
      destruct (empty_complex_question_with_number_solver (R := R) question entity_ids_0
                  rest s) as [outs [s1 [Hrun <-]]].
      rewrite (bind_Normal _ _ _ _ _ Hrun). apply empty_two_hop_solver.
    - rewrite find_candidate_answers_qualifier by assumption.
      destruct (empty_complex_question_with_qualifier_solver (R := R) question entity_ids_0
                  rest (fun Hlen comb => pairs _ comb Hlen) s) as [outs [s1 [Hrun <-]]].
      rewrite (bind_Normal _ _ _ _ _ Hrun). apply empty_two_hop_solver.
    - rewrite find_candidate_answers_count by assumption.
      apply empty_questions_with_count_solver.
    - rewrite find_candidate_answers_maxmin_one by assumption.
      cbn [index0]. rewrite bind_ret. apply empty_maxmin_one_entity_solver.
    - rewrite find_candidate_answers_maxmin_two by assumption.
      destruct (empty_maxmin_two_entities_solver (R := R) question (entity_ids_0 :: rest)
                  (fun Hlen comb => pairs _ comb Hlen) s) as [outs [s1 [Hrun <-]]].
      rewrite (bind_Normal _ _ _ _ _ Hrun). unfold or_maxmin_one. cbn [Py.nonempty index0].
      rewrite bind_ret. apply empty_maxmin_one_entity_solver.
    - rewrite find_candidate_answers_two_hop by assumption. apply empty_two_hop_solver.
    - rewrite find_candidate_answers_other by assumption. now exists [], s. }
  destruct (Hfin st) as [outs [st' [Hrun <-]]]. now exists st'.
Qed.

End EmptyGraph.

(** ** An unbound local, and the linking of mentions *)

Section NumberSolverEdge.

Context {V Score : Type} (E : env V Score) {R : Type}.

(** X9: the numeric solver called with the relations of a template never
    binds [ex_rels]; when the question has a year or a number and the search
    over the template relations finds nothing, the retry reads [ex_rels] and
    raises UnboundLocalError. *)
Theorem complex_question_with_number_solver_unbound_ex_rels
    (question : string) (entity_ids_0 : list string) (rest : list (list string))
    (rft_0 : list string) (rft_rest : list (list string)) (num : string)
    (st st1 : qg_state) :
  (Py.truthy (extract_year E (word_tokenize E question) question) = true
   /\ num = extract_year E (word_tokenize E question) question)
  \/ (Py.truthy (extract_year E (word_tokenize E question) question) = false
      /\ Py.truthy (extract_number E (word_tokenize E question) question) = true
      /\ num = extract_number E (word_tokenize E question) question) ->
  find_relevant_subgraph_cqwn (R := R) E (Py.take (entities_to_leave E) entity_ids_0)
    (Py.take (rels_to_leave E) (init rft_0)) num st = (Normal [], st1) ->
  @complex_question_with_number_solver V Score E R question (entity_ids_0 :: rest)
    (Some (rft_0 :: rft_rest)) st = (Raised Py.UnboundLocalError, st1).
Proof.
  intros Hnum Hfind.
  assert (Hretry : cqwn_with_retry (R := R) E (entity_ids_0 :: rest) (init rft_0) None num st
                   = (Raised Py.UnboundLocalError, st1)).
  { unfold cqwn_with_retry. cbn [index0]. rewrite bind_ret.
    rewrite (bind_Normal _ _ _ _ _ Hfind). reflexivity. }
  unfold complex_question_with_number_solver.
  rewrite (bind_Normal _ _ _ _ _ (top_rels_forw_of_template E question _ rft_0 rft_rest st)).
  cbv zeta.
  destruct Hnum as [[Hyear ->] | [Hyear [Hnumber ->]]]; rewrite Hyear.
  - now rewrite (bind_Raised _ _ _ _ _ Hretry).
  - rewrite bind_ret, Hnumber. exact Hretry.
Qed.

End NumberSolverEdge.

Section Linking.

Context {V Score : Type} (E : env V Score).

Lemma get_entity_ids_from {R : Type} (entities : list string) :
  forall (acc : list (list string)) (st : qg_state),
    for_ (R := R) entities acc (fun entity entity_ids =>
      ' (entity_id, confidences) <- call_linker E entity ;;
      ret (entity_ids ++ [Py.take 15 entity_id])) st
    = (Normal (acc ++ map (fun entity => Py.take 15 (fst (linker E entity))) entities),
       QgState (template_num st) (calls st ++ map EvLink entities)).
Proof.
  induction entities as [| entity entities IH]; intros acc st; cbn [for_ map].
  - rewrite !app_nil_r. now destruct st.
  - unfold bind at 1. unfold bind at 1. unfold call_linker at 1.
    destruct (linker E entity) as [entity_id confidences] eqn:Hlink.
    cbn [ret fst]. rewrite IH. cbn [record_call template_num calls].
    now rewrite <- !app_assoc.
Qed.

(** X10: [get_entity_ids] never raises; it calls the linker once per mention,
    in order, and returns one list per mention, the leading 15 ids the
    linker gave for it at most. *)
Theorem get_entity_ids_links_each_mention {R : Type}
    (entities : list string) (st : qg_state) :
  get_entity_ids (R := R) E entities st
    = (Normal (map (fun entity => Py.take 15 (fst (linker E entity))) entities),
       QgState (template_num st) (calls st ++ map EvLink entities))
  /\ Forall (fun entity_id : list string => (List.length entity_id <= 15)%nat)
            (map (fun entity => Py.take 15 (fst (linker E entity))) entities).
Proof.
  split.
  - unfold get_entity_ids. now rewrite get_entity_ids_from.
  - apply Forall_forall. intros l Hl. apply in_map_iff in Hl as [entity [<- _]].
    apply firstn_le_length.
Qed.

End Linking.

(** ** The calls the searches make *)

Section Emits.

Context {V Score : Type} (E : env V Score).
Variable P : event -> Prop.

Lemma emits_nothing {R A : Type} (c : M R A) :
  (forall st, snd (c st) = st) -> emits P c.
Proof. intros H st. exists []. rewrite H, app_nil_r. split; [reflexivity | constructor]. Qed.

Lemma emits_ret {R A : Type} (a : A) : emits P (@ret R A a).
Proof. now apply emits_nothing. Qed.

Lemma emits_return {R A : Type} (r : R) : emits P (@return_ R A r).
Proof. now apply emits_nothing. Qed.

Lemma emits_raise {R A : Type} (e : Py.pyexc) : emits P (@raise R A e).
Proof. now apply emits_nothing. Qed.

Lemma emits_get {R : Type} : emits P (@get_template_num R).
Proof. now apply emits_nothing. Qed.

Lemma emits_index0 {R A : Type} (l : list A) : emits P (@index0 R A l).
Proof. apply emits_nothing. now destruct l. Qed.

Lemma emits_index1 {R A : Type} (l : list A) : emits P (@index1 R A l).
Proof. apply emits_nothing. now destruct l as [| ? [| ? ?]]. Qed.

Lemma emits_index_last {R A : Type} (l : list A) : emits P (@index_last R A l).
Proof. apply emits_nothing. unfold index_last. now destruct (rev l). Qed.

Lemma emits_bind {R A B : Type} (c : M R A) (k : A -> M R B) :
  emits P c -> (forall a, emits P (k a)) -> emits P (bind c k).
Proof.
  intros Hc Hk st. unfold bind. destruct (Hc st) as [evs [Hcalls Hevs]].
  destruct (c st) as [[a | r | e] st1]; cbn [snd] in *; eauto.
  destruct (Hk a st1) as [evs' [Hcalls' Hevs']].
  exists (evs ++ evs'). rewrite Hcalls', Hcalls, app_assoc.
  split; [reflexivity | now apply Forall_app].
Qed.

Lemma emits_for {R A S : Type} (xs : list A) (body : A -> S -> M R S) :
  (forall x s, In x xs -> emits P (body x s)) -> forall s, emits P (for_ xs s body).
Proof.
  induction xs as [| x xs IH]; intros Hb s; cbn [for_].
  - apply emits_ret.
  - apply emits_bind; [apply Hb; now left |].
    intros s'. apply IH. intros y s'' Hy. apply Hb. now right.
Qed.

Lemma emits_def {R R' : Type} (body : M R R) : emits P body -> emits P (@def_ R R' body).
Proof.
  intros Hb st. destruct (Hb st) as [evs [Hcalls Hevs]]. exists evs.
  unfold def_. destruct (body st) as [[a | r | e] st1]; cbn [snd] in *; auto.
Qed.

Lemma emits_call_wiki {R : Type} (c : kg_call) :
  P (EvKg c) -> emits P (@call_wiki V Score E R c).
Proof. intros H st. exists [EvKg c]. split; [reflexivity | now constructor]. Qed.

Lemma emits_call_triplets {R : Type} (c : kg_call) :
  P (EvKg c) -> emits P (@call_triplets V Score E R c).
Proof. intros H st. exists [EvKg c]. split; [reflexivity | now constructor]. Qed.

Lemma emits_call_rank_rels {R : Type} (q : string) (rels : list string) :
  P (EvRank q rels) -> emits P (@call_rank_rels V Score E R q rels).
Proof. intros H st. exists [EvRank q rels]. split; [reflexivity | now constructor]. Qed.

End Emits.

(** Goals [emits P c], by the structure of [c]; [side] proves [P] of the
    calls. *)
Ltac emits_step side :=
  lazymatch goal with
  | |- emits _ (bind _ _) => apply emits_bind; [| intros ?]
  | |- emits _ (for_ _ _ _) => apply emits_for; intros ? ? ?
  | |- emits _ (def_ _) => apply emits_def
  | |- emits _ (ret _) => apply emits_ret
  | |- emits _ (return_ _) => apply emits_return
  | |- emits _ (raise _) => apply emits_raise
  | |- emits _ get_template_num => apply emits_get
  | |- emits _ (index0 _) => apply emits_index0
  | |- emits _ (index1 _) => apply emits_index1
  | |- emits _ (index_last _) => apply emits_index_last
  | |- emits _ (call_wiki _ _) => apply emits_call_wiki; side
  | |- emits _ (call_triplets _ _) => apply emits_call_triplets; side
  | |- emits _ (call_rank_rels _ _ _) => apply emits_call_rank_rels; side
  | |- emits _ (if ?b then _ else _) => destruct b
  | |- emits _ (match ?x with _ => _ end) => destruct x
  | |- emits _ (let _ := _ in _) => cbv zeta
  end.

Section SearchCalls.

Context {V Score : Type} (E : env V Score) {R : Type}.

Lemma emits_questions_with_count_solver question entity_ids rft :
  emits (count_call E question entity_ids)
        (@questions_with_count_solver V Score E R question entity_ids rft).
Proof.
  unfold questions_with_count_solver.
  repeat emits_step
    ltac:(cbn; repeat split;
          try (apply in_flat_map; eexists; split; eassumption)).
Qed.

(** X11: the count solver asks the knowledge graph about no other entity than
    the leading [entities_to_leave] of each list, over direct edges only; it
    calls the ranker with the question and never calls the linker. *)
Theorem questions_with_count_solver_calls
    (question : string) (entity_ids : list (list string))
    (rels_from_template : option (list (list string))) (st : qg_state) :
  exists evs,
    calls (snd (@questions_with_count_solver V Score E R question entity_ids
                  rels_from_template st)) = calls st ++ evs
    /\ Forall (count_call E question entity_ids) evs.
Proof. apply emits_questions_with_count_solver. Qed.

Lemma emits_find_relevant_subgraph_cqwn entities_list rels num :
  emits (about_rels rels) (@find_relevant_subgraph_cqwn V Score E R entities_list rels num).
Proof.
  unfold find_relevant_subgraph_cqwn.
  repeat emits_step ltac:(cbn; first [assumption | exact I]).
Qed.

Lemma emits_find_relevant_subgraph_cqwq ent_combs rels :
  emits (about_rels rels) (@find_relevant_subgraph_cqwq V Score E R ent_combs rels).
Proof.
  unfold find_relevant_subgraph_cqwq.
  repeat emits_step ltac:(cbn; first [assumption | exact I]).
Qed.

(** X12: the numeric and the qualifier searches ask the knowledge graph about
    no relation outside the list they are given, and call neither the
    ranker nor the linker. *)
Theorem qualifier_searches_stay_in_rels
    (rels : list string) (st : qg_state) :
  (forall (entities_list : list string) (num : string),
     exists evs,
       calls (snd (@find_relevant_subgraph_cqwn V Score E R entities_list rels num st))
         = calls st ++ evs
       /\ Forall (about_rels rels) evs) /\
  (forall (ent_combs : list (list string)),
     exists evs,
       calls (snd (@find_relevant_subgraph_cqwq V Score E R ent_combs rels st))
         = calls st ++ evs
       /\ Forall (about_rels rels) evs).
Proof.
  split.
  - intros entities_list num. apply emits_find_relevant_subgraph_cqwn.
  - intros ent_combs. apply emits_find_relevant_subgraph_cqwq.
Qed.

End SearchCalls.

(** ** The two passes of the one-entity two-hop search *)

Section TwoPasses.

Context {V Score : Type} (E : env V Score).

Ltac beyond :=
  first
    [ assumption
    | constructor
    | apply Forall_app; split; [assumption |];
      constructor; [| constructor];
      first [ left; do 2 eexists; split; [reflexivity |]; now apply String.eqb_neq
            | right; do 3 eexists; split; [reflexivity |];
              repeat split; now apply String.eqb_neq ] ].

Ltac passes_step :=
  first
    [ lazymatch goal with
      | |- yields (if negb (String.eqb ?a ?b) && _ then _ else _) _ _ =>
          destruct (String.eqb a b) eqn:?; cbn [negb andb]
      | |- yields (if negb (String.eqb ?a ?b) then _ else _) _ _ =>
          destruct (String.eqb a b) eqn:?; cbn [negb]
      end
    | yields_step (Forall beyond_type) beyond ].

Lemma yields_two_hop_one_ent {R : Type} question entities_list (QR : R -> Prop) :
  Py.truthy (extract_year E (word_tokenize E question) question) = false ->
  Py.truthy (extract_number E (word_tokenize E question) question) = false ->
  yields (@two_hop_one_ent V Score E R question entities_list) (Forall beyond_type) QR.
Proof.
  intros Hyear Hnumber. unfold two_hop_one_ent. apply yields_def. cbv zeta.
  eapply (yields_bind _ _ (fun _ => True));
    [yields_with (fun _ : list string => True) ltac:(exact I) | intros ex_rels _].
  eapply yields_bind; [apply yields_call_rank_rels | intros scores _].
  rewrite Hyear. rewrite Hnumber.
  eapply (yields_bind _ _ (fun _ => True));
    [yields_with (fun _ : list string => True) ltac:(exact I) | intros ex_rels_2 _].
  eapply yields_bind; [apply yields_call_rank_rels | intros scores_2 _].
  repeat passes_step.
Qed.

(** X13: on a question without a year and without a number, the one-entity
    two-hop search never proposes the type relation P31, neither as the
    relation of a 2-tuple nor as a relation of a 3-tuple, and the two
    relations of a 3-tuple differ. *)
Theorem two_hop_one_ent_beyond_type {R : Type}
    (question : string) (entities_list : list string)
    (st st' : qg_state) (outs : list candidate) :
  Py.truthy (extract_year E (word_tokenize E question) question) = false ->
  Py.truthy (extract_number E (word_tokenize E question) question) = false ->
  two_hop_one_ent (R := R) E question entities_list st = (Normal outs, st') ->
  Forall beyond_type outs.
Proof.
  intros Hyear Hnumber Hrun.
  run_yields (yields_two_hop_one_ent (R := R) question entities_list (fun _ => True)
                Hyear Hnumber) Hrun.
  assumption.
Qed.

End TwoPasses.

(** ** Sanitizing the question, loading the relation files *)

Section Strings.

Local Open Scope string_scope.

Lemma occurs_append (c : ascii) (a b : string) :
  occurs c (a ++ b) <-> occurs c a \/ occurs c b.
Proof.
  induction a as [| d a IH]; cbn [append occurs]; [tauto |]. rewrite IH. tauto.
Qed.

Lemma length_append (a b : string) :
  String.length (a ++ b) = (String.length a + String.length b)%nat.
Proof. induction a as [| d a IH]; cbn; [reflexivity | now rewrite IH]. Qed.

Lemma prefix_length (a s : string) :
  String.prefix a s = true -> (String.length a <= String.length s)%nat.
Proof.
  revert s. induction a as [| d a IH]; intros s H; [cbn; lia |].
  destruct s as [| e s]; cbn in H; [discriminate |].
  destruct (ascii_dec d e); [| discriminate]. apply IH in H. cbn. lia.
Qed.

(** A replacement brings in no character that is in neither the text nor
    the new string. *)
Lemma occurs_replace_from (c : ascii) (old new s : string) :
  forall skip, occurs c (replace_from old new skip s) -> occurs c s \/ occurs c new.
Proof.
  induction s as [| d s IH]; intros skip H; cbn [replace_from] in H; [tauto |].
  destruct skip as [| skip].
  - destruct (String.prefix old (String d s)).
    + apply occurs_append in H as [H | H]; [now right |].
      apply IH in H. cbn [occurs]. tauto.
    + cbn [occurs] in *. destruct H as [H | H]; [tauto |]. apply IH in H. tauto.
  - apply IH in H. cbn [occurs]. tauto.
Qed.

(** Replacing the one-character string [c] removes the character. *)
Lemma replace_char_removes (c : ascii) (new s : string) :
  ~ occurs c new -> ~ occurs c (replace (String c EmptyString) new s).
Proof.
  intros Hnew. unfold replace.
  induction s as [| d s IH]; cbn [replace_from String.prefix]; [tauto |].
  destruct (ascii_dec c d) as [<- | Hne].
  - destruct s; cbn [String.prefix String.length Nat.sub];
      rewrite occurs_append; tauto.
  - cbn [occurs]. intros [H | H]; [congruence | tauto].
Qed.

Lemma replace_keeps_out (c : ascii) (old new s : string) :
  ~ occurs c new -> ~ occurs c s -> ~ occurs c (replace old new s).
Proof. intros Hnew Hs H. apply occurs_replace_from in H. tauto. Qed.

(** X14: the sanitized question has no brace, no parenthesis and no double
    quote. *)
Theorem sanitize_removes_brackets_and_quotes (question : string) :
  Forall (fun c : ascii => ~ occurs c (sanitize question))
         [ascii_of_nat 123; ascii_of_nat 125; ascii_of_nat 40; ascii_of_nat 41; Py.dquote].
Proof.
  unfold sanitize, replace_tokens. cbn [fold_left fst snd].
  repeat (apply Forall_cons; [| try apply Forall_nil]);
    repeat first
      [ apply replace_char_removes; cbn; intuition discriminate
      | apply replace_keeps_out; [cbn; intuition discriminate |] ].
Qed.

Lemma replace_from_length (old new s : string) :
  (String.length new <= String.length old)%nat ->
  forall skip,
    (String.length (replace_from old new skip s) + Nat.min skip (String.length s)
     <= String.length s)%nat.
Proof.
  intros Hnew. induction s as [| d s IH]; intros skip; cbn [replace_from String.length].
  - lia.
  - destruct skip as [| skip].
    + destruct (String.prefix old (String d s)) eqn:Hprefix.
      * apply prefix_length in Hprefix. cbn [String.length] in Hprefix.
        rewrite length_append. specialize (IH (String.length old - 1)%nat). lia.
      * cbn [String.length]. specialize (IH 0%nat). lia.
    + specialize (IH skip). lia.
Qed.

Lemma replace_length (old new s : string) :
  (String.length new <= String.length old)%nat ->
  (String.length (replace old new s) <= String.length s)%nat.
Proof.
  intros Hnew. pose proof (replace_from_length old new s Hnew 0%nat) as H.
  unfold replace. lia.
Qed.

(** X15: sanitizing never makes the question longer. *)
Theorem sanitize_length (question : string) :
  (String.length (sanitize question) <= String.length question)%nat.
Proof.
  unfold sanitize, replace_tokens. cbn [fold_left fst snd].
  repeat (etransitivity; [apply replace_length; cbn; lia |]).
  reflexivity.
Qed.

(** X16: an entry of a relation list is the text of its line before the first
    tab: it has no tab, and the line is the entry alone (no tab in the line,
    the entry then keeps the end of the line) or the entry, a tab and the
    rest. *)
Theorem first_field_of_line (line : string) :
  ~ occurs tab (first_field line)
  /\ (first_field line = line
      \/ exists rest, line = (first_field line ++ String tab rest)%string).
Proof.
  induction line as [| c line [IHno IHsplit]]; cbn [first_field].
  - split; [tauto | now left].
  - destruct (Ascii.eqb c tab) eqn:Hc.
    + apply Ascii.eqb_eq in Hc as ->. split; [tauto |]. right. now exists line.
    + apply Ascii.eqb_neq in Hc. split.
      * cbn [occurs]. tauto.
      * destruct IHsplit as [-> | [rest Hrest]]; [now left |].
        right. exists rest. cbn [append]. now rewrite <- Hrest.
Qed.

End Strings.

(** ** One question, a batch *)

Section CallFacts.

Context {V Score : Type} (E : env V Score).
Variable template_matcher : string -> list string * option (list (list string)) * string.
Variable py_int : string -> option Z.
Variable py_isdigit : string -> bool.

Lemma bind_int {R B : Type} (s : string) (k : Z -> M R B) st :
  bind (int_ py_int s) k st
  = match py_int s with
    | Some n => k n st
    | None => (Raised Py.ValueError, st)
    end.
Proof. unfold int_. now destruct (py_int s). Qed.

(** X17: the answer to a question does not depend on the template that the
    previous question left active: [__call__] sets the active template
    before anything reads it, so two runs from states that differ in the
    active template only end alike and make the same calls. *)
Theorem call_question_forgets_active_template {R : Type}
    (question template_type : string) (entities_from_ner : list string)
    (t0 : Z) (st : qg_state) :
  fst (call_question (R := R) E template_matcher py_int py_isdigit question template_type
         entities_from_ner (set_template_num t0 st))
  = fst (call_question (R := R) E template_matcher py_int py_isdigit question template_type
           entities_from_ner st)
  /\ calls (snd (call_question (R := R) E template_matcher py_int py_isdigit question
                   template_type entities_from_ner (set_template_num t0 st)))
     = calls (snd (call_question (R := R) E template_matcher py_int py_isdigit question
                     template_type entities_from_ner st)).
Proof.
  unfold call_question. rewrite !bind_int.
  destruct (py_int template_type) as [t |]; [| split; reflexivity].
  rewrite !bind_put. split; reflexivity.
Qed.

(** X18: a question for which the template matcher finds no entity and that
    has no recognized entity gets the empty list without a call to the
    linker, the knowledge graph or the ranker. *)
Theorem call_question_without_entities {R : Type}
    (question template_type : string) (t : Z) (st : qg_state) :
  py_int template_type = Some t ->
  fst (fst (template_matcher (sanitize question))) = [] ->
  (py_isdigit (snd (template_matcher (sanitize question))) = true ->
   py_int (snd (template_matcher (sanitize question))) <> None) ->
  fst (call_question (R := R) E template_matcher py_int py_isdigit question template_type
         [] st) = Normal []
  /\ calls (snd (call_question (R := R) E template_matcher py_int py_isdigit question
                   template_type [] st)) = calls st.
Proof.
  intros Hint Hnone Hdigit. unfold call_question.
  rewrite bind_int, Hint, bind_put.
  destruct (template_matcher (sanitize question))
    as [[entities_from_template rels_from_template] query_type_template].
  cbn [fst snd] in Hnone, Hdigit. subst entities_from_template.
  destruct (py_isdigit query_type_template).
  - rewrite bind_assoc, bind_int.
    destruct (py_int query_type_template) as [t' |]; [| now elim Hdigit].
    split; reflexivity.
  - split; reflexivity.
Qed.

Lemma zip3_length {A B C : Type} (xs : list A) (ys : list B) (zs : list C) :
  List.length (zip3 xs ys zs)
  = Nat.min (List.length xs) (Nat.min (List.length ys) (List.length zs)).
Proof.
  revert ys zs. induction xs as [| x xs IH]; intros [| y ys] [| z zs]; cbn; try lia.
  rewrite IH. lia.
Qed.

Lemma collect_length {R A B : Type} (body : A -> list B -> M R (list B)) (xs : list A) :
  (forall x acc st r st', body x acc st = (Normal r, st') ->
                          List.length r = S (List.length acc)) ->
  forall (acc : list B) st r st',
    for_ xs acc body st = (Normal r, st') ->
    List.length r = (List.length acc + List.length xs)%nat.
Proof.
  intros Hbody.
  induction xs as [| x xs IH]; intros acc st r st' Hrun; cbn [for_] in Hrun.
  - injection Hrun as <- _. cbn. lia.
  - unfold bind at 1 in Hrun.
    destruct (body x acc st) as [[acc1 | ? | ?] st1] eqn:Hx; try discriminate.
    apply Hbody in Hx. apply IH in Hrun. cbn [List.length]. lia.
Qed.

(** X19: when no question of the batch raises, [__call__] builds one list of
    candidates per question, as many as the shortest of its three batches
    has items. *)
Theorem call_candidates_one_per_question {R : Type}
    (question_batch template_type_batch : list string)
    (entities_from_ner_batch : list (list string))
    (st st' : qg_state) (candidate_outputs_batch : list (list candidate)) :
  call_candidates (R := R) E template_matcher py_int py_isdigit question_batch
    template_type_batch entities_from_ner_batch st = (Normal candidate_outputs_batch, st') ->
  List.length candidate_outputs_batch
  = Nat.min (List.length question_batch)
            (Nat.min (List.length template_type_batch) (List.length entities_from_ner_batch)).
Proof.
  intros Hrun. unfold call_candidates in Hrun.
  rewrite <- zip3_length.
  apply collect_length in Hrun; [exact Hrun |].
  intros [[question template_type] entities_from_ner] acc s r s' Hbody.
  unfold bind at 1 in Hbody.
  destruct (call_question E template_matcher py_int py_isdigit question template_type
              entities_from_ner s) as [[outs | ? | ?] s1]; try discriminate.
  injection Hbody as <- _. rewrite length_app. cbn. lia.
Qed.

End CallFacts.

(** ** The extremum of the max/min solvers *)

Section Extremum.

Context {V Score : Type} (E : env V Score) {R : Type}.



End Extremum.

(** ** The further properties on the fixtures *)

Section Examples2.

Import Fixture Scenario Scenario2.

Lemma product_combs_length (entity_ids : list (list string)) (comb : list string) :
  In comb (product_combs entity_ids) -> List.length comb = List.length entity_ids.
Proof.
  revert comb. induction entity_ids as [| l entity_ids IH]; intros comb Hin.
  - destruct Hin as [<- | []]. reflexivity.
  - unfold product_combs in Hin. cbn [fold_right] in Hin.
    apply in_flat_map in Hin as [x [_ Hin]].
    apply in_map_iff in Hin as [comb' [<- Hin]].
    cbn [List.length]. f_equal. now apply IH.
Qed.

Lemma ltb_asym (a b : Z) : (a <? b) = true -> (b <? a) = false.
Proof. intros H. apply Z.ltb_lt in H. apply Z.ltb_ge. lia. Qed.

Lemma ltb_negtrans (a b c : Z) : (a <? c) = true -> (a <? b) = true \/ (b <? c) = true.
Proof.
  intros H. apply Z.ltb_lt in H.
  destruct (Z.ltb_spec a b); [now left | right]. apply Z.ltb_lt. lia.
Qed.

Lemma from_template_at_most_one_witness :
  (List.length [["P1"; "b"]] <= 1)%nat.
Proof.
  refine (from_template_at_most_one (env_of kg_count_template) (R := unit) [["E"]] []
            [["P1"; "forw"]] (start 7)
            (snd (from_template_one_ent (R := unit) (env_of kg_count_template) [["E"]]
                    [["P1"; "forw"]] (start 7)))
            [["P1"; "b"]] (or_introl _)).
  vm_compute. reflexivity.
Defined.

Lemma two_hop_two_ent_single_join_witness :
  exists rel obj, Forall (joins rel obj) [["P1"; "P106"; "o"]; ["P1"; "o"]].
Proof.
  refine (two_hop_two_ent_single_join (env_of kg_mixed) (R := unit) question [["A"; "B"]]
            (start 7)
            (snd (two_hop_two_ent (R := unit) (env_of kg_mixed) question [["A"; "B"]]
                    (start 7)))
            [["P1"; "P106"; "o"]; ["P1"; "o"]] _).
  vm_compute. reflexivity.
Defined.



Lemma find_candidate_answers_maxmin_at_most_one_witness :
  (List.length [["P1"; "P2"; "o2"]] <= 1)%nat.
Proof.
  refine (find_candidate_answers_maxmin_at_most_one env_maxmin (R := unit) question
            [["C"]; ["B"]] rels_maxmin (start 6)
            (snd (find_candidate_answers (R := unit) env_maxmin question [["C"]; ["B"]]
                    rels_maxmin (start 6)))
            [["P1"; "P2"; "o2"]] (or_intror _) _).
  - reflexivity.
  - vm_compute. reflexivity.
Defined.

Lemma find_candidate_answers_active_template_witness :
  template_num (snd (find_candidate_answers (R := unit) (env_of kg_three) question [["B"]]
                       None (start 0))) = template_num (start 0)
  \/ (0 <= template_num (start 0) <= 3
      /\ template_num (snd (find_candidate_answers (R := unit) (env_of kg_three) question
                              [["B"]] None (start 0))) = 7)
  \/ (template_num (start 0) = 6
      /\ template_num (snd (find_candidate_answers (R := unit) (env_of kg_three) question
                              [["B"]] None (start 0))) = 5).
Proof.
  refine (find_candidate_answers_active_template (env_of kg_three) (R := unit) question
            [["B"]] None (start 0) _
            (fst (find_candidate_answers (R := unit) (env_of kg_three) question [["B"]] None
                    (start 0))) _).
  vm_compute. reflexivity.
Defined.

Lemma find_candidate_answers_no_entity_lists_witness :
  fst (find_candidate_answers (R := unit) (env_of kg_three) question [] None (start 5))
  = Raised Py.IndexError.
Proof.
  refine (proj2 (find_candidate_answers_no_entity_lists (env_of kg_three) (R := unit)
                   question None (start 5)) (or_intror (or_introl _))).
  reflexivity.
Defined.

Lemma find_candidate_answers_empty_graph_witness :
  exists st',
    find_candidate_answers (R := unit) (env_of []) question [["A"]; ["B"]] None (start 2)
    = (Normal [], st').
Proof.
  refine (find_candidate_answers_empty_graph (env_of []) (fun c => eq_refl) _ (R := unit)
            question [["A"]; ["B"]] (start 2) _).
  - intros entity_ids comb Hlen Hin. apply product_combs_length in Hin. lia.
  - discriminate.
Defined.

Lemma complex_question_with_number_solver_unbound_ex_rels_witness :
  complex_question_with_number_solver (R := unit) (with_year "2001" (env_of [])) question
    [["E"]] (Some [["P1"; "forw"]]) (start 0)
  = (Raised Py.UnboundLocalError,
     snd (find_relevant_subgraph_cqwn (R := unit) (with_year "2001" (env_of [])) ["E"] ["P1"]
            "2001" (start 0))).
Proof.
  refine (complex_question_with_number_solver_unbound_ex_rels (with_year "2001" (env_of []))
            (R := unit) question ["E"] [] ["P1"; "forw"] [] "2001" (start 0) _
            (or_introl (conj _ _)) _).
  - reflexivity.
  - reflexivity.
  - vm_compute. reflexivity.
Defined.

Lemma two_hop_one_ent_beyond_type_witness :
  Forall beyond_type [["P1"; "o"]].
Proof.
  refine (two_hop_one_ent_beyond_type (env_of kg_three) (R := unit) question ["B"] (start 7)
            (snd (two_hop_one_ent (R := unit) (env_of kg_three) question ["B"] (start 7)))
            [["P1"; "o"]] _ _ _).
  - reflexivity.
  - reflexivity.
  - vm_compute. reflexivity.
Defined.



Lemma call_question_without_entities_witness :
  fst (call_question (R := unit) (env_of kg_three) no_match int_of_digits never_digits
         question "7" [] (start 0)) = Normal []
  /\ calls (snd (call_question (R := unit) (env_of kg_three) no_match int_of_digits
                   never_digits question "7" [] (start 0))) = calls (start 0).
Proof.
  refine (call_question_without_entities (env_of kg_three) no_match int_of_digits
            never_digits (R := unit) question "7" 7 (start 0) _ _ _).
  - reflexivity.
  - reflexivity.
  - discriminate.
Defined.

Lemma call_candidates_one_per_question_witness :
  List.length ([[]; []] : list (list candidate))
  = Nat.min (List.length [question; question])
            (Nat.min (List.length ["7"; "7"; "7"]) (List.length [["B"]; ["B"]])).
Proof.
  refine (call_candidates_one_per_question (env_of kg_three) no_match int_of_digits
            never_digits (R := unit) [question; question] ["7"; "7"; "7"] [["B"]; ["B"]]
            (start 0)
            (snd (call_candidates (R := unit) (env_of kg_three) no_match int_of_digits
                    never_digits [question; question] ["7"; "7"; "7"] [["B"]; ["B"]]
                    (start 0)))
            [[]; []] _).
  vm_compute. reflexivity.
Defined.

End Examples2.
